(* ===== verification/_CoqProject ===== *)
-Q . S2P
Prelude.v
Python.v
Api.v
Converter.v
Samples.v
TimeNorm.v
Stations.v
Routes.v
Trips.v
TripBuilder.v
Crawl.v
Http.v
CrawlTermination.v
CrawlSemantics.v
Calendar.v
Output.v
Main.v
Cli.v
