(* ===== verification/Prelude.v ===== *)
(** * Verification of db-api-to-gtfs (src/db_to_gtfs.py)

    The program is one Python 2 class, [DBApiToGTFS], and [main].  [main]
    registers seed stations, then crawls: for every station not yet
    fetched it queries the DB departure board day after day
    ([get_all_trips_for_stop]), fetches the journey of every new departure
    of that station ([process_trip]), registers the journey's stations
    ([process_station_by_ob]), its route and agency ([route_append]),
    normalizes its times ([pack_trip]) and merges it with an equal trip or
    appends it ([trip_compare], [trip_append]).  After the crawl it groups
    the trips' day sets into services ([generate_calendar_dates]) and
    writes the GTFS tables ([write_*]).

    ** Files, in dependency order

    - [Prelude]: the exceptions [py_exc], the state-and-exception monad
      [M] (state = the converter object) with its notations in [py_scope],
      the fuel monad [MF] for [while] loops, [scan_index] (a linear scan
      with early return) and [intern] ("return the index of the first
      equal element, else append"), the abstract specification the route
      table, the trip table and the calendar refine; [preserves], the
      invariant of a handler, with combinators through the monad; hint
      databases [py] and [py_rw] and the tactics [M_inv], [py_simp],
      [preserves_tac], [decide_by_eval].
    - [Python]: [str.split], [int()], [str()] and Python 2's mixed-type
      [>] ([py2_gt]), written as Python defines them.
    - [Api]: the JSON shapes the code reads and [Env], the record of
      capabilities the code calls but does not define: the two REST
      endpoints, [dateutil.parser.parse], [HTMLParser.unescape].  A failed
      fetch is the exception [FetchError].
    - [Converter]: the records [Station], [StopTime], [Trip], [Route] and
      [Converter] (the object's fields, [__init__]).
    - [Samples]: concrete APIs and converters used by the witnesses.
    - [TimeNorm] ([pack_trip], 236-259); [Stations] ([process_station_by_id],
      [process_station_by_ob], [get_station_ob], [get_unfetched_station_id]);
      [Routes] ([route_append]); [Trips] ([trip_compare], [trip_append]);
      [TripBuilder] ([process_trip]); [Crawl] ([get_all_trips_for_stop],
      [dep_processed], the loops of [main]); [Http] (the request URLs as
      [string.Template] substitutions of [DEP_URL] and [STATION_URL], the
      JSON values of [json.load] with Python's [in], [d[k]] and [d.get],
      the board handling of 89-95 and [get_station_detail]);
      [CrawlTermination] (why the
      loop of [main] ends); [CrawlSemantics] (a big-step relational
      semantics of the two [while] loops, [crawl_exec], [station_exec],
      [main_exec], one constructor per way an iteration ends); [Calendar]
      ([generate_calendar_dates]); [Output] (the rows of the [write_*]
      methods, header first); [Main] ([main] from the seeds to the
      feed); [Cli] (the
      options [main] reads, docopt's defaults, the default start date
      [today] and end date start + 3 days, 423-433).
    Each file has a Module with the definitions, one with the lemmas
    ([...Props]), and the claims' witnesses on concrete inputs.  Handlers
    that mutate the object are functions [Converter -> res (A * Converter)]
    whose steps follow the code's statements in order; [self.stops] is a
    [gmap Z Station] (its iteration order is [map_to_list]), lists updated
    by index use stdpp's [alter]/[!!].

    ** What is proved

    - Deduplication: [trip_compare] is equality of a structural key, so an
      equivalence; [trip_append], [route_append] and [generate_calendar_dates]
      refine [intern]; the service days per trip key grow by exactly the
      new day; the route table never lists an identity twice.
    - The converter invariant ([converter_wf]): every kept trip has two
      stop times or more, registered and served stations and a route with
      its identity; [process_trip] preserves it, and the whole crawl
      preserves it together with "no service id yet, empty calendar"
      ([CrawlInv.crawl_inv]), whatever the API answers.
    - Output safety: after any crawl that completes, [main] writes the
      feed without error and every trips.txt row names a service whose
      calendar entry is exactly the trip's days.
    - Time normalization: rolled times are [int(h) + 24*delta], every date
      of a packed trip is its service day or earlier.
    - Crawl: the loop of one station ends for every API behaviour with
      fuel above the days left in the window; a station with an empty
      board is exhausted after exactly that many queries; every query
      moves the cursor date at least one day.  The loop of [main], and
      [main] itself, end when the station ids the API can mention form a
      finite set.
    - Calendar: each trip's service lists exactly its days, without
      duplicates, and the table refines sequential interning of the day
      sets.
    - Output: the rows of trips.txt (a missing service id raises
      [KeyError]) and of stops.txt (exactly the served stations).
    - Loop semantics ([CrawlSemantics]): the fuel interpreters are sound
      and complete for the relational semantics (lemmas); when [main]'s
      loop ends normally every registered station is fetched, unless it
      stopped at an unfetched station of id 0.
    - HTTP and JSON ([Http]): the request of each crawl iteration always
      builds and carries [id=00<stop_id>] (whose [int] is the station),
      the cursor date and time; the board handling implements the board
      capability the crawl is modelled with ([Crawl.board_departures]) and
      raises nothing but [TypeError].
    - Command line: with no dates given the run is that of the window
      [today, today + 3]; a malformed start date raises before any fetch.
    - An empty window (end date not after the start date): [main] marks
      the seeds fetched without a departure-board query and writes the
      headers only, whatever the API answers, every seed ending fetched
      ([main_empty_window]); the
      end date is excluded from the crawl yet written as
      [feed_end_date].
    - Divergences from the specification: for every station and every
      two departures whose hours rise while their minutes fall, the
      cursor's hour and minute are raised independently and the next
      query asks for a time later than both
      ([update_cursor_mixes_departures]); a discarded single-stop journey
      still registers its route and marks its station; a single stop sent
      as a bare object raises [TypeError]; trips.txt's route_id cell is
      the trip index ([write_trips_spec]).

    ** Fuel and bounds

    [crawl_loop] (the [while stop['last_date'] < self.end_date] loop)
    takes fuel; [get_all_trips_for_stop_terminates] shows that any fuel
    above [end_date - last_date] days suffices, since each query moves the
    cursor date at least one day.  [main_loop] takes fuel for the number of
    stations crawled: [main_loop_terminates] and [main_terminates] show
    that fuel above [size U] suffices when every station id the API can
    return lies in the finite set [U] (a station is crawled once, and an
    uncrawled station's cursor is at the start date, so [inner] above the
    window's days suffices for each).  Without such a bound the crawl can
    discover stations forever, and no fuel suffices.  Integers are
    Python integers (unbounded), so [Z] and [nat] without wrap-around.

    ** Not modelled

    The docopt parser (its result is the record [Cli.Options]), the
    clock ([time.strftime] gives [today], a parameter), the prints and
    the [KeyboardInterrupt] handler, the text [csv.DictWriter] makes of
    the rows (quoting and line ends, library code), opening and closing
    the files,
    [float()] of coordinates (kept as text), [strftime] (a parameter of
    the writers), the network ([urlopen] and [json.load], i.e.
    [fetch_json]: the crawl reads answers through [Env]), and the decoding
    of journey and station objects into the records of [Api] (the code
    reads their keys lazily, at the statement that uses them; [Env]
    hands them over as records). *)

From stdpp Require Import base list gmap strings.
From Stdlib Require Import ZArith Lia.

(** ** Python exceptions and results

    Every failure of the Python program is an uncaught exception that
    ends the run before any file is written ([main] only writes after the
    crawl).  The model keeps the exception kind.  Loops whose bound the
    code does not know are run with fuel in the monad [MF] below, whose
    [None] marks a run that stopped early; the termination theorems show
    it does not happen with the fuel they give. *)

Inductive py_exc :=
  | KeyError     (* d[k] on a missing key *)
  | IndexError   (* l[i] out of range *)
  | ValueError   (* int(s) on a non-number *)
  | TypeError    (* indexing a value of the wrong JSON shape *)
  | FetchError   (* urllib2.urlopen / json.load failing *)
  | AttributeError. (* a method called on a value of the wrong JSON type *)

#[export] Instance py_exc_eq_dec : EqDecision py_exc.
Proof. solve_decision. Defined.

Inductive res (A : Type) :=
  | Ok (a : A)
  | Exc (e : py_exc).
Arguments Ok {A} a.
Arguments Exc {A} e.

(** A computation of the converter: explicit passing of the state [S]
    (the fields of the [DBApiToGTFS] object) with exceptions. *)
Definition M (S A : Type) : Type := S -> res (A * S).

Definition retM {S A} (a : A) : M S A := fun s => Ok (a, s).
Definition raiseM {S A} (e : py_exc) : M S A := fun _ => Exc e.
Definition getM {S} : M S S := fun s => Ok (s, s).
Definition putM {S} (s : S) : M S unit := fun _ => Ok (tt, s).
Definition modifyM {S} (f : S -> S) : M S unit := fun s => Ok (tt, f s).
Definition bindM {S A B} (m : M S A) (k : A -> M S B) : M S B :=
  fun s => match m s with
           | Ok (a, s') => k a s'
           | Exc e => Exc e
           end.
(** A pure Python expression that may raise. *)
Definition liftR {S A} (r : res A) : M S A :=
  fun s => match r with
           | Ok a => Ok (a, s)
           | Exc e => Exc e
           end.
Definition of_option {A} (e : py_exc) (o : option A) : res A :=
  match o with Some a => Ok a | None => Exc e end.
(** A capability of the environment: [inl e] is an exception it raises. *)
Definition of_sum {A} (r : py_exc + A) : res A :=
  match r with inl e => Exc e | inr a => Ok a end.
Definition to_sum {A} (r : res A) : py_exc + A :=
  match r with Exc e => inl e | Ok a => inr a end.

(** Sequencing of pure expressions that may raise. *)
Definition bindR {A B} (r : res A) (k : A -> res B) : res B :=
  match r with Ok a => k a | Exc e => Exc e end.

(** [map] with a function that may raise: the first exception wins. *)
Fixpoint mapR {A B} (f : A -> res B) (l : list A) : res (list B) :=
  match l with
  | [] => Ok []
  | x :: l' => bindR (f x) (fun y => bindR (mapR f l') (fun ys => Ok (y :: ys)))
  end.

(** ** Loops run with fuel

    [MF S A]: a computation that may also run out of fuel ([None]).  Only
    the crawl's [while] loops, whose number of iterations depends on the
    remote API, are written in it. *)
Definition MF (S A : Type) : Type := S -> option (res (A * S)).

Definition liftF {S A} (m : M S A) : MF S A := fun s => Some (m s).
Definition bindF {S A B} (m : MF S A) (k : A -> MF S B) : MF S B :=
  fun s => match m s with
           | Some (Ok (a, s')) => k a s'
           | Some (Exc e) => Some (Exc e)
           | None => None
           end.

Declare Scope py_scope.
Delimit Scope py_scope with py.
Notation "x <- m ;; k" := (bindM m (fun x => k))
  (at level 100, m at next level, right associativity) : py_scope.
Notation "m ;;; k" := (bindM m (fun _ => k))
  (at level 100, right associativity) : py_scope.
Notation "'let?' x ':=' r 'in' k" := (bindR r (fun x => k))
  (at level 10, x name, r at level 100, k at level 200) : py_scope.

(** [for x in l: body(x)] *)
Fixpoint forM {S A} (l : list A) (body : A -> M S unit) : M S unit :=
  match l with
  | [] => retM tt
  | x :: l' => bindM (body x) (fun _ => forM l' body)
  end.

(** ** Linear scans: [for i, x in enumerate(l): if p(x): return i] *)
Fixpoint scan_index {A} (p : A -> bool) (l : list A) : option nat :=
  match l with
  | [] => None
  | x :: l' => if p x then Some 0%nat else S <$> scan_index p l'
  end.

Create HintDb py discriminated.
Create Rewrite HintDb py_rw.

Section Scan.
Context {A : Type} (p : A -> bool).

Lemma scan_index_Some (l : list A) i :
  scan_index p l = Some i ->
  exists x, l !! i = Some x /\ p x = true /\
            forall j y, (j < i)%nat -> l !! j = Some y -> p y = false.
Proof.
  revert i. induction l as [|x l IH]; intros i H; simpl in H; [done|].
  destruct (p x) eqn:Hx.
  - injection H as <-. exists x. split_and!; [done|done|intros j y Hj; lia].
  - destruct (scan_index p l) as [i'|] eqn:E; simpl in H; [|done].
    injection H as <-. destruct (IH i' eq_refl) as (y & Hy & Hpy & Hfirst).
    exists y. split_and!; [done|done|].
    intros [|j] z Hj Hz; simpl in Hz; [congruence|].
    apply (Hfirst j z); [lia|done].
Qed.

Lemma scan_index_None (l : list A) :
  scan_index p l = None <-> Forall (fun x => p x = false) l.
Proof.
  induction l as [|x l IH]; simpl; [split; auto|].
  rewrite Forall_cons. destruct (p x); [split; [done|intros []; done]|].
  rewrite <- IH. destruct (scan_index p l); simpl; split; (done || intros []; done).
Qed.

Lemma scan_index_lt (l : list A) i :
  scan_index p l = Some i -> (i < length l)%nat.
Proof.
  intros (x & Hx & _)%scan_index_Some. eapply lookup_lt_Some; eauto.
Qed.

Lemma scan_index_app_None (l1 l2 : list A) :
  scan_index p l1 = None -> scan_index p (l1 ++ l2) = Nat.add (length l1) <$> scan_index p l2.
Proof.
  induction l1 as [|x l1 IH]; simpl; intros H.
  - by destruct (scan_index p l2).
  - destruct (p x); [done|]. destruct (scan_index p l1); [done|].
    rewrite IH; [|done]. by destruct (scan_index p l2).
Qed.
End Scan.

Lemma scan_index_ext {A} (p q : A -> bool) (l : list A) :
  (forall x, p x = q x) -> scan_index p l = scan_index q l.
Proof. intros Hpq. induction l as [|x l IH]; simpl; [done|]. by rewrite Hpq, IH. Qed.

Lemma scan_index_map {A B} (p : B -> bool) (f : A -> B) (l : list A) :
  scan_index p (map f l) = scan_index (fun x => p (f x)) l.
Proof. induction l as [|x l IH]; simpl; [done|]. by rewrite IH. Qed.

Lemma lookup_map_Some {A B} (f : A -> B) (l : list A) i y :
  map f l !! i = Some y -> exists x, l !! i = Some x /\ f x = y.
Proof.
  revert i. induction l as [|x l IH]; intros [|i] H; simpl in H; try done.
  - injection H as <-. by exists x.
  - by apply IH.
Qed.

#[export] Hint Resolve scan_index_lt : py.

(** Monad laws used to rewrite composite handlers. *)
Lemma mapR_Ok {A B} (f : A -> res B) (l : list A) ys :
  mapR f l = Ok ys -> Forall2 (fun x y => f x = Ok y) l ys.
Proof.
  revert ys. induction l as [|x l IH]; intros ys H; simpl in H.
  - injection H as <-. constructor.
  - destruct (f x) as [y|] eqn:Ef; try discriminate. simpl in H.
    destruct (mapR f l) as [ys'|] eqn:El; try discriminate. injection H as <-.
    constructor; auto.
Qed.

Lemma mapR_Forall2 {A B} (f : A -> res B) (l : list A) ys :
  Forall2 (fun x y => f x = Ok y) l ys -> mapR f l = Ok ys.
Proof. induction 1 as [|x y l ys Hxy _ IH]; simpl; [done|]. by rewrite Hxy; simpl; rewrite IH. Qed.

Lemma of_option_Ok {A} e (o : option A) a : of_option e o = Ok a <-> o = Some a.
Proof. destruct o; simpl; split; congruence. Qed.

Lemma bindF_Some {S A B} (m : MF S A) (k : A -> MF S B) s :
  is_Some (m s) -> (forall a s', m s = Some (Ok (a, s')) -> is_Some (k a s')) ->
  is_Some (bindF m k s).
Proof.
  intros [r Hr] Hk. unfold bindF. rewrite Hr. destruct r as [[a s']|e]; [by apply Hk|by eexists].
Qed.

Lemma bindF_inv {S A B} (m : MF S A) (k : A -> MF S B) s r :
  bindF m k s = Some (Ok r) -> exists a s', m s = Some (Ok (a, s')) /\ k a s' = Some (Ok r).
Proof. unfold bindF. destruct (m s) as [[[a s']|e]|]; eauto; discriminate. Qed.

Lemma bindM_retM {S A B} (a : A) (k : A -> M S B) s : bindM (retM a) k s = k a s.
Proof. reflexivity. Qed.

Lemma bindM_Ok {S A B} (m : M S A) (k : A -> M S B) s a s' :
  m s = Ok (a, s') -> bindM m k s = k a s'.
Proof. intros H. unfold bindM. by rewrite H. Qed.

Lemma bindM_inv {S A B} (m : M S A) (k : A -> M S B) s r :
  bindM m k s = Ok r -> exists a s', m s = Ok (a, s') /\ k a s' = Ok r.
Proof. unfold bindM. destruct (m s) as [[a s']|]; eauto; discriminate. Qed.


(** A loop whose every iteration is an [R] step is an [R] step. *)
Lemma forM_rel {S A} (R : S -> S -> Prop) `{!PreOrder R} (l : list A) (body : A -> M S unit) s s' :
  (forall x s1 s2 u, body x s1 = Ok (u, s2) -> R s1 s2) ->
  forM l body s = Ok (tt, s') -> R s s'.
Proof.
  intros Hb. revert s. induction l as [|x l IH]; intros s H; simpl in H.
  - injection H as <-. reflexivity.
  - apply bindM_inv in H as (u & s1 & H1 & H2). etrans; [exact (Hb _ _ _ _ H1)|by apply IH].
Qed.

Lemma liftR_Ok {S A} (r : res A) (s s' : S) a : liftR r s = Ok (a, s') <-> r = Ok a /\ s' = s.
Proof.
  unfold liftR. destruct r as [x|]; split; try discriminate; try (intros [? ?]; discriminate).
  - intros [= -> ->]. done.
  - intros [[= ->] ->]. done.
Qed.

Lemma retM_Ok {S A} (a a' : A) (s s' : S) : retM a s = Ok (a', s') <-> a' = a /\ s' = s.
Proof. unfold retM. split; [intros [= -> ->]|intros [-> ->]]; done. Qed.

Lemma of_sum_Ok {A} (r : py_exc + A) a : of_sum r = Ok a <-> r = inr a.
Proof. destruct r; simpl; split; congruence. Qed.

Lemma getM_Ok {S} (s s' a : S) : getM s = Ok (a, s') <-> a = s /\ s' = s.
Proof. unfold getM. split; [intros [= -> ->]|intros [-> ->]]; done. Qed.

Lemma modifyM_Ok {S} (f : S -> S) (s s' : S) u : modifyM f s = Ok (u, s') <-> s' = f s.
Proof. unfold modifyM. destruct u. split; [intros [= ->]|intros ->]; done. Qed.

#[export] Hint Rewrite @bindM_retM : py_rw.

(** Invert a successful run [m s = Ok (a, s')] of a composite handler
    into the runs of its parts. *)
Ltac M_inv H :=
  repeat match type of H with
  | bindM _ _ _ = Ok (_, _) =>
      let a := fresh "a" in let s := fresh "s" in let Ha := fresh "Hm" in
      apply bindM_inv in H as (a & s & Ha & H); try M_inv Ha
  | liftR _ _ = Ok (_, _) => apply liftR_Ok in H as [? ?]; subst
  | retM _ _ = Ok (_, _) => apply retM_Ok in H as [? ?]; subst
  | getM _ = Ok (_, _) => apply getM_Ok in H as [? ?]; subst
  end;
  repeat match goal with
         | Hs : of_sum _ = Ok _ |- _ => apply of_sum_Ok in Hs
         | Hs : of_option _ _ = Ok _ |- _ => apply of_option_Ok in Hs
         end.

(** [py_simp] unfolds the monad plumbing of a goal or hypothesis. *)
Ltac py_simp :=
  unfold bindM, retM, raiseM, getM, putM, modifyM, liftR in *; simpl in *.

(** Case analysis on the result of a sub-computation [m s] in the goal. *)
Ltac py_case :=
  match goal with
  | |- context [match ?m with Ok _ => _ | Exc _ => _ end] =>
      let E := fresh "E" in destruct m as [[? ?]| ?] eqn:E
  end.

(** ** Interning: the abstract specification of "scan, else append"

    [intern k l] returns the index of the first [k] in [l], or appends [k]
    and returns its index.  The route table ([route_append]), the agency
    list and the calendar groups ([generate_calendar_dates]) refine it. *)
Section Intern.
Context {K : Type} `{EqDecision K}.

Definition intern (k : K) (l : list K) : nat * list K :=
  match scan_index (fun x => bool_decide (x = k)) l with
  | Some i => (i, l)
  | None => (length l, l ++ [k])
  end.

Lemma intern_lookup k l : (intern k l).2 !! (intern k l).1 = Some k.
Proof.
  unfold intern. destruct (scan_index _ l) as [i|] eqn:E; simpl.
  - apply scan_index_Some in E as (x & Hx & Hk & _). apply bool_decide_eq_true in Hk. congruence.
  - rewrite lookup_app_r, Nat.sub_diag by lia. done.
Qed.

Lemma intern_prefix k l : l `prefix_of` (intern k l).2.
Proof. unfold intern. destruct (scan_index _ l); simpl; [done|]. by exists [k]. Qed.

Lemma intern_absent k l : k ∉ l -> intern k l = (length l, l ++ [k]).
Proof.
  intros Hk. unfold intern. destruct (scan_index _ l) as [i|] eqn:E; [|done].
  apply scan_index_Some in E as (x & Hx & Hb & _). apply bool_decide_eq_true in Hb; subst.
  exfalso. apply Hk. by eapply list_elem_of_lookup_2.
Qed.

Lemma intern_present k l i : NoDup l -> l !! i = Some k -> intern k l = (i, l).
Proof.
  intros Hnd Hi. unfold intern. destruct (scan_index _ l) as [j|] eqn:E.
  - apply scan_index_Some in E as (x & Hx & Hb & _). apply bool_decide_eq_true in Hb; subst.
    f_equal. by eapply NoDup_lookup.
  - apply scan_index_None in E. rewrite Forall_lookup in E. specialize (E i k Hi). simpl in E.
    by rewrite bool_decide_eq_false in E.
Qed.

(** What "scan, else append" does to the list, without the index. *)
Lemma intern_snd k l : (intern k l).2 = if bool_decide (k ∈ l) then l else l ++ [k].
Proof.
  case_bool_decide as Hk.
  - unfold intern. destruct (scan_index _ l) as [i|] eqn:E; [done|].
    apply scan_index_None in E. rewrite Forall_forall in E.
    specialize (E k Hk). by rewrite bool_decide_eq_false in E.
  - by rewrite intern_absent.
Qed.

Lemma scan_eq_None (k : K) (l : list K) : scan_index (fun x => bool_decide (x = k)) l = None <-> k ∉ l.
Proof.
  rewrite scan_index_None, Forall_forall. split.
  - intros H Hk. specialize (H k Hk). by rewrite bool_decide_eq_false in H.
  - intros Hk x Hx. apply bool_decide_eq_false. intros ->. contradiction.
Qed.

Lemma intern_fixed (k : K) (l : list K) i : intern k l = (i, l) -> scan_index (fun x => bool_decide (x = k)) l = Some i.
Proof.
  unfold intern. destruct (scan_index _ l) as [j|].
  - by intros [= ->].
  - intros [= Hi Hl]. apply (f_equal length) in Hl. rewrite length_app in Hl. simpl in Hl. lia.
Qed.

Lemma intern_mono k l x : x ∈ l -> x ∈ (intern k l).2.
Proof. rewrite intern_snd. case_bool_decide; [done|]. intros. apply elem_of_app; by left. Qed.

Lemma intern_mem k l : k ∈ (intern k l).2.
Proof. apply list_elem_of_lookup_2 with (intern k l).1. apply intern_lookup. Qed.

Lemma intern_NoDup k l : NoDup l -> NoDup (intern k l).2.
Proof.
  intros Hnd. destruct (decide (k ∈ l)) as [Hk|Hk].
  - apply list_elem_of_lookup in Hk as [i Hi]. by rewrite (intern_present k l i).
  - rewrite intern_absent by done. simpl. apply NoDup_app. split_and!; [done| |apply NoDup_singleton].
    intros x Hx ->%list_elem_of_singleton. contradiction.
Qed.

(** Interning the same key again changes nothing. *)
Lemma intern_idem k l : intern k (intern k l).2 = intern k l.
Proof.
  unfold intern at 2. destruct (scan_index _ l) as [i|] eqn:E; simpl.
  - unfold intern. by rewrite E.
  - unfold intern. rewrite scan_index_app_None, E by done. simpl.
    rewrite bool_decide_eq_true_2 by done. simpl. by rewrite Nat.add_0_r.
Qed.
End Intern.

#[export] Hint Resolve intern_mono intern_mem intern_NoDup intern_prefix : py.

(** Close a boolean goal built from [bool_decide] tests by case analysis
    on each test. *)
Ltac bool_decide_cases :=
  repeat case_bool_decide; simplify_eq/=; first [done | congruence | naive_solver].

Lemma bool_decide_app_tail {A} `{EqDecision A} (X Y : list A) (x y : A) :
  bool_decide (X ++ [x] = Y ++ [y]) = bool_decide (X = Y) && bool_decide (x = y).
Proof.
  apply eq_bool_prop_intro. rewrite andb_True, !bool_decide_spec. split.
  - apply app_inj_tail.
  - intros [-> ->]. done.
Qed.

(** ** In-place updates of a list element ([l[i] = f(l[i])]) *)
Lemma map_list_alter {A B} (g : A -> B) (f : A -> A) (l : list A) i :
  (forall x, g (f x) = g x) -> map g (alter f i l) = map g l.
Proof.
  intros Hg. revert i. induction l as [|x l IH]; intros [|i]; simpl; try done.
  - by rewrite Hg.
  - f_equal. apply IH.
Qed.

Lemma list_alter_idem {A} (f : A -> A) (l : list A) i :
  (forall x, f (f x) = f x) -> alter f i (alter f i l) = alter f i l.
Proof.
  intros Hf. revert i. induction l as [|x l IH]; intros [|i]; simpl; try done.
  - by rewrite Hf.
  - f_equal. apply IH.
Qed.

Lemma foldr_union_alter {A K} `{Countable K}
    (F : A -> gset K) (f : A -> A) (l : list A) i x (D : gset K) :
  l !! i = Some x -> F (f x) = F x ∪ D ->
  foldr (fun t acc => F t ∪ acc) ∅ (alter f i l) = foldr (fun t acc => F t ∪ acc) ∅ l ∪ D.
Proof.
  revert i. induction l as [|y l IH]; intros [|i] Hi HF; simpl in *; try done.
  - injection Hi as ->. rewrite HF. set_solver.
  - specialize (IH i Hi HF). simpl in IH. set_solver.
Qed.

(** Prove a decidable proposition on closed data by evaluation. *)
Ltac decide_by_eval :=
  match goal with |- ?P => refine (bool_decide_unpack P _); vm_compute; exact I end.

(** ** Invariants of stateful code

    [preserves P m]: every successful run of [m] from a state satisfying
    [P] ends in a state satisfying [P].  The combinators below carry it
    through the monad's constructs, so that an invariant of a handler is
    proved from the invariants of the steps it calls. *)
Definition preserves {S A} (P : S -> Prop) (m : M S A) : Prop :=
  forall s a s', m s = Ok (a, s') -> P s -> P s'.

Definition preservesF {S A} (P : S -> Prop) (m : MF S A) : Prop :=
  forall s a s', m s = Some (Ok (a, s')) -> P s -> P s'.

Section Preserves.
Context {S : Type} (P : S -> Prop).

Lemma preserves_retM {A} (a : A) : preserves P (retM a).
Proof. intros s a' s' H. by apply retM_Ok in H as [_ ->]. Qed.

Lemma preserves_raiseM {A} e : preserves (A:=A) P (raiseM e).
Proof. intros s a s' H. discriminate. Qed.

Lemma preserves_getM : preserves P getM.
Proof. intros s a s' H. by apply getM_Ok in H as [_ ->]. Qed.

Lemma preserves_liftR {A} (r : res A) : preserves P (liftR r).
Proof. intros s a s' H. by apply liftR_Ok in H as [_ ->]. Qed.

Lemma preserves_modifyM f : (forall s, P s -> P (f s)) -> preserves P (modifyM f).
Proof. intros Hf s u s' H. apply modifyM_Ok in H as ->. apply Hf. Qed.

Lemma preserves_bindM {A B} (m : M S A) (k : A -> M S B) :
  preserves P m -> (forall a, preserves P (k a)) -> preserves P (bindM m k).
Proof.
  intros Hm Hk s b s' H Hs. apply bindM_inv in H as (a & s1 & H1 & H2).
  eapply Hk; [exact H2|]. eapply Hm; [exact H1|exact Hs].
Qed.

Lemma preserves_if {A} (b : bool) (m1 m2 : M S A) :
  preserves P m1 -> preserves P m2 -> preserves P (if b then m1 else m2).
Proof. by destruct b. Qed.

Lemma preserves_forM {A} (l : list A) (body : A -> M S unit) :
  (forall x, preserves P (body x)) -> preserves P (forM l body).
Proof.
  intros Hb. induction l as [|x l IH]; simpl; [apply preserves_retM|].
  apply preserves_bindM; [apply Hb|intros _; exact IH].
Qed.

Lemma preservesF_liftF {A} (m : M S A) : preserves P m -> preservesF P (liftF m).
Proof. intros Hm s a s' H. injection H as H. eapply Hm; exact H. Qed.

Lemma preservesF_bindF {A B} (m : MF S A) (k : A -> MF S B) :
  preservesF P m -> (forall a, preservesF P (k a)) -> preservesF P (bindF m k).
Proof.
  intros Hm Hk s b s' H Hs. apply bindF_inv in H as (a & s1 & H1 & H2).
  eapply Hk; [exact H2|]. eapply Hm; [exact H1|exact Hs].
Qed.

Lemma preservesF_none {A} : preservesF (A:=A) P (fun _ => None).
Proof. intros s a s' H. discriminate. Qed.
End Preserves.

(** One step of an invariant proof: split the construct at the head of
    the handler. *)
Ltac preserves_step :=
  match goal with
  | |- preserves _ (bindM _ _) => apply preserves_bindM; [|intros ?]
  | |- preserves _ (retM _) => apply preserves_retM
  | |- preserves _ (raiseM _) => apply preserves_raiseM
  | |- preserves _ getM => apply preserves_getM
  | |- preserves _ (liftR _) => apply preserves_liftR
  | |- preserves _ (forM _ _) => apply preserves_forM; intros ?
  | |- preserves _ (if _ then _ else _) => apply preserves_if
  | |- preserves _ (match ?x with _ => _ end) => destruct x
  | |- preservesF _ (bindF _ _) => apply preservesF_bindF; [|intros ?]
  | |- preservesF _ (liftF _) => apply preservesF_liftF
  | |- preservesF _ (fun _ => None) => apply preservesF_none
  | |- preservesF _ (match ?x with _ => _ end) => destruct x
  | |- preservesF _ (if ?b then _ else _) => destruct b
  end.

Ltac preserves_tac := repeat (preserves_step || eauto with py).
