(* ===== verification/Python.v ===== *)
(** * Python builtins used by db_to_gtfs.py

    The string and number primitives the converter relies on, written out
    as Python 2 defines them: [str.split(':')], [int(s)] on a string,
    [str(n)] on an integer, and the Python 2 ordering [>] between values
    of mixed types (an [int] is smaller than any [str]). *)

From stdpp Require Import base list strings.
From Stdlib Require Import ZArith Lia Ascii DecimalString DecimalZ.
From S2P Require Import Prelude.

Local Open Scope string_scope.

(** ** [str.split(sep)]: split at every occurrence of [sep]; the result
    is never empty ("".split(':') = [''], "abc".split(':') = ['abc']). *)
Fixpoint py_split_aux (sep : ascii) (s : string) (cur : string) : list string :=
  match s with
  | EmptyString => [cur]
  | String c s' =>
      if Ascii.eqb c sep then cur :: py_split_aux sep s' ""
      else py_split_aux sep s' (cur +:+ String c EmptyString)
  end.
Definition py_split (sep : ascii) (s : string) : list string := py_split_aux sep s "".

(** [l[i]] on a list, raising [IndexError] out of range. *)
Definition py_index {A} (l : list A) (i : nat) : res A := of_option IndexError (l !! i).

(** ** [int(s)] on a string (Python 2 [int] of a [unicode] string):
    surrounding white space is stripped, an optional sign is read, and
    the rest must be a non-empty run of decimal digits (leading zeros
    allowed: int('0015') = 15); anything else raises [ValueError]. *)
Definition is_py_space (c : ascii) : bool :=
  Ascii.eqb c " " || Ascii.eqb c (Ascii.ascii_of_nat 9) || Ascii.eqb c (Ascii.ascii_of_nat 10)
  || Ascii.eqb c (Ascii.ascii_of_nat 11) || Ascii.eqb c (Ascii.ascii_of_nat 12)
  || Ascii.eqb c (Ascii.ascii_of_nat 13).

Fixpoint drop_spaces (l : list ascii) : list ascii :=
  match l with
  | c :: l' => if is_py_space c then drop_spaces l' else l
  | [] => []
  end.

Definition py_strip (s : string) : list ascii :=
  rev (drop_spaces (rev (drop_spaces (String.list_ascii_of_string s)))).

Definition py_digits (l : list ascii) : option Z :=
  match l with
  | [] => None
  | _ => Z.of_uint <$> NilEmpty.uint_of_string (String.string_of_list_ascii l)
  end.

Definition py_int_opt (s : string) : option Z :=
  match py_strip s with
  | [] => None
  | c :: ds =>
      if Ascii.eqb c "-"%char then Z.opp <$> py_digits ds
      else if Ascii.eqb c "+"%char then py_digits ds
      else py_digits (c :: ds)
  end.

Definition py_int (s : string) : res Z := of_option ValueError (py_int_opt s).

(** ** [str(n)] on an integer: decimal digits, with a leading '-' for a
    negative number and "0" for zero. *)
Definition py_str (z : Z) : string := NilZero.string_of_int (Z.to_int z).

(** ** Values that are an [int] or a [str]

    A station's [last_check_h] and [last_check_m] start as the integer 0
    and become strings once a departure has been seen. *)
Inductive pyval :=
  | PInt (z : Z)
  | PStr (s : string).

#[export] Instance pyval_eq_dec : EqDecision pyval.
Proof. solve_decision. Defined.

(** Python 2 [a > b]: integers by value, strings lexicographically by
    character code, and any [str] greater than any [int] (CPython 2 orders
    numbers before every other type). *)
Definition py2_gt (a b : pyval) : bool :=
  match a, b with
  | PInt x, PInt y => Z.gtb x y
  | PStr x, PStr y => String.ltb y x
  | PStr _, PInt _ => true
  | PInt _, PStr _ => false
  end.

(** [str(v)] *)
Definition pyval_str (v : pyval) : string :=
  match v with PInt z => py_str z | PStr s => s end.

(** ** Properties of the builtins *)

Lemma py_split_aux_nonempty sep s cur : py_split_aux sep s cur <> [].
Proof. revert cur. induction s as [|c s IH]; intros cur; simpl; [done|]. by destruct (Ascii.eqb c sep). Qed.

(** [s.split(sep)[0]] never raises. *)
Lemma py_split_head sep s : exists h t, py_split sep s = h :: t.
Proof.
  unfold py_split. destruct (py_split_aux sep s "") as [|h t] eqn:E; [|eauto].
  by apply py_split_aux_nonempty in E.
Qed.

(** stdpp declares [String.append] [simpl never]; its two equations. *)
Lemma str_app_nil_l (b : string) : "" +:+ b = b.
Proof. reflexivity. Qed.
Lemma str_app_cons c (a b : string) : String c a +:+ b = String c (a +:+ b).
Proof. reflexivity. Qed.
#[export] Hint Rewrite str_app_nil_l str_app_cons : py_rw.

Lemma str_app_assoc (a b c : string) : (a +:+ b) +:+ c = a +:+ (b +:+ c).
Proof. induction a as [|x a IH]; autorewrite with py_rw; [done|by rewrite IH]. Qed.

Lemma str_app_nil_r (a : string) : a +:+ "" = a.
Proof. induction a as [|x a IH]; autorewrite with py_rw; [done|by rewrite IH]. Qed.

(** A string without [sep]. *)
Fixpoint no_char (sep : ascii) (s : string) : bool :=
  match s with
  | EmptyString => true
  | String c s' => negb (Ascii.eqb c sep) && no_char sep s'
  end.

Lemma py_split_aux_no_sep sep a s cur :
  no_char sep a = true ->
  py_split_aux sep (a +:+ s) cur = py_split_aux sep s (cur +:+ a).
Proof.
  revert cur. induction a as [|c a IH]; intros cur H; simpl in *.
  - by rewrite str_app_nil_r.
  - apply andb_true_iff in H as [Hc Ha]. apply negb_true_iff in Hc.
    rewrite Hc, IH by done.
    by rewrite str_app_assoc.
Qed.

Lemma py_split_no_sep sep a : no_char sep a = true -> py_split sep a = [a].
Proof.
  intros H. unfold py_split. rewrite <- (str_app_nil_r a) at 1.
  by rewrite py_split_aux_no_sep.
Qed.

(** ["h:m".split(':') = ['h', 'm']] when neither part contains ':'. *)
Lemma py_split_cons sep a b :
  no_char sep a = true -> py_split sep (a +:+ String sep b) = a :: py_split sep b.
Proof.
  intros H. unfold py_split. rewrite py_split_aux_no_sep by done. simpl.
  by rewrite Ascii.eqb_refl.
Qed.

(** Characters that [str(n)] produces. *)
Definition is_num_char (c : ascii) : bool :=
  negb (is_py_space c) && negb (Ascii.eqb c "+"%char).

Lemma drop_spaces_id l : Forall (fun c => is_num_char c = true) l -> drop_spaces l = l.
Proof.
  intros [|c l' Hc _]; simpl; [done|].
  apply andb_true_iff in Hc as [Hc _]. apply negb_true_iff in Hc. by rewrite Hc.
Qed.

Lemma py_strip_id s :
  Forall (fun c => is_num_char c = true) (String.list_ascii_of_string s) ->
  py_strip s = String.list_ascii_of_string s.
Proof.
  intros H. unfold py_strip. rewrite (drop_spaces_id (String.list_ascii_of_string s)) by exact H.
  rewrite drop_spaces_id; [apply rev_involutive|]. by apply Forall_rev.
Qed.

Lemma uint_string_chars d :
  Forall (fun c => is_num_char c && negb (Ascii.eqb c "-"%char) = true)
         (String.list_ascii_of_string (NilEmpty.string_of_uint d)).
Proof. induction d; cbn; [constructor|..]; (constructor; [reflexivity|assumption]). Qed.

Lemma uint_string_digits d :
  py_digits (String.list_ascii_of_string (NilZero.string_of_uint d)) = Some (Z.of_uint d).
Proof.
  destruct d; try reflexivity;
    unfold NilZero.string_of_uint, py_digits; simpl;
    rewrite String.string_of_list_ascii_of_string, NilEmpty.usu; reflexivity.
Qed.

Lemma uint_zero_chars d :
  Forall (fun c => is_num_char c && negb (Ascii.eqb c "-"%char) = true)
         (String.list_ascii_of_string (NilZero.string_of_uint d)).
Proof.
  destruct d; try apply uint_string_chars. repeat constructor.
Qed.

Lemma uint_zero_nonempty d : String.list_ascii_of_string (NilZero.string_of_uint d) <> [].
Proof. by destruct d. Qed.

Lemma py_int_opt_unsigned d : py_int_opt (NilZero.string_of_uint d) = Some (Z.of_uint d).
Proof.
  pose proof (uint_zero_chars d) as Hc. unfold py_int_opt.
  rewrite py_strip_id by (eapply Forall_impl; [exact Hc|]; intros c Hx;
                          by apply andb_true_iff in Hx as [-> _]).
  rewrite <- uint_string_digits. pose proof (uint_zero_nonempty d) as Hne.
  destruct (String.list_ascii_of_string _) as [|c ds]; [done|].
  apply Forall_cons in Hc as [Hc _]. apply andb_true_iff in Hc as [Hn Hm].
  apply andb_true_iff in Hn as [_ Hp]. apply negb_true_iff in Hm, Hp. by rewrite Hm, Hp.
Qed.

Lemma py_int_opt_signed d :
  py_int_opt (String "-" (NilZero.string_of_uint d)) = Some (- Z.of_uint d)%Z.
Proof.
  pose proof (uint_zero_chars d) as Hc. unfold py_int_opt.
  rewrite py_strip_id.
  - simpl. rewrite uint_string_digits. reflexivity.
  - constructor; [reflexivity|]. eapply Forall_impl; [exact Hc|]; intros c Hx.
    by apply andb_true_iff in Hx as [-> _].
Qed.

(** [int(str(z)) == z] for every integer [z]. *)
Lemma py_int_str (z : Z) : py_int (py_str z) = Ok z.
Proof.
  unfold py_int, py_str. rewrite <- (of_to z) at 2.
  destruct z as [|p|p]; simpl Z.to_int; [reflexivity| |].
  - unfold NilZero.string_of_int. by rewrite py_int_opt_unsigned.
  - unfold NilZero.string_of_int. by rewrite py_int_opt_signed.
Qed.

(** [str(z)] contains no ':' (it is digits and possibly a '-'). *)
Lemma uint_no_colon d : no_char ":" (NilEmpty.string_of_uint d) = true.
Proof. induction d; simpl; auto. Qed.

Lemma py_str_no_colon z : no_char ":" (py_str z) = true.
Proof.
  unfold py_str, NilZero.string_of_int, NilZero.string_of_uint.
  destruct (Z.to_int z) as [d|d]; destruct d; simpl; auto using uint_no_colon.
Qed.

Lemma no_char_app sep a b : no_char sep (a +:+ b) = no_char sep a && no_char sep b.
Proof. induction a as [|c a IH]; simpl; [done|]. by rewrite IH, andb_assoc. Qed.

Lemma py_split_aux_pieces sep s cur :
  no_char sep cur = true -> Forall (fun p => no_char sep p = true) (py_split_aux sep s cur).
Proof.
  revert cur. induction s as [|c s IH]; intros cur Hcur; simpl; [by constructor|].
  destruct (Ascii.eqb c sep) eqn:E.
  - constructor; [done|]. by apply IH.
  - apply IH. rewrite no_char_app, Hcur. simpl. by rewrite E.
Qed.

(** No piece of [s.split(sep)] contains [sep]. *)
Lemma py_split_pieces sep s : Forall (fun p => no_char sep p = true) (py_split sep s).
Proof. by apply py_split_aux_pieces. Qed.

(** [int('00' + str(z)) == z] for [z >= 0]: [int] ignores leading zeros. *)
Lemma uint_leading_zeros d : Z.of_uint (Decimal.D0 (Decimal.D0 d)) = Z.of_uint d.
Proof.
  change (Z.of_int (Decimal.Pos (Decimal.D0 (Decimal.D0 d))) = Z.of_int (Decimal.Pos d)).
  rewrite <- of_int_norm, <- (of_int_norm (Decimal.Pos d)). reflexivity.
Qed.

Lemma py_int_opt_zero_padded d :
  py_int_opt ("00" +:+ NilZero.string_of_uint d) = Some (Z.of_uint d).
Proof.
  destruct d as [|d|d|d|d|d|d|d|d|d|d]; [reflexivity|..];
    (change ("00" +:+ NilZero.string_of_uint ?x)
       with (NilZero.string_of_uint (Decimal.D0 (Decimal.D0 x)));
     by rewrite py_int_opt_unsigned, uint_leading_zeros).
Qed.

Lemma py_int_zero_padded (z : Z) : (0 <= z)%Z -> py_int ("00" +:+ py_str z) = Ok z.
Proof.
  intros Hz. unfold py_int, py_str. rewrite <- (of_to z) at 2.
  destruct z as [|p|p]; [reflexivity| |lia]. simpl Z.to_int.
  unfold NilZero.string_of_int. by rewrite py_int_opt_zero_padded.
Qed.

(** [str(z)] contains no '&'. *)
Lemma uint_no_amp d : no_char "&" (NilEmpty.string_of_uint d) = true.
Proof. induction d; simpl; auto. Qed.

Lemma py_str_no_amp z : no_char "&" (py_str z) = true.
Proof.
  unfold py_str, NilZero.string_of_int, NilZero.string_of_uint.
  destruct (Z.to_int z) as [d|d]; destruct d; simpl; auto using uint_no_amp.
Qed.
