(* ===== verification/Api.v ===== *)
(** * The remote API and the libraries the converter calls

    The JSON the DB API returns, as the converter reads it (only the keys
    it reads are kept), the XML-to-JSON quirk that makes a one-element
    list arrive as a bare object ([get_first_in_list]), and [Env]: the
    capabilities the program uses but does not define (the two REST
    endpoints behind [urllib2.urlopen]/[json.load], [dateutil]'s [parse]
    and [HTMLParser.unescape]).  Every theorem about the crawl is stated
    for an arbitrary [Env]. *)

From stdpp Require Import base list strings.
From Stdlib Require Import ZArith.
From S2P Require Import Prelude Python.

(** A JSON field that holds either one object or a list of objects. *)
Inductive one_or_list (A : Type) :=
  | JOne (a : A)
  | JList (l : list A).
Arguments JOne {A} a.
Arguments JList {A} l.

(** [get_first_in_list] (db_to_gtfs.py:113-117): [obj[0]] for a list,
    the object itself otherwise; [[][0]] raises [IndexError]. *)
Definition get_first_in_list {A} (obj : one_or_list A) : res A :=
  match obj with
  | JList l => py_index l 0
  | JOne a => Ok a
  end.

(** An entry of [DepartureBoard.Departure]: [dep['time']] ("HH:MM"),
    [dep['date']] ("YYYY-MM-DD"), [dep['stopid']], [dep['direction']],
    [dep['name']] and [dep['JourneyDetailRef']['ref']]. *)
Record Departure := mkDeparture {
  dep_time : string;
  dep_date : string;
  dep_stopid : string;
  dep_direction : string;
  dep_name : string;
  dep_ref : string
}.

(** A [StopLocation] (station search) or the station part of a journey
    stop: [id], [name], [lat], [lon] as the API sends them (strings). *)
Record StationOb := mkStationOb {
  so_id : string;
  so_name : string;
  so_lat : string;
  so_lon : string
}.

(** An entry of [JourneyDetail.Stops.Stop]; [arrTime], [depTime],
    [arrDate] and [depDate] may be absent (first and last stop). *)
Record JStop := mkJStop {
  js_name : string;
  js_id : string;
  js_lat : string;
  js_lon : string;
  js_routeIdx : string;
  js_arrTime : option string;
  js_depTime : option string;
  js_arrDate : option string;
  js_depDate : option string
}.

(** [data['JourneyDetail']]: each of [Names.Name], [Types.Type],
    [Operators.Operator] is an object or a list of objects, of which the
    code reads [.get('name')] / [.get('type')] ([None] when absent);
    [Stops.Stop] is the list of stops (or one bare object). *)
Record JourneyDetail := mkJourneyDetail {
  jd_names : one_or_list (option string);
  jd_types : one_or_list (option string);
  jd_operators : one_or_list (option string);
  jd_stops : one_or_list JStop
}.

(** The capabilities the program calls.  A capability returns its value
    ([inr]) or the exception it raises ([inl]): failures of the network
    or of [json.load] are [inl FetchError]. *)
Record Env := mkEnv {
  (** The board for the mapping [id] ([str(stop_id)]), [date] (a day)
      and [time] ([<h>:<m>]) substituted into [DEP_URL]; [None] when
      the answer has no [DepartureBoard] or no [Departure] key.
      [Http.env_of_http] builds it from a JSON server. *)
  fetch_departures : string -> Z -> string -> py_exc + option (one_or_list Departure);
  (** [fetch_json(ref)] of a [JourneyDetailRef]; [None] when the answer
      has no [JourneyDetail] key. *)
  fetch_journey : string -> py_exc + option JourneyDetail;
  (** [STATION_URL] with [input=<search>]:
      [data.get('LocationList', {}).get('StopLocation')]. *)
  fetch_station : string -> py_exc + option (one_or_list StationOb);
  (** [dateutil.parser.parse] of a date string, as a day number. *)
  dateparse : string -> py_exc + Z;
  (** [HTMLParser.unescape] *)
  unescape : string -> string
}.
