(* ===== verification/Converter.v ===== *)
(** * The state of a [DBApiToGTFS] object

    The fields of the converter (db_to_gtfs.py:41-51) and of the
    dictionaries it stores: stations, stop times, trips and routes.  Dates
    are day numbers (a [datetime] at midnight); a stop time's date is the
    string the API sent until [pack_trip] replaces it by a parsed date. *)

From stdpp Require Import base list strings gmap.
From Stdlib Require Import ZArith.
From S2P Require Import Prelude Python Api.

(** A station, the dictionary built by [get_station_ob] (268-281).
    [stop_lat]/[stop_lon] keep the API's text ([float()] is not
    modelled). *)
Record Station := mkStation {
  stop_id : Z;
  stop_name : string;
  stop_lat : string;
  stop_lon : string;
  last_check_h : pyval;
  last_check_m : pyval;
  last_date : Z;
  has_trip : bool;
  trips_fetched : bool
}.

(** [stoptime['arrival_date']]: the API's string, or the [datetime]
    [pack_trip] stores after a day roll-over. *)
Inductive pydate :=
  | DStr (s : string)
  | DDay (d : Z).

(** A stop time, the dictionary built in [process_trip] (165-172). *)
Record StopTime := mkStopTime {
  st_stop_id : Z;
  st_stop_sequence : Z;
  st_arrival_time : string;
  st_departure_time : string;
  st_arrival_date : pydate;
  st_departure_date : pydate
}.

(** A trip, the dictionary of [process_trip] (139-145) with the keys
    [route_append], [pack_trip] and [generate_calendar_dates] add.  The
    always-empty [notes] list is left out. *)
Record Trip := mkTrip {
  stoptimes : list StopTime;
  trip_name : option string;
  trip_type : option string;
  agency_id : option string;
  route_id : nat;
  headsign : string;
  service_date : Z;
  service_dates : gset Z;
  service_id : option nat
}.

(** A route, the dictionary appended by [route_append] (224-229). *)
Record Route := mkRoute {
  route_short_name : option string;
  route_long_name : option string;
  route_type : Z;
  route_agency_id : option string
}.

(** The converter object ([out_dir] and the HTML parser are not kept:
    output paths are not modelled, [unescape] is in [Env]). *)
Record Converter := mkConverter {
  stops : gmap Z Station;
  trips : list Trip;
  routes : list Route;
  agencies : list (option string);
  calendar_dates : list (gset Z);
  processed : list Departure;
  start_date : Z;
  end_date : Z
}.

(** [DBApiToGTFS.__init__] *)
Definition init_converter (start end_ : Z) : Converter :=
  mkConverter ∅ [] [] [] [] [] start end_.

Definition set_stops (m : gmap Z Station) (c : Converter) : Converter :=
  mkConverter m (trips c) (routes c) (agencies c) (calendar_dates c) (processed c) (start_date c) (end_date c).
Definition set_trips (l : list Trip) (c : Converter) : Converter :=
  mkConverter (stops c) l (routes c) (agencies c) (calendar_dates c) (processed c) (start_date c) (end_date c).
Definition set_routes (l : list Route) (a : list (option string)) (c : Converter) : Converter :=
  mkConverter (stops c) (trips c) l a (calendar_dates c) (processed c) (start_date c) (end_date c).
Definition set_calendar (l : list (gset Z)) (c : Converter) : Converter :=
  mkConverter (stops c) (trips c) (routes c) (agencies c) l (processed c) (start_date c) (end_date c).
Definition set_processed (l : list Departure) (c : Converter) : Converter :=
  mkConverter (stops c) (trips c) (routes c) (agencies c) (calendar_dates c) l (start_date c) (end_date c).
