(* ===== verification/Samples.v ===== *)
(** * Concrete inputs for the witnesses and the scenarios

    A small instance of [Env]: an ISO-8601 date parser ("YYYY-MM-DD" to
    the day number since 1970-01-01, the civil-calendar formula); a
    station API that knows one station and answers another search with a
    list of two matches; a journey API with one ICE trip between two
    stations and two one-stop journeys (one of them sent as a bare
    object); departure boards that list the ICE trip once.  These are test
    inputs, not part of the program. *)

From stdpp Require Import base list strings gmap.
From Stdlib Require Import ZArith Lia Ascii.
From S2P Require Import Prelude Python Api Converter.

Local Open Scope py_scope.
Local Open Scope Z_scope.
Local Open Scope string_scope.

Module Samples.

Definition days_from_civil (y m d : Z) : Z :=
  let y' := if Z.leb m 2 then y - 1 else y in
  let era := (if Z.geb y' 0 then y' else y' - 399) / 400 in
  let yoe := y' - era * 400 in
  let mp := (m + 9) mod 12 in
  let doy := (153 * mp + 2) / 5 + d - 1 in
  let doe := yoe * 365 + yoe / 4 - yoe / 100 + doy in
  era * 146097 + doe - 719468.

Definition iso_dateparse (s : string) : res Z :=
  match py_split "-"%char s with
  | [y; m; d] =>
      let? yv := py_int y in let? mv := py_int m in let? dv := py_int d in
      Ok (days_from_civil yv mv dv)
  | _ => Exc ValueError
  end.

(** [strftime('%Y%m%d')] of a day number: the inverse of
    [days_from_civil]. *)
Definition civil_from_days (z : Z) : Z * Z * Z :=
  let z := z + 719468 in
  let era := (if Z.geb z 0 then z else z - 146096) / 146097 in
  let doe := z - era * 146097 in
  let yoe := (doe - doe / 1460 + doe / 36524 - doe / 146096) / 365 in
  let doy := doe - (365 * yoe + yoe / 4 - yoe / 100) in
  let mp := (5 * doy + 2) / 153 in
  let d := doy - (153 * mp + 2) / 5 + 1 in
  let m := if Z.ltb mp 10 then mp + 3 else mp - 9 in
  (yoe + era * 400 + (if Z.leb m 2 then 1 else 0), m, d).

Definition pad2 (n : Z) : string := if Z.ltb n 10 then "0" +:+ py_str n else py_str n.

Definition iso_strftime_ymd (z : Z) : string :=
  let '(y, m, d) := civil_from_days z in py_str y +:+ pad2 m +:+ pad2 d.

(** [strftime('%Y-%m-%d')] *)
Definition iso_strftime_dash (z : Z) : string :=
  let '(y, m, d) := civil_from_days z in py_str y +:+ "-" +:+ pad2 m +:+ "-" +:+ pad2 d.

Definition station_A : StationOb := mkStationOb "008011160" "Berlin Hbf" "52.525589" "13.369548".
Definition station_B : StationOb := mkStationOb "008000261" "M&#252;nchen Hbf" "48.140228" "11.558338".

Definition jstop_A : JStop :=
  mkJStop (so_name station_A) (so_id station_A) (so_lat station_A) (so_lon station_A) "0"
          None (Some "10:00") None (Some "2016-01-01").
Definition jstop_B : JStop :=
  mkJStop (so_name station_B) (so_id station_B) (so_lat station_B) (so_lon station_B) "1"
          (Some "10:30") None (Some "2016-01-01") None.

Definition journey_ICE100 : JourneyDetail :=
  mkJourneyDetail (JOne (Some "ICE 100")) (JOne (Some "ICE")) (JList [Some "DB Fernverkehr"])
                  (JList [jstop_A; jstop_B]).

(** A journey whose detail lists one stop, and one whose single stop
    arrives as a bare object. *)
Definition journey_RE1 : JourneyDetail :=
  mkJourneyDetail (JOne (Some "RE 1")) (JOne (Some "RE")) (JOne (Some "DB Regio"))
                  (JList [jstop_A]).
Definition journey_RE2 : JourneyDetail :=
  mkJourneyDetail (JOne (Some "RE 2")) (JOne (Some "RE")) (JOne (Some "DB Regio"))
                  (JOne jstop_A).

Definition dep_ICE100 : Departure :=
  mkDeparture "10:00" "2016-01-01" "008011160" "M&#252;nchen Hbf" "ICE 100" "ref-ICE100".

Definition sample_env : Env :=
  mkEnv
    (fun id date time =>
       if bool_decide (id = "8011160" /\ date = days_from_civil 2016 1 1)
       then inr (Some (JOne dep_ICE100)) else inr None)
    (fun ref => if bool_decide (ref = "ref-ICE100") then inr (Some journey_ICE100)
                else if bool_decide (ref = "ref-RE1") then inr (Some journey_RE1)
                else if bool_decide (ref = "ref-RE2") then inr (Some journey_RE2)
                else inr None)
    (fun search => if bool_decide (search = "8011160") then inr (Some (JOne station_A))
                   else if bool_decide (search = "8098160") then inr (Some (JList [station_A; station_B]))
                   else inr None)
    (fun s => to_sum (iso_dateparse s))
    (fun s => s).

(** The same API, except that the board of station 8011160 on 2016-01-01
    lists two departures of trains stopping at another station. *)
Definition dep_0955 : Departure :=
  mkDeparture "09:55" "2016-01-01" "008000261" "Berlin Hbf" "ICE 200" "ref-X".
Definition dep_1005 : Departure :=
  mkDeparture "10:05" "2016-01-01" "008000261" "Berlin Hbf" "ICE 202" "ref-Y".

Definition board_env : Env :=
  mkEnv
    (fun id date time =>
       if bool_decide (id = "8011160" /\ date = days_from_civil 2016 1 1)
       then inr (Some (JList [dep_0955; dep_1005])) else inr None)
    (fetch_journey sample_env) (fetch_station sample_env) (dateparse sample_env)
    (unescape sample_env).

Definition day_2016_01_01 : Z := days_from_civil 2016 1 1.

Example day_2016_01_01_value : day_2016_01_01 = 16801.
Proof. reflexivity. Qed.

Example iso_strftime_ymd_day : iso_strftime_ymd (day_2016_01_01 + 1) = "20160102".
Proof. reflexivity. Qed.

Example iso_dateparse_next_day : iso_dateparse "2016-01-02" = Ok (day_2016_01_01 + 1).
Proof. reflexivity. Qed.

(** Sample stop times and trips. *)
Definition st_A : StopTime := mkStopTime 8011160 0 "10:00" "10:00" (DStr "2016-01-01") (DStr "2016-01-01").
Definition st_B : StopTime := mkStopTime 8000261 1 "10:30" "10:30" (DStr "2016-01-01") (DStr "2016-01-01").
Definition st_B' : StopTime := mkStopTime 8000261 1 "10:35" "10:35" (DStr "2016-01-01") (DStr "2016-01-01").

Definition trip_of (sts : list StopTime) (day : Z) : Trip :=
  mkTrip sts (Some "ICE 100") (Some "ICE") (Some "DB Fernverkehr") 0 "M&#252;nchen Hbf" day ∅ None.

Definition sample_converter : Converter :=
  init_converter day_2016_01_01 (day_2016_01_01 + 3).

(** The converter after registering station 8011160 (fresh cursor). *)
Definition station_A_fresh : Station :=
  mkStation 8011160 "Berlin Hbf" (so_lat station_A) (so_lon station_A) (PInt 0) (PInt 0)
            day_2016_01_01 false false.
Definition converter_A : Converter :=
  set_stops {[ 8011160 := station_A_fresh ]} sample_converter.

End Samples.
