(* ===== verification/TimeNorm.v ===== *)
(** * Time/Date Normalizer: [pack_trip] (db_to_gtfs.py:236-259)

    GTFS writes the times of a trip relative to its service day (the
    departure date of its first stop), with hours past 23 for stops on a
    later day.  [pack_trip] parses every stop's arrival and departure
    dates, and where one lies [delta > 0] days after the service day
    replaces the date by the service day and the time "h:m" by
    "str(int(h) + 24*delta):m"; it then sets the head sign (name of the
    last stop's station) and the service day.  The arrival and the
    departure are treated independently. *)

From stdpp Require Import base list strings gmap.
From Stdlib Require Import ZArith Lia Ascii.
From S2P Require Import Prelude Python Api Converter Samples.

Local Open Scope py_scope.
Local Open Scope Z_scope.

Module TimeNorm.
Section WithEnv.
Context (env : Env).

(** [dateparse(stoptime[...])]: the field holds the API's string until
    [pack_trip] stores a [datetime] in it (parsing that raises). *)
Definition parse_pydate (d : pydate) : res Z :=
  match d with
  | DStr s => of_sum (dateparse env s)
  | DDay _ => Exc TypeError
  end.

(** [str(int(t.split(':')[0]) + 24 * delta) + ":" + t.split(':')[1]] *)
Definition roll_time (t : string) (delta : Z) : res string :=
  let? h := py_index (py_split ":"%char t) 0 in
  let? hv := py_int h in
  let? m := py_index (py_split ":"%char t) 1 in
  Ok (py_str (hv + 24 * delta) +:+ ":" +:+ m).

(** The body of the loop of [pack_trip] (241-255) for one stop time. *)
Definition pack_stoptime (start_date : Z) (st : StopTime) : res StopTime :=
  let? arr := parse_pydate (st_arrival_date st) in
  let? dep := parse_pydate (st_departure_date st) in
  let arrdelta := arr - start_date in
  let depdelta := dep - start_date in
  let? st1 :=
    if Z.gtb arrdelta 0 then
      let? t := roll_time (st_arrival_time st) arrdelta in
      Ok (mkStopTime (st_stop_id st) (st_stop_sequence st) t (st_departure_time st)
                     (DDay start_date) (st_departure_date st))
    else Ok st in
  if Z.gtb depdelta 0 then
    let? t := roll_time (st_departure_time st1) depdelta in
    Ok (mkStopTime (st_stop_id st1) (st_stop_sequence st1) (st_arrival_time st1) t
                   (st_arrival_date st1) (DDay start_date))
  else Ok st1.

(** [l[-1]] *)
Definition py_last {A} (l : list A) : res A := of_option IndexError (last l).

Definition pack_trip (stops : gmap Z Station) (trip : Trip) : res Trip :=
  let? first := py_index (stoptimes trip) 0 in
  let? start_date := parse_pydate (st_departure_date first) in
  let? sts := mapR (pack_stoptime start_date) (stoptimes trip) in
  let? lst := py_last sts in
  let? station := of_option KeyError (stops !! st_stop_id lst) in
  Ok (mkTrip sts (trip_name trip) (trip_type trip) (agency_id trip) (route_id trip)
             (stop_name station) start_date (service_dates trip) (service_id trip)).

End WithEnv.
End TimeNorm.

Module TimeNormProps.
Import TimeNorm.

(** The hour of a clock time, [int(t.split(':')[0])], and its minute
    field [t.split(':')[1]]. *)
Definition clock_hour (t : string) : res Z :=
  let? h := py_index (py_split ":"%char t) 0 in py_int h.
Definition clock_minute (t : string) : res string := py_index (py_split ":"%char t) 1.

Lemma roll_time_shape t delta t' :
  roll_time t delta = Ok t' ->
  exists hv m, clock_hour t = Ok hv /\ clock_minute t = Ok m /\
               t' = py_str (hv + 24 * delta) +:+ String ":" m.
Proof.
  unfold roll_time, clock_hour, clock_minute. destruct (py_split_head ":"%char t) as (h & rest & Hs).
  rewrite Hs. simpl. destruct (py_int h) as [hv|]; simpl; try discriminate.
  destruct rest as [|m rest]; simpl; try discriminate. intros [= <-]. by exists hv, m.
Qed.

(** rolling a clock time over [delta] days adds [24 * delta] to its
    hour and keeps its minute field. *)
Lemma roll_time_clock t delta t' :
  roll_time t delta = Ok t' ->
  exists hv, clock_hour t = Ok hv /\ clock_hour t' = Ok (hv + 24 * delta) /\
             clock_minute t' = clock_minute t.
Proof.
  intros (hv & m & Hh & Hm & ->)%roll_time_shape. exists hv. split; [done|].
  unfold clock_minute in *. pose proof (py_split_pieces ":"%char t) as Hp.
  assert (Hmc : no_char ":" m = true).
  { unfold py_index, of_option in Hm. destruct (_ !! 1%nat) eqn:E; [|done]. injection Hm as ->.
    rewrite Forall_lookup in Hp. by apply (Hp 1%nat). }
  unfold clock_hour. rewrite py_split_cons, py_split_no_sep by (apply py_str_no_colon || done).
  simpl. by rewrite py_int_str, Hm.
Qed.

Example roll_time_after_midnight : roll_time "00:15" 1 = Ok "24:15".
Proof. reflexivity. Qed.

(** How [pack_stoptime] treats one of the two fields: rolled over to the
    service day when its date lies after it, unchanged otherwise. *)
Definition rolled (start x : Z) (pd pd' : pydate) (t t' : string) : Prop :=
  (0 < x - start /\ pd' = DDay start /\ roll_time t (x - start) = Ok t') \/
  (x - start <= 0 /\ pd' = pd /\ t' = t).

Lemma bindR_Ok_inv {A B} (r : res A) (k : A -> res B) b :
  bindR r k = Ok b -> exists a, r = Ok a /\ k a = Ok b.
Proof. destruct r; simpl; eauto; discriminate. Qed.

Ltac bindR_inv H :=
  repeat match type of H with
  | bindR _ _ = Ok _ => let a := fresh "a" in let Ha := fresh "Ha" in
                        apply bindR_Ok_inv in H as (a & Ha & H)
  end.

Section WithEnv.
Context (env : Env).

Lemma pack_stoptime_rolled start st st' :
  pack_stoptime env start st = Ok st' ->
  exists a d, parse_pydate env (st_arrival_date st) = Ok a /\
              parse_pydate env (st_departure_date st) = Ok d /\
              st_stop_id st' = st_stop_id st /\ st_stop_sequence st' = st_stop_sequence st /\
              rolled start a (st_arrival_date st) (st_arrival_date st')
                     (st_arrival_time st) (st_arrival_time st') /\
              rolled start d (st_departure_date st) (st_departure_date st')
                     (st_departure_time st) (st_departure_time st').
Proof.
  unfold pack_stoptime, rolled. intros H. bindR_inv H. exists a, a0. split_and!; [done|done|..].
  all: destruct (Z.gtb_spec (a - start) 0) in Ha1; bindR_inv Ha1; injection Ha1 as <-;
       destruct (Z.gtb_spec (a0 - start) 0) in H; bindR_inv H; injection H as <-; simpl;
       auto with lia.
Qed.

(** C23: [pack_stoptime] keeps the stop and its sequence number and rolls
    the arrival and the departure over independently, each exactly when
    its date lies after the service day. *)
Theorem pack_stoptime_spec start st st' :
  pack_stoptime env start st = Ok st' ->
  exists a d, parse_pydate env (st_arrival_date st) = Ok a /\
              parse_pydate env (st_departure_date st) = Ok d /\
              st_stop_id st' = st_stop_id st /\ st_stop_sequence st' = st_stop_sequence st /\
              rolled start a (st_arrival_date st) (st_arrival_date st')
                     (st_arrival_time st) (st_arrival_time st') /\
              rolled start d (st_departure_date st) (st_departure_date st')
                     (st_departure_time st) (st_departure_time st').
Proof. apply pack_stoptime_rolled. Qed.

(** [pack_trip] on success: the service day is the parsed departure date
    of the first stop, every stop time is packed against it, the head
    sign is the name of the last stop's station, the rest is kept. *)
Lemma pack_trip_spec stops trip t' :
  pack_trip env stops trip = Ok t' ->
  exists first start lst station,
    stoptimes trip !! 0%nat = Some first /\
    parse_pydate env (st_departure_date first) = Ok start /\
    Forall2 (fun st st' => pack_stoptime env start st = Ok st') (stoptimes trip) (stoptimes t') /\
    last (stoptimes t') = Some lst /\ stops !! st_stop_id lst = Some station /\
    t' = mkTrip (stoptimes t') (trip_name trip) (trip_type trip) (agency_id trip) (route_id trip)
                (stop_name station) start (service_dates trip) (service_id trip).
Proof.
  unfold pack_trip, py_index, py_last. intros H. bindR_inv H. injection H as <-.
  rewrite of_option_Ok in Ha. rewrite of_option_Ok in Ha2. rewrite of_option_Ok in Ha3.
  exists a, a0, a2, a3. split_and!; try done. by apply mapR_Ok.
Qed.

(** A date field after packing: the service day itself, or a date that
    parses to a day no later than it. *)
Definition on_service_day (start : Z) (pd : pydate) : Prop :=
  pd = DDay start \/ exists d, parse_pydate env pd = Ok d /\ d <= start.

Lemma rolled_on_service_day start x pd pd' t t' :
  parse_pydate env pd = Ok x -> rolled start x pd pd' t t' -> on_service_day start pd'.
Proof. intros Hx [(_ & -> & _)|(Hle & -> & _)]; [by left|right; exists x; split; [done|lia]]. Qed.

(** C24: after [pack_trip] every arrival and departure of the trip belongs
    nominally to the trip's service day. *)
Lemma pack_trip_on_service_day stops trip t' :
  pack_trip env stops trip = Ok t' ->
  Forall (fun st => on_service_day (service_date t') (st_arrival_date st) /\
                    on_service_day (service_date t') (st_departure_date st)) (stoptimes t').
Proof.
  intros (first & start & lst & station & _ & _ & Hall & _ & _ & Ht)%pack_trip_spec.
  rewrite Ht. simpl. clear Ht. revert Hall. generalize (stoptimes trip) (stoptimes t').
  intros l l' Hall. induction Hall as [|st st' l l' Hst _ IH]; [constructor|].
  constructor; [|exact IH].
  apply pack_stoptime_rolled in Hst as (a & d & Ha & Hd & _ & _ & Hra & Hrd).
  split; eapply rolled_on_service_day; [exact Ha|exact Hra|exact Hd|exact Hrd].
Qed.
End WithEnv.

Module TimeNormWitnesses.
Import Samples.

Lemma roll_time_clock_witness :
  roll_time "00:15" 1 = Ok "24:15" /\
  exists hv, clock_hour "00:15" = Ok hv /\ clock_hour "24:15" = Ok (hv + 24 * 1) /\
             clock_minute "24:15" = clock_minute "00:15".
Proof.
  assert (H : roll_time "00:15" 1 = Ok "24:15") by reflexivity.
  split; [exact H|]. exact (roll_time_clock _ _ _ H).
Defined.

(** A stop reached after midnight: arrival 00:15 and departure 00:20 of
    the next day. *)
Definition st_night : StopTime :=
  mkStopTime 8000261 3 "00:15" "00:20" (DStr "2016-01-02") (DStr "2016-01-02").
Definition st_night_packed : StopTime :=
  mkStopTime 8000261 3 "24:15" "24:20" (DDay day_2016_01_01) (DDay day_2016_01_01).

Lemma pack_stoptime_spec_witness :
  pack_stoptime sample_env day_2016_01_01 st_night = Ok st_night_packed /\
  exists a d, parse_pydate sample_env (st_arrival_date st_night) = Ok a /\
              parse_pydate sample_env (st_departure_date st_night) = Ok d /\
              st_stop_id st_night_packed = st_stop_id st_night /\
              st_stop_sequence st_night_packed = st_stop_sequence st_night /\
              rolled day_2016_01_01 a (st_arrival_date st_night)
                     (st_arrival_date st_night_packed) (st_arrival_time st_night)
                     (st_arrival_time st_night_packed) /\
              rolled day_2016_01_01 d (st_departure_date st_night)
                     (st_departure_date st_night_packed) (st_departure_time st_night)
                     (st_departure_time st_night_packed).
Proof.
  assert (H : pack_stoptime sample_env day_2016_01_01 st_night = Ok st_night_packed)
    by reflexivity.
  split; [exact H|]. exact (pack_stoptime_spec sample_env _ _ _ H).
Defined.

Definition sample_stops : gmap Z Station :=
  {[ 8000261 := mkStation 8000261 "M&#252;nchen Hbf" "48.140228" "11.558338"
                          (PInt 0) (PInt 0) day_2016_01_01 true false ]}.

Lemma pack_trip_on_service_day_witness :
  exists t', pack_trip sample_env sample_stops (trip_of [st_A; st_B; st_night] 0) = Ok t' /\
  Forall (fun st => on_service_day sample_env (service_date t') (st_arrival_date st) /\
                    on_service_day sample_env (service_date t') (st_departure_date st))
         (stoptimes t').
Proof.
  eexists. split; [reflexivity|]. apply (pack_trip_on_service_day sample_env sample_stops
                                          (trip_of [st_A; st_B; st_night] 0)).
  reflexivity.
Defined.

End TimeNormWitnesses.
End TimeNormProps.
