(* ===== verification/Stations.v ===== *)
(** * Station Registry (db_to_gtfs.py:53-68, 261-281, 415-420)

    [self.stops] maps a station id to its dictionary.  A station is added
    the first time it is seen, either as a seed ([process_station_by_id],
    which searches the station API) or as a stop of a trip
    ([process_station_by_ob]); adding is idempotent.  The crawl picks its
    next station with [get_unfetched_station_id], in the dictionary's
    iteration order (modelled by [map_to_list]).  The invariant
    [stations_wf]: every entry is stored under its own [stop_id]. *)

From stdpp Require Import base list strings gmap.
From Stdlib Require Import ZArith Lia.
From S2P Require Import Prelude Python Api Converter Samples.

Local Open Scope py_scope.

Module Stations.
Section WithEnv.
Context (env : Env).

(** [get_station_ob] (268-281); [float()] of the coordinates is not
    modelled. *)
Definition get_station_ob (start : Z) (so : StationOb) : res Station :=
  let? sid := py_int (so_id so) in
  Ok (mkStation sid (unescape env (so_name so)) (so_lat so) (so_lon so)
                (PInt 0) (PInt 0) start false false).

(** [process_station_by_ob] (62-68).  The argument is what
    [get_station_detail] returned: [None], one station, or a list (which
    the code indexes with ['id'], a [TypeError]). *)
Definition process_station_by_ob (station : option (one_or_list StationOb)) : M Converter unit :=
  match station with
  | None => retM tt
  | Some (JList _) => raiseM TypeError
  | Some (JOne so) =>
      sid <- liftR (py_int (so_id so)) ;;
      c <- getM ;;
      match stops c !! sid with
      | Some _ => retM tt
      | None =>
          gtfs_station <- liftR (get_station_ob (start_date c) so) ;;
          putM (set_stops (<[sid := gtfs_station]> (stops c)) c)
      end
  end.

(** [process_station_by_id] (53-60): the warning printed for an unknown
    seed is output only. *)
Definition process_station_by_id (sid : Z) : M Converter unit :=
  c <- getM ;;
  match stops c !! sid with
  | Some _ => retM tt
  | None =>
      det <- liftR (of_sum (fetch_station env (py_str sid))) ;;
      process_station_by_ob det
  end.
End WithEnv.

(** [self.stops[sid]['has_trip'] = True] (174) *)
Definition with_has_trip (st : Station) : Station :=
  mkStation (stop_id st) (stop_name st) (stop_lat st) (stop_lon st) (last_check_h st)
            (last_check_m st) (last_date st) true (trips_fetched st).

Definition set_has_trip (sid : Z) : M Converter unit :=
  c <- getM ;;
  match stops c !! sid with
  | None => raiseM KeyError
  | Some st => putM (set_stops (<[sid := with_has_trip st]> (stops c)) c)
  end.

(** [get_unfetched_station_id] (415-420): the [stop_id] of the first
    station, in iteration order, whose trips are not fetched yet. *)
Fixpoint first_unfetched (l : list (Z * Station)) : option Z :=
  match l with
  | [] => None
  | (_, st) :: l' => if trips_fetched st then first_unfetched l' else Some (stop_id st)
  end.

Definition get_unfetched_station_id (c : Converter) : option Z :=
  first_unfetched (map_to_list (stops c)).

(** Every station is stored under its own id. *)
Definition stations_wf (stops : gmap Z Station) : Prop :=
  map_Forall (fun sid st => stop_id st = sid) stops.

(** How the registry may evolve outside the crawl of a station: no
    station disappears, its id, cursor and [trips_fetched] stay, and
    [has_trip] can only become true. *)
Definition station_le (s s' : Station) : Prop :=
  stop_id s' = stop_id s /\ last_check_h s' = last_check_h s /\ last_check_m s' = last_check_m s /\
  last_date s' = last_date s /\ trips_fetched s' = trips_fetched s /\
  (has_trip s = true -> has_trip s' = true).

Definition stops_le (m m' : gmap Z Station) : Prop :=
  forall sid s, m !! sid = Some s -> exists s', m' !! sid = Some s' /\ station_le s s'.

(** The stations of a list of stop times are registered and marked as
    served by a trip. *)
Definition served (m : gmap Z Station) (sts : list StopTime) : Prop :=
  Forall (fun st => exists s, m !! st_stop_id st = Some s /\ has_trip s = true) sts.

#[export] Instance station_le_preorder : PreOrder station_le.
Proof.
  split.
  - intros s. unfold station_le. naive_solver.
  - intros s1 s2 s3 (? & ? & ? & ? & ? & ?) (? & ? & ? & ? & ? & ?). unfold station_le.
    split_and!; try congruence; auto.
Qed.

#[export] Instance stops_le_preorder : PreOrder stops_le.
Proof.
  split.
  - intros m sid s Hs. exists s. split; [done|reflexivity].
  - intros m1 m2 m3 H12 H23 sid s Hs. destruct (H12 sid s Hs) as (s2 & Hs2 & Hle2).
    destruct (H23 sid s2 Hs2) as (s3 & Hs3 & Hle3). exists s3. split; [done|by etrans].
Qed.

Lemma served_le m m' sts : stops_le m m' -> served m sts -> served m' sts.
Proof.
  intros Hle Hsv. eapply Forall_impl; [exact Hsv|]. intros st (s & Hs & Ht).
  destruct (Hle _ _ Hs) as (s' & Hs' & (_ & _ & _ & _ & _ & Hh)). eauto.
Qed.

Lemma stops_le_insert_fresh m sid s : m !! sid = None -> stops_le m (<[sid := s]> m).
Proof.
  intros Hn sid' s' Hs'. exists s'. split; [|reflexivity].
  rewrite lookup_insert_ne; [done|congruence].
Qed.

Lemma stops_le_has_trip m sid s : m !! sid = Some s -> stops_le m (<[sid := with_has_trip s]> m).
Proof.
  intros Hs sid' s' Hs'. destruct (decide (sid = sid')) as [<-|Hne].
  - rewrite lookup_insert_eq. exists (with_has_trip s). rewrite Hs in Hs'. injection Hs' as <-.
    split; [done|]. unfold station_le; simpl. naive_solver.
  - rewrite lookup_insert_ne by done. exists s'. split; [done|reflexivity].
Qed.

End Stations.

Module StationsProps.
Import Stations.

Lemma first_unfetched_Some l x :
  first_unfetched l = Some x ->
  exists sid st, (sid, st) ∈ l /\ trips_fetched st = false /\ stop_id st = x.
Proof.
  induction l as [|[sid st] l IH]; simpl; [done|]. destruct (trips_fetched st) eqn:E.
  - intros (sid' & st' & Hin & ?)%IH. exists sid', st'. split; [by right|done].
  - intros [= <-]. exists sid, st. split_and!; [left|done|done].
Qed.

Lemma first_unfetched_None l :
  first_unfetched l = None <-> Forall (fun p => trips_fetched p.2 = true) l.
Proof.
  induction l as [|[sid st] l IH]; simpl; [split; by constructor|].
  rewrite Forall_cons. simpl. destruct (trips_fetched st).
  - rewrite IH. split; [by split|by intros [_ ?]].
  - split; [done|]. by intros [? _].
Qed.

(** C28: [get_unfetched_station_id] implements "pick any station whose
    trips are not fetched": it returns the id of such a station, and
    [None] exactly when every station is fetched. *)
Lemma get_unfetched_station_id_spec c :
  stations_wf (stops c) ->
  match get_unfetched_station_id c with
  | Some sid => exists st, stops c !! sid = Some st /\ trips_fetched st = false
  | None => map_Forall (fun _ st => trips_fetched st = true) (stops c)
  end.
Proof.
  intros Hwf. unfold get_unfetched_station_id.
  destruct (first_unfetched _) as [x|] eqn:E.
  - apply first_unfetched_Some in E as (sid & st & Hin & Hf & <-).
    apply elem_of_map_to_list in Hin. rewrite (Hwf sid st Hin). by exists st.
  - apply first_unfetched_None in E. intros sid st Hin.
    apply elem_of_map_to_list in Hin. rewrite Forall_forall in E. exact (E (sid, st) Hin).
Qed.

Section WithEnv.
Context (env : Env).

(** The station [get_station_ob] builds for a new id: a fresh cursor at
    the feed's start date, 00:00, nothing fetched, no trip yet. *)
Definition fresh_station (c : Converter) (sid : Z) (so : StationOb) : Station :=
  mkStation sid (unescape env (so_name so)) (so_lat so) (so_lon so) (PInt 0) (PInt 0)
            (start_date c) false false.

Lemma process_station_by_ob_one so c :
  process_station_by_ob env (Some (JOne so)) c =
  match py_int (so_id so) with
  | Ok sid => match stops c !! sid with
              | Some _ => Ok (tt, c)
              | None => Ok (tt, set_stops (<[sid := fresh_station c sid so]> (stops c)) c)
              end
  | Exc e => Exc e
  end.
Proof.
  unfold process_station_by_ob, get_station_ob. py_simp.
  destruct (py_int (so_id so)) as [sid|]; [|done]. simpl.
  by destruct (stops c !! sid).
Qed.

Lemma process_station_by_ob_inv so c c' :
  stations_wf (stops c) ->
  process_station_by_ob env (Some (JOne so)) c = Ok (tt, c') ->
  stations_wf (stops c') /\ process_station_by_ob env (Some (JOne so)) c' = Ok (tt, c') /\
  (forall sid st, stops c !! sid = Some st -> stops c' !! sid = Some st).
Proof.
  intros Hwf. rewrite !process_station_by_ob_one.
  destruct (py_int (so_id so)) as [sid|]; [|done].
  destruct (stops c !! sid) as [st0|] eqn:E; intros [= <-].
  { split_and!; [done|by rewrite E|done]. }
  simpl. rewrite lookup_insert_eq. split_and!; [|done|].
  - apply map_Forall_insert_2; [done|exact Hwf].
  - intros sid' st Hst. rewrite lookup_insert_ne; [done|congruence].
Qed.

(** Adding a station is idempotent and keeps every station under its
    own id; an existing station is never replaced (first creator wins). *)
Theorem process_station_by_ob_wf so c c' :
  stations_wf (stops c) ->
  process_station_by_ob env (Some (JOne so)) c = Ok (tt, c') ->
  stations_wf (stops c') /\ process_station_by_ob env (Some (JOne so)) c' = Ok (tt, c') /\
  (forall sid st, stops c !! sid = Some st -> stops c' !! sid = Some st).
Proof. apply process_station_by_ob_inv. Qed.
(** C29: a seed id the registry does not know, for which the station
    search answers with a list of matches, makes [process_station_by_id]
    raise [TypeError] (the code indexes the list with ['id']); an
    unknown id is skipped, a known one is not searched again. *)
Theorem process_station_by_id_errors sid c :
  stops c !! sid = None ->
  match fetch_station env (py_str sid) with
  | inr (Some (JList l)) => process_station_by_id env sid c = Exc TypeError
  | inr None => process_station_by_id env sid c = Ok (tt, c)
  | _ => True
  end.
Proof.
  intros Hn. unfold process_station_by_id. py_simp. rewrite Hn.
  destruct (fetch_station env (py_str sid)) as [e|[[so|l]|]]; simpl; done.
Qed.

Lemma process_station_by_id_known sid c st :
  stops c !! sid = Some st -> process_station_by_id env sid c = Ok (tt, c).
Proof. intros Hs. unfold process_station_by_id. py_simp. by rewrite Hs. Qed.
(** Registering a station only extends the registry. *)
Lemma process_station_by_ob_le so c c' :
  process_station_by_ob env (Some (JOne so)) c = Ok (tt, c') ->
  c' = set_stops (stops c') c /\ stops_le (stops c) (stops c') /\
  exists sid, py_int (so_id so) = Ok sid /\ is_Some (stops c' !! sid).
Proof.
  rewrite process_station_by_ob_one.
  destruct (py_int (so_id so)) as [sid|]; [|done].
  destruct (stops c !! sid) as [st0|] eqn:E; intros [= <-].
  - split_and!; [by destruct c|reflexivity|]. exists sid. split; [done|by eexists].
  - split_and!; [done|by apply stops_le_insert_fresh|]. exists sid. split; [done|].
    simpl. rewrite lookup_insert_eq. by eexists.
Qed.
End WithEnv.

Lemma set_has_trip_spec sid c c' :
  set_has_trip sid c = Ok (tt, c') ->
  c' = set_stops (stops c') c /\ stops_le (stops c) (stops c') /\
  (stations_wf (stops c) -> stations_wf (stops c')) /\
  exists s, stops c' !! sid = Some s /\ has_trip s = true.
Proof.
  unfold set_has_trip. py_simp. destruct (stops c !! sid) as [s|] eqn:E; [|done].
  intros [= <-]. simpl. split_and!; [done|by apply stops_le_has_trip| |].
  - intros Hwf. apply map_Forall_insert_2; [|done]. simpl. exact (Hwf sid s E).
  - exists (with_has_trip s). by rewrite lookup_insert_eq.
Qed.

Module StationsWitnesses.
Local Open Scope Z_scope.
Import Samples.

Definition conv_A : Converter := set_stops {[ 8011160 := fresh_station sample_env sample_converter 8011160 station_A ]} sample_converter.

Lemma get_unfetched_station_id_witness :
  stations_wf (stops conv_A) /\
  match get_unfetched_station_id conv_A with
  | Some sid => exists st, stops conv_A !! sid = Some st /\ trips_fetched st = false
  | None => map_Forall (fun _ st => trips_fetched st = true) (stops conv_A)
  end.
Proof.
  assert (H : stations_wf (stops conv_A)) by (apply map_Forall_singleton; reflexivity).
  split; [exact H|]. exact (get_unfetched_station_id_spec conv_A H).
Defined.

Lemma process_station_by_ob_wf_witness :
  stations_wf (stops sample_converter) /\
  process_station_by_ob sample_env (Some (JOne station_B)) conv_A
    = Ok (tt, set_stops (<[8000261 := fresh_station sample_env conv_A 8000261 station_B]> (stops conv_A)) conv_A) /\
  stations_wf (stops (set_stops (<[8000261 := fresh_station sample_env conv_A 8000261 station_B]> (stops conv_A)) conv_A)).
Proof.
  assert (H0 : stations_wf (stops conv_A)) by (apply map_Forall_singleton; reflexivity).
  assert (H1 : process_station_by_ob sample_env (Some (JOne station_B)) conv_A
    = Ok (tt, set_stops (<[8000261 := fresh_station sample_env conv_A 8000261 station_B]> (stops conv_A)) conv_A))
    by reflexivity.
  split_and!; [apply map_Forall_empty|exact H1|].
  exact (proj1 (process_station_by_ob_wf sample_env _ _ _ H0 H1)).
Defined.
Lemma process_station_by_id_errors_witness :
  stops sample_converter !! 8098160 = None /\
  match fetch_station sample_env (py_str 8098160) with
  | inr (Some (JList l)) => process_station_by_id sample_env 8098160 sample_converter = Exc TypeError
  | inr None => process_station_by_id sample_env 8098160 sample_converter = Ok (tt, sample_converter)
  | _ => True
  end.
Proof.
  assert (H : stops sample_converter !! 8098160 = None) by reflexivity.
  split; [exact H|]. exact (process_station_by_id_errors sample_env 8098160 sample_converter H).
Defined.
End StationsWitnesses.
End StationsProps.
