(* ===== verification/Routes.v ===== *)
(** * Route/Agency Deduplicator: [route_append] (db_to_gtfs.py:213-234)

    A route is identified by its long name (the trip name) and its agency;
    [route_append] returns the index of the first route with the trip's
    identity, or appends a new rail route (type 2) and, when the agency is
    new, the agency.  The section proves that it refines [intern] on the
    route identities and on the agency list, that the route table never
    holds two routes with one identity, and that indices are stable. *)

From stdpp Require Import base list strings gmap.
From Stdlib Require Import ZArith Lia.
From S2P Require Import Prelude Python Api Converter Samples.

Module Routes.

(** The identity of a route: [(route_long_name, agency_id)]. *)
Definition route_key (r : Route) : option string * option string :=
  (route_long_name r, route_agency_id r).

Definition trip_route_key (t : Trip) : option string * option string :=
  (trip_name t, agency_id t).

Definition route_append (trip : Trip) (c : Converter) : nat * Converter :=
  let short_name := trip_type trip in
  let long_name := trip_name trip in
  let agency := agency_id trip in
  match scan_index (fun route => bool_decide (route_long_name route = long_name)
                                 && bool_decide (route_agency_id route = agency)) (routes c) with
  | Some rid => (rid, c)
  | None =>
      let rs := routes c ++ [mkRoute short_name long_name 2 agency] in
      let ags := if bool_decide (agency ∈ agencies c) then agencies c
                 else agencies c ++ [agency] in
      (length rs - 1, set_routes rs ags c)%nat
  end.

(** The invariant of the route table: identities are distinct, agencies
    are distinct, every route is a rail route whose agency is listed. *)
Definition routes_wf (c : Converter) : Prop :=
  NoDup (map route_key (routes c)) /\ NoDup (agencies c) /\
  Forall (fun r => route_agency_id r ∈ agencies c /\ route_type r = 2%Z) (routes c).

Lemma route_match_key (t : Trip) (r : Route) :
  bool_decide (route_long_name r = trip_name t) && bool_decide (route_agency_id r = agency_id t)
  = bool_decide (route_key r = trip_route_key t).
Proof.
  unfold route_key, trip_route_key.
  destruct (bool_decide_reflect (route_long_name r = trip_name t)),
           (bool_decide_reflect (route_agency_id r = agency_id t)); simpl;
    symmetry; [apply bool_decide_eq_true_2; congruence|..];
    apply bool_decide_eq_false_2; congruence.
Qed.

Lemma route_append_scan t c :
  scan_index (fun route => bool_decide (route_long_name route = trip_name t)
                           && bool_decide (route_agency_id route = agency_id t)) (routes c)
  = scan_index (fun k => bool_decide (k = trip_route_key t)) (map route_key (routes c)).
Proof. rewrite scan_index_map. apply scan_index_ext, route_match_key. Qed.

Lemma route_append_keys t c :
  let '(rid, c') := route_append t c in
  (rid, map route_key (routes c')) = intern (trip_route_key t) (map route_key (routes c)) /\
  (scan_index (fun k => bool_decide (k = trip_route_key t)) (map route_key (routes c)) = None ->
   agencies c' = (intern (agency_id t) (agencies c)).2) /\
  (scan_index (fun k => bool_decide (k = trip_route_key t)) (map route_key (routes c)) <> None ->
   agencies c' = agencies c).
Proof.
  unfold route_append. rewrite route_append_scan. unfold intern at 1.
  destruct (scan_index _ _) as [i|]; simpl; [done|].
  rewrite intern_snd, map_app, length_app, length_map. simpl.
  split_and!; [f_equal; lia|done|done].
Qed.

(** C21: [route_append] refines [intern]: the route identities and the
    returned index evolve as interning the trip's [(long_name, agency)]
    identity; the agency list, when a route is added, as interning the
    trip's agency, and it is unchanged otherwise. *)
Theorem route_append_intern t c :
  let '(rid, c') := route_append t c in
  (rid, map route_key (routes c')) = intern (trip_route_key t) (map route_key (routes c)) /\
  (scan_index (fun k => bool_decide (k = trip_route_key t)) (map route_key (routes c)) = None ->
   agencies c' = (intern (agency_id t) (agencies c)).2) /\
  (scan_index (fun k => bool_decide (k = trip_route_key t)) (map route_key (routes c)) <> None ->
   agencies c' = agencies c).
Proof. apply route_append_keys. Qed.

Lemma route_append_frame t c :
  stops (route_append t c).2 = stops c /\ trips (route_append t c).2 = trips c /\
  processed (route_append t c).2 = processed c /\ calendar_dates (route_append t c).2 = calendar_dates c.
Proof. unfold route_append. by destruct (scan_index _ _). Qed.

Lemma route_append_routes t c :
  routes (route_append t c).2 = routes c \/
  routes (route_append t c).2 = routes c ++ [mkRoute (trip_type t) (trip_name t) 2 (agency_id t)].
Proof. unfold route_append. destruct (scan_index _ _); simpl; auto. Qed.

Lemma route_append_agencies t c :
  agencies (route_append t c).2 = agencies c \/
  agencies (route_append t c).2 = (intern (agency_id t) (agencies c)).2.
Proof.
  pose proof (route_append_keys t c) as H. destruct (route_append t c) as [rid c'].
  destruct H as (_ & H1 & H2). simpl.
  destruct (scan_index _ _); [left; by apply H2|right; by apply H1].
Qed.
End Routes.

Module RoutesProps.
Import Routes.

Lemma route_append_found t c i :
  scan_index (fun k => bool_decide (k = trip_route_key t)) (map route_key (routes c)) = Some i ->
  route_append t c = (i, c).
Proof. intros H. unfold route_append. by rewrite route_append_scan, H. Qed.

Lemma route_append_preserves_wf t c : routes_wf c -> routes_wf (route_append t c).2.
Proof.
  intros (Hk & Ha & Hf). unfold route_append. rewrite route_append_scan.
  destruct (scan_index _ _) as [i|] eqn:E; [done|]. apply scan_eq_None in E.
  unfold routes_wf; simpl. rewrite <- intern_snd. split_and!.
  - rewrite map_app. change (map route_key [_]) with [trip_route_key t].
    pose proof (intern_NoDup (trip_route_key t) _ Hk) as Hn. by rewrite intern_absent in Hn.
  - by apply intern_NoDup.
  - apply Forall_app. split.
    + eapply Forall_impl; [exact Hf|]. intros r [Hr ->]. split; [by apply intern_mono|done].
    + constructor; [|constructor]. split; [apply intern_mem|done].
Qed.

(** C22: [route_append] keeps the route table well formed: no two routes
    with one [(long_name, agency_id)], no agency twice, every route a rail
    route whose agency is listed. *)
Theorem route_append_wf t c : routes_wf c -> routes_wf (route_append t c).2.
Proof. apply route_append_preserves_wf. Qed.

(** The returned index names a route with the trip's identity. *)
Lemma route_append_lookup t c :
  exists r, routes (route_append t c).2 !! (route_append t c).1 = Some r /\
            route_key r = trip_route_key t.
Proof.
  pose proof (route_append_keys t c) as H. destruct (route_append t c) as [rid c'].
  destruct H as (Hi & _ & _). pose proof (intern_lookup (trip_route_key t) (map route_key (routes c))) as Hl.
  rewrite <- Hi in Hl. simpl in Hl. by apply lookup_map_Some in Hl.
Qed.

(** Route indices are stable: the old table is a prefix of the new one. *)
Lemma route_append_prefix t c : routes c `prefix_of` routes (route_append t c).2.
Proof. destruct (route_append_routes t c) as [-> | ->]; [done|by eexists]. Qed.

(** Two trips with the same [(long_name, agency_id)] get the same route
    index, and the second call changes nothing. *)
Lemma route_append_same_key t1 t2 c :
  trip_route_key t1 = trip_route_key t2 ->
  route_append t2 (route_append t1 c).2 = route_append t1 c.
Proof.
  intros Hkey. pose proof (route_append_keys t1 c) as H.
  destruct (route_append t1 c) as [rid c1] eqn:E1. destruct H as (Hi & _ & _). simpl.
  apply route_append_found. rewrite <- Hkey. apply intern_fixed.
  pose proof (intern_idem (trip_route_key t1) (map route_key (routes c))) as Hid.
  rewrite <- Hi in Hid. exact Hid.
Qed.

(** A trip with a new identity whose agency is known gets the next index;
    the agency list is reused unchanged. *)
Lemma route_append_new_route t c :
  trip_route_key t ∉ map route_key (routes c) -> agency_id t ∈ agencies c ->
  route_append t c =
    (length (routes c),
     set_routes (routes c ++ [mkRoute (trip_type t) (trip_name t) 2 (agency_id t)]) (agencies c) c).
Proof.
  intros Hk Ha. unfold route_append. rewrite route_append_scan.
  apply scan_eq_None in Hk. rewrite Hk, bool_decide_eq_true_2 by done.
  rewrite length_app. simpl. f_equal. lia.
Qed.

Module RoutesWitnesses.
Import Routes Samples.

Definition ice100 : Trip := trip_of [st_A; st_B] day_2016_01_01.
Definition ice100' : Trip := trip_of [st_A; st_B'] day_2016_01_01.
Definition ice102 : Trip :=
  mkTrip [st_A; st_B] (Some "ICE 102"%string) (Some "ICE"%string) (Some "DB Fernverkehr"%string)
         0 "" day_2016_01_01 ∅ None.
Definition conv1 : Converter := (route_append ice100 sample_converter).2.

Lemma route_append_wf_witness :
  routes_wf sample_converter /\ routes_wf (route_append ice100 sample_converter).2.
Proof.
  assert (H : routes_wf sample_converter) by (repeat constructor).
  split; [exact H|]. apply route_append_wf. exact H.
Defined.

Lemma route_append_same_key_witness :
  trip_route_key ice100 = trip_route_key ice100' /\
  route_append ice100' (route_append ice100 sample_converter).2 = route_append ice100 sample_converter.
Proof. split; [reflexivity|]. apply route_append_same_key. reflexivity. Defined.

Lemma route_append_new_route_witness :
  (trip_route_key ice102 ∉ map route_key (routes conv1)) /\ (agency_id ice102 ∈ agencies conv1) /\
  route_append ice102 conv1 =
    (length (routes conv1),
     set_routes (routes conv1 ++ [mkRoute (trip_type ice102) (trip_name ice102) 2 (agency_id ice102)])
                (agencies conv1) conv1).
Proof.
  assert (H1 : trip_route_key ice102 ∉ map route_key (routes conv1)) by decide_by_eval.
  assert (H2 : agency_id ice102 ∈ agencies conv1) by decide_by_eval.
  split_and!; [exact H1|exact H2|]. apply route_append_new_route; [exact H1|exact H2].
Defined.
End RoutesWitnesses.
End RoutesProps.
