(* ===== verification/Trips.v ===== *)
(** * Trip Deduplicator: [trip_compare] and [trip_append]
    (db_to_gtfs.py:183-211)

    Two trips are "equal" when name, type and number of stop times agree
    and, at every index but the last, the stop ids and the departure time
    strings agree.  [trip_append] adds the new trip's service day to the
    first equal trip, or appends the trip.  The section proves that
    [trip_compare] is equality of a structural key ([trip_shape]), so an
    equivalence; that [trip_append] refines [intern] on the keys; and that
    the service days recorded per key grow by exactly the new day.
    [TripsLemmas] makes [trip_compare] a setoid ([trip_equiv]) with the
    [Proper] instances of the key functions. *)

From stdpp Require Import base list strings gmap.
From Stdlib Require Import ZArith Lia.
From S2P Require Import Prelude Python Api Converter Samples.

Module Trips.

(** The loop of [trip_compare] (195-199) at index [i]. *)
Definition departure_differs (st1 st2 : list StopTime) (i : nat) : bool :=
  match st1 !! i, st2 !! i with
  | Some a, Some b =>
      negb (bool_decide (st_stop_id a = st_stop_id b)) ||
      negb (bool_decide (st_departure_time a = st_departure_time b))
  | _, _ => true (* unreachable: both lists have the compared length *)
  end.

Definition trip_compare (trip1 trip2 : Trip) : bool :=
  if negb (bool_decide (trip_name trip1 = trip_name trip2)) then false
  else if negb (bool_decide (trip_type trip1 = trip_type trip2)) then false
  else if negb (Nat.eqb (length (stoptimes trip1)) (length (stoptimes trip2))) then false
  else negb (existsb (departure_differs (stoptimes trip1) (stoptimes trip2))
                     (seq 0 (length (stoptimes trip1) - 1))).

(** [trip['service_dates'].add(d)] *)
Definition add_service_date (d : Z) (trip : Trip) : Trip :=
  mkTrip (stoptimes trip) (trip_name trip) (trip_type trip) (agency_id trip) (route_id trip)
         (headsign trip) (service_date trip) (service_dates trip ∪ {[d]}) (service_id trip).

Definition trip_append (trip_add : Trip) (c : Converter) : Converter :=
  match scan_index (fun trip => trip_compare trip trip_add) (trips c) with
  | Some i => set_trips (alter (add_service_date (service_date trip_add)) i (trips c)) c
  | None => set_trips (trips c ++ [add_service_date (service_date trip_add) trip_add]) c
  end.

(** ** The reference definition: the structural key of a trip *)
Definition StopKey : Type := Z * string.
Definition TripShape : Type := option string * option string * nat * list StopKey.

Definition stop_key (st : StopTime) : StopKey := (st_stop_id st, st_departure_time st).

Definition trip_shape (t : Trip) : TripShape :=
  (trip_name t, trip_type t, length (stoptimes t),
   map stop_key (take (length (stoptimes t) - 1) (stoptimes t))).

(** The service days recorded for trips of key [k]. *)
Definition dates_of (ts : list Trip) (k : TripShape) : gset Z :=
  foldr (fun t acc => (if bool_decide (trip_shape t = k) then service_dates t else ∅) ∪ acc) ∅ ts.

End Trips.

Module TripsProps.
Import Trips.

Lemma departure_differs_at (l1 l2 : list StopTime) k a b :
  l1 !! k = Some a -> l2 !! k = Some b ->
  departure_differs l1 l2 k = negb (bool_decide (stop_key a = stop_key b)).
Proof.
  intros H1 H2. unfold departure_differs, stop_key. rewrite H1, H2.
  bool_decide_cases.
Qed.

Lemma existsb_differs_take (l1 l2 : list StopTime) k :
  (k <= length l1)%nat -> (k <= length l2)%nat ->
  existsb (departure_differs l1 l2) (seq 0 k)
  = negb (bool_decide (map stop_key (take k l1) = map stop_key (take k l2))).
Proof.
  induction k as [|k IH]; intros H1 H2; [done|].
  destruct (lookup_lt_is_Some_2 l1 k) as [a Ha]; [lia|].
  destruct (lookup_lt_is_Some_2 l2 k) as [b Hb]; [lia|].
  rewrite seq_S, existsb_app, IH by lia. simpl.
  rewrite (departure_differs_at l1 l2 k a b Ha Hb), (take_S_r l1 k a Ha), (take_S_r l2 k b Hb), !map_app.
  simpl. rewrite orb_false_r.
  by rewrite bool_decide_app_tail, negb_andb, ?orb_false_r.
Qed.

Lemma trip_compare_shape (t1 t2 : Trip) :
  trip_compare t1 t2 = bool_decide (trip_shape t1 = trip_shape t2).
Proof.
  unfold trip_compare, trip_shape.
  destruct (Nat.eqb_spec (length (stoptimes t1)) (length (stoptimes t2))) as [Hl|Hl].
  - rewrite existsb_differs_take, negb_involutive by lia. rewrite <- Hl.
    bool_decide_cases.
  - bool_decide_cases.
Qed.

(** C5: [trip_compare] is equality of the structural key: name, type,
    number of stop times, and (stop id, departure time) at every index
    but the last; in particular it is an equivalence relation. *)
Theorem trip_compare_spec (t1 t2 : Trip) :
  trip_compare t1 t2 = bool_decide (trip_shape t1 = trip_shape t2).
Proof. apply trip_compare_shape. Qed.

Lemma trip_shape_add_date d t : trip_shape (add_service_date d t) = trip_shape t.
Proof. reflexivity. Qed.

Lemma add_service_date_idem d t : add_service_date d (add_service_date d t) = add_service_date d t.
Proof. unfold add_service_date; simpl. f_equal. set_solver. Qed.

Lemma trip_append_scan (t : Trip) (l : list Trip) :
  scan_index (fun trip => trip_compare trip t) l
  = scan_index (fun k => bool_decide (k = trip_shape t)) (map trip_shape l).
Proof. rewrite scan_index_map. apply scan_index_ext. intros x. apply trip_compare_shape. Qed.

Lemma trip_append_keys t c :
  map trip_shape (trips (trip_append t c)) = (intern (trip_shape t) (map trip_shape (trips c))).2.
Proof.
  unfold trip_append, intern. rewrite trip_append_scan.
  destruct (scan_index _ _); simpl.
  - apply map_list_alter, trip_shape_add_date.
  - by rewrite map_app.
Qed.

Lemma trip_append_NoDup t c :
  NoDup (map trip_shape (trips c)) -> NoDup (map trip_shape (trips (trip_append t c))).
Proof. rewrite trip_append_keys. apply intern_NoDup. Qed.

Lemma trip_append_frame t c :
  stops (trip_append t c) = stops c /\ routes (trip_append t c) = routes c /\
  agencies (trip_append t c) = agencies c /\ processed (trip_append t c) = processed c /\
  calendar_dates (trip_append t c) = calendar_dates c.
Proof. unfold trip_append. by destruct (scan_index _ _). Qed.

(** C7: [trip_append] refines [intern] on the structural keys: the list of
    keys of the trip table evolves as interning the new trip's key (a
    trip with a new key is appended, otherwise the table keeps its keys). *)
Theorem trip_append_intern t c :
  map trip_shape (trips (trip_append t c)) = (intern (trip_shape t) (map trip_shape (trips c))).2.
Proof. apply trip_append_keys. Qed.

(** C6: The service days recorded per key grow by exactly the new trip's
    service day, under its key (a fresh trip has no service days yet). *)
Lemma trip_append_dates t c k :
  service_dates t = ∅ ->
  dates_of (trips (trip_append t c)) k
  = dates_of (trips c) k ∪ (if bool_decide (k = trip_shape t) then {[service_date t]} else ∅).
Proof.
  intros Ht. unfold trip_append. destruct (scan_index _ _) as [i|] eqn:E; simpl.
  - apply scan_index_Some in E as (x & Hx & Hc & _). rewrite trip_compare_shape in Hc.
    apply bool_decide_eq_true in Hc. unfold dates_of.
    apply (foldr_union_alter (fun t => if bool_decide (trip_shape t = k) then service_dates t else ∅)
             _ _ _ x); [done|].
    rewrite trip_shape_add_date, Hc. simpl. repeat case_bool_decide; subst; try congruence; set_solver.
  - unfold dates_of. rewrite foldr_app. simpl. rewrite trip_shape_add_date, Ht.
    generalize (trips c). intros l. induction l as [|y l IH]; simpl.
    + repeat case_bool_decide; subst; try congruence; set_solver.
    + rewrite IH. set_solver.
Qed.

(** Feeding the same trip twice changes nothing the second time. *)
Lemma trip_append_idem t c : trip_append t (trip_append t c) = trip_append t c.
Proof.
  unfold trip_append at 2. destruct (scan_index _ (trips c)) as [i|] eqn:E.
  - unfold trip_append; simpl. rewrite trip_append_scan, map_list_alter by apply trip_shape_add_date.
    rewrite <- trip_append_scan, E. simpl. by rewrite list_alter_idem by apply add_service_date_idem.
  - unfold trip_append; simpl. rewrite E, trip_append_scan, map_app.
    rewrite scan_index_app_None by (by rewrite <- trip_append_scan). simpl.
    rewrite bool_decide_eq_true_2 by done. simpl. rewrite Nat.add_0_r, length_map.
    rewrite alter_app_r_alt by lia. rewrite Nat.sub_diag. simpl.
    by rewrite add_service_date_idem.
Qed.

Module TripsWitnesses.
Import Samples.

Definition ice100_day1 : Trip := trip_of [st_A; st_B] day_2016_01_01.
Definition ice100_day2 : Trip := trip_of [st_A; st_B'] (day_2016_01_01 + 1).

Lemma trip_append_dates_witness :
  service_dates ice100_day2 = ∅ /\
  dates_of (trips (trip_append ice100_day2 (trip_append ice100_day1 sample_converter)))
           (trip_shape ice100_day1)
  = dates_of (trips (trip_append ice100_day1 sample_converter)) (trip_shape ice100_day1)
    ∪ (if bool_decide (trip_shape ice100_day1 = trip_shape ice100_day2)
       then {[service_date ice100_day2]} else ∅).
Proof. split; [reflexivity|]. apply trip_append_dates. reflexivity. Defined.
End TripsWitnesses.
End TripsProps.

Module TripsLemmas.
Import Trips TripsProps.

(** A property of trips that ignores service days holds of the whole
    table after [trip_append] if it held before and holds of the new trip. *)
Lemma trip_append_Forall (P : Trip -> Prop) t c :
  (forall d x, P x -> P (add_service_date d x)) ->
  Forall P (trips c) -> P t -> Forall P (trips (trip_append t c)).
Proof.
  intros HP Hall Ht. unfold trip_append. destruct (scan_index _ _) as [i|]; simpl.
  - apply Forall_lookup. intros j x Hx. rewrite list_lookup_alter in Hx.
    destruct (decide (i = j)) as [<-|Hne].
    + destruct (trips c !! i) as [y|] eqn:Ey; simpl in Hx; [|done]. injection Hx as <-.
      apply HP. by eapply Forall_lookup_1.
    + by eapply Forall_lookup_1.
  - apply Forall_app. split; [done|]. constructor; [by apply HP|constructor].
Qed.

(** ** [trip_compare] as a setoid

    [trip_compare] is an equivalence on trips, and the key structure of
    the table after [trip_append] only depends on the class of the trip
    appended. *)
Definition trip_equiv (t1 t2 : Trip) : Prop := trip_compare t1 t2 = true.

#[export] Instance trip_equiv_equivalence : Equivalence trip_equiv.
Proof.
  unfold trip_equiv. split.
  - intros t. rewrite trip_compare_shape. by apply bool_decide_eq_true.
  - intros t1 t2. rewrite !trip_compare_shape, !bool_decide_eq_true. done.
  - intros t1 t2 t3. rewrite !trip_compare_shape, !bool_decide_eq_true. congruence.
Qed.

#[export] Instance trip_shape_proper : Proper (trip_equiv ==> eq) trip_shape.
Proof.
  intros t1 t2 H. unfold trip_equiv in H. rewrite trip_compare_shape in H.
  by apply bool_decide_eq_true in H.
Qed.

#[export] Instance trip_append_keys_proper :
  Proper (trip_equiv ==> eq ==> eq) (fun t c => map trip_shape (trips (trip_append t c))).
Proof. intros t1 t2 Ht c ? <-. rewrite !trip_append_keys. by rewrite Ht. Qed.
End TripsLemmas.
