(* ===== verification/TripBuilder.v ===== *)
(** * Trip Builder: [process_trip] (db_to_gtfs.py:135-181)

    Fetches a journey detail, registers every stop's station and marks it
    as served, builds the stop times (arrival and departure standing in
    for each other when one is absent), asks [route_append] for a route,
    and, for a trip of at least two stop times, normalizes it with
    [pack_trip] and hands it to [trip_append].  Note the order of the
    code: the route is registered before the two-stop check. *)

From stdpp Require Import base list strings gmap.
From Stdlib Require Import ZArith Lia.
From S2P Require Import Prelude Python Api Converter Samples TimeNorm Stations Routes Trips.

Local Open Scope py_scope.

Module TripBuilder.
Import TimeNorm Stations Routes Trips.

(** [stoptime['x'] if 'x' in stoptime else stoptime['y']] *)
Definition key_or (x y : option string) : res string :=
  match x with
  | Some v => Ok v
  | None => of_option KeyError y
  end.

(** The stop-time dictionary of 165-172, its values in evaluation order. *)
Definition build_stoptime (js : JStop) : res StopTime :=
  let? sid := py_int (js_id js) in
  let? seq := py_int (js_routeIdx js) in
  let? arrival_time := key_or (js_arrTime js) (js_depTime js) in
  let? departure_time := key_or (js_depTime js) (js_arrTime js) in
  let? arrival_date := key_or (js_arrDate js) (js_depDate js) in
  let? departure_date := key_or (js_depDate js) (js_arrDate js) in
  Ok (mkStopTime sid seq arrival_time departure_time (DStr arrival_date) (DStr departure_date)).

(** The station dictionary passed to [process_station_by_ob] (158-163). *)
Definition station_of_stop (js : JStop) : StationOb :=
  mkStationOb (js_id js) (js_name js) (js_lat js) (js_lon js).

(** [for stoptime in data['JourneyDetail']['Stops']['Stop']]: a list is
    iterated; a bare object (one stop) is iterated over its keys, and
    indexing a key string with ['name'] raises [TypeError]. *)
Definition stop_list (o : one_or_list JStop) : res (list JStop) :=
  match o with
  | JList l => Ok l
  | JOne _ => Exc TypeError
  end.

Section WithEnv.
Context (env : Env).

(** One iteration of the loop of 156-174. *)
Definition process_stop (acc : list StopTime) (js : JStop) : M Converter (list StopTime) :=
  process_station_by_ob env (Some (JOne (station_of_stop js))) ;;;
  st <- liftR (build_stoptime js) ;;
  sid <- liftR (py_int (js_id js)) ;;
  set_has_trip sid ;;;
  retM (acc ++ [st]).

Fixpoint process_stops (acc : list StopTime) (l : list JStop) : M Converter (list StopTime) :=
  match l with
  | [] => retM acc
  | js :: l' => bindM (process_stop acc js) (fun acc' => process_stops acc' l')
  end.

Definition route_appendM (trip : Trip) : M Converter nat :=
  fun c => let '(rid, c') := route_append trip c in Ok (rid, c').

Definition with_route_id (rid : nat) (t : Trip) : Trip :=
  mkTrip (stoptimes t) (trip_name t) (trip_type t) (agency_id t) rid (headsign t)
         (service_date t) (service_dates t) (service_id t).

(** The trip dictionary of 139-154 once its metadata is read. *)
Definition new_trip (sts : list StopTime) (name type agency : option string) : Trip :=
  mkTrip sts name type agency 0 "" 0 ∅ None.

Definition process_trip (trip_url : string) : M Converter unit :=
  data <- liftR (of_sum (fetch_journey env trip_url)) ;;
  match data with
  | None => retM tt
  | Some jd =>
      name <- liftR (get_first_in_list (jd_names jd)) ;;
      type <- liftR (get_first_in_list (jd_types jd)) ;;
      agency <- liftR (get_first_in_list (jd_operators jd)) ;;
      jstops <- liftR (stop_list (jd_stops jd)) ;;
      sts <- process_stops [] jstops ;;
      let trip := new_trip sts name type agency in
      rid <- route_appendM trip ;;
      if Nat.ltb 1 (length sts) then
        c <- getM ;;
        packed <- liftR (pack_trip env (stops c) (with_route_id rid trip)) ;;
        modifyM (trip_append packed)
      else retM tt
  end.
End WithEnv.

(** ** The invariant of the converter's tables

    Every kept trip has at least two stop times, its stations are
    registered and marked as served, and its [route_id] names a route
    with the trip's identity; the route table and the registry are well
    formed and no two trips share a structural key. *)
Definition trip_ok (c : Converter) (t : Trip) : Prop :=
  (2 <= length (stoptimes t))%nat /\ served (stops c) (stoptimes t) /\
  exists r, routes c !! route_id t = Some r /\ route_key r = trip_route_key t.

Definition converter_wf (c : Converter) : Prop :=
  routes_wf c /\ stations_wf (stops c) /\ NoDup (map trip_shape (trips c)) /\
  Forall (trip_ok c) (trips c).
End TripBuilder.

Module TripBuilderProps.
Import TimeNorm Stations StationsProps Routes Trips TripBuilder.

Lemma build_stoptime_id js st : build_stoptime js = Ok st -> py_int (js_id js) = Ok (st_stop_id st).
Proof.
  unfold build_stoptime. destruct (py_int (js_id js)) as [sid|]; simpl; try discriminate.
  intros H. repeat (match type of H with bindR ?r _ = _ => destruct r; simpl in H; try discriminate end).
  by injection H as <-.
Qed.

Section WithEnv.
Context (env : Env).

Lemma process_stop_spec acc js c acc' c' :
  process_stop env acc js c = Ok (acc', c') -> stations_wf (stops c) ->
  stations_wf (stops c') /\ stops_le (stops c) (stops c') /\ c' = set_stops (stops c') c /\
  exists st, build_stoptime js = Ok st /\ acc' = acc ++ [st] /\ served (stops c') [st].
Proof.
  intros H Hwf. unfold process_stop in H. M_inv H. destruct a, a2.
  apply process_station_by_ob_inv in Hm as Hwf1; [|done]. destruct Hwf1 as (Hwf1 & _ & _).
  apply process_station_by_ob_le in Hm as (Hc1 & Hle1 & _).
  apply set_has_trip_spec in Hm0 as (Hc2 & Hle2 & Hwf2 & sv & Hsv & Hht).
  split_and!.
  - by apply Hwf2.
  - by etrans.
  - rewrite Hc2, Hc1. by destruct c.
  - exists a0. split_and!; [done|done|]. constructor; [|constructor].
    apply build_stoptime_id in H0. rewrite H0 in H1. injection H1 as <-. eauto.
Qed.

Lemma process_stops_spec l acc c acc' c' :
  process_stops env acc l c = Ok (acc', c') -> stations_wf (stops c) -> served (stops c) acc ->
  stations_wf (stops c') /\ stops_le (stops c) (stops c') /\ c' = set_stops (stops c') c /\
  served (stops c') acc' /\ exists sts, mapR build_stoptime l = Ok sts /\ acc' = acc ++ sts.
Proof.
  revert acc c. induction l as [|js l IH]; intros acc c H Hwf Hsv; simpl in H.
  - apply retM_Ok in H as [-> ->]. split_and!; [done|reflexivity|by destruct c|done|].
    exists []. by rewrite app_nil_r.
  - apply bindM_inv in H as (acc1 & c1 & H1 & H).
    destruct (process_stop_spec _ _ _ _ _ H1 Hwf) as (Hwf1 & Hle1 & Hc1 & st & Hst & -> & Hsv1).
    assert (Hsv1' : served (stops c1) (acc ++ [st])).
    { apply Forall_app. split; [by eapply served_le|done]. }
    destruct (IH _ _ H Hwf1 Hsv1') as (Hwf2 & Hle2 & Hc2 & Hsv2 & sts & Hsts & Hacc).
    split_and!; [done|by etrans| |done|].
    + rewrite Hc2, Hc1. by destruct c.
    + exists (st :: sts). simpl. rewrite Hst, Hsts, Hacc. simpl. by rewrite <- app_assoc.
Qed.

Lemma process_stop_le acc js c acc' c' :
  process_stop env acc js c = Ok (acc', c') ->
  stops_le (stops c) (stops c') /\ c' = set_stops (stops c') c.
Proof.
  intros H. unfold process_stop in H. M_inv H. destruct a, a2.
  apply process_station_by_ob_le in Hm as (Hc1 & Hle1 & _).
  apply set_has_trip_spec in Hm0 as (Hc2 & Hle2 & _ & _).
  split; [by etrans|]. rewrite Hc2, Hc1. by destruct c.
Qed.

Lemma process_stops_le l acc c acc' c' :
  process_stops env acc l c = Ok (acc', c') ->
  stops_le (stops c) (stops c') /\ c' = set_stops (stops c') c.
Proof.
  revert acc c. induction l as [|js l IH]; intros acc c H; simpl in H.
  - apply retM_Ok in H as [-> ->]. split; [reflexivity|by destruct c].
  - apply bindM_inv in H as (acc1 & c1 & H1 & H).
    destruct (process_stop_le _ _ _ _ _ H1) as (Hle1 & Hc1).
    destruct (IH _ _ H) as (Hle2 & Hc2). split; [by etrans|]. rewrite Hc2, Hc1. by destruct c.
Qed.

Lemma route_appendM_Ok t c rid c' :
  route_appendM t c = Ok (rid, c') -> route_append t c = (rid, c').
Proof. unfold route_appendM. destruct (route_append t c). by intros [= -> ->]. Qed.

(** The runs of [process_trip] that succeed: no journey detail, or the
    steps of 147-181 in order. *)
Lemma process_trip_inv url c c' :
  process_trip env url c = Ok (tt, c') ->
  fetch_journey env url = inr None /\ c' = c \/
  exists jd name type agency jstops sts c1,
    fetch_journey env url = inr (Some jd) /\
    get_first_in_list (jd_names jd) = Ok name /\ get_first_in_list (jd_types jd) = Ok type /\
    get_first_in_list (jd_operators jd) = Ok agency /\ stop_list (jd_stops jd) = Ok jstops /\
    process_stops env [] jstops c = Ok (sts, c1) /\
    ((length sts <= 1)%nat /\ c' = (route_append (new_trip sts name type agency) c1).2 \/
     (1 < length sts)%nat /\ exists packed,
        pack_trip env (stops (route_append (new_trip sts name type agency) c1).2)
          (with_route_id (route_append (new_trip sts name type agency) c1).1
                         (new_trip sts name type agency)) = Ok packed /\
        c' = trip_append packed (route_append (new_trip sts name type agency) c1).2).
Proof.
  intros H. unfold process_trip in H. M_inv H. destruct a as [jd|]; simpl in H.
  2:{ left. apply retM_Ok in H as [_ ->]. by split. }
  right. M_inv H. apply route_appendM_Ok in Hm0.
  exists jd, a, a0, a1, a2, a3, s. split_and!; try done.
  rewrite Hm0. simpl. destruct (Nat.ltb_spec 1 (length a3)) as [Hlt|Hle].
  - right. split; [done|]. M_inv H. apply modifyM_Ok in H. eauto.
  - left. split; [lia|]. by apply retM_Ok in H as [_ ->].
Qed.

(** [process_trip] only extends the registry (it may mark stations as
    served) and keeps the feed's dates and the processed departures. *)
Lemma process_trip_le url c c' :
  process_trip env url c = Ok (tt, c') ->
  stops_le (stops c) (stops c') /\ start_date c' = start_date c /\ end_date c' = end_date c /\
  processed c' = processed c.
Proof.
  intros H. apply process_trip_inv in H as [[_ ->]|H]; [split_and!; reflexivity|].
  destruct H as (jd & name & type & agency & jstops & sts & c1 & _ & _ & _ & _ & _ & Hps & Hrest).
  destruct (process_stops_le _ _ _ _ _ Hps) as (Hle1 & Hc1).
  destruct (Routes.route_append_frame (new_trip sts name type agency) c1) as (Hs2 & _ & Hp2 & _).
  assert (He2 : end_date (route_append (new_trip sts name type agency) c1).2 = end_date c /\
                start_date (route_append (new_trip sts name type agency) c1).2 = start_date c).
  { unfold route_append. destruct (scan_index _ _); simpl; rewrite Hc1; done. }
  destruct He2 as [He2 Hs2'].
  destruct Hrest as [(_ & ->)|(_ & packed & _ & ->)].
  - split_and!; [by rewrite Hs2|done|done|by rewrite Hp2, Hc1].
  - destruct (TripsProps.trip_append_frame packed (route_append (new_trip sts name type agency) c1).2)
      as (Hs3 & _ & _ & Hp3 & _).
    assert (He3 : forall c0, end_date (trip_append packed c0) = end_date c0 /\
                             start_date (trip_append packed c0) = start_date c0).
    { intros c0. unfold trip_append. by destruct (scan_index _ _). }
    destruct (He3 (route_append (new_trip sts name type agency) c1).2) as [He3' Hs3'].
    split_and!; [by rewrite Hs3, Hs2|congruence|congruence|by rewrite Hp3, Hp2, Hc1].
Qed.

Lemma served_pack start sts sts' m :
  Forall2 (fun st st' => pack_stoptime env start st = Ok st') sts sts' -> served m sts -> served m sts'.
Proof.
  induction 1 as [|st st' l l' Hst _ IH]; intros Hsv; [constructor|].
  apply Forall_cons in Hsv as [Hx Hl]. constructor; [|by apply IH].
  apply TimeNormProps.pack_stoptime_rolled in Hst as (_ & _ & _ & _ & Hid & _). by rewrite Hid.
Qed.
End WithEnv.

Lemma trip_ok_mono c c' t :
  stops_le (stops c) (stops c') -> routes c `prefix_of` routes c' -> trip_ok c t -> trip_ok c' t.
Proof.
  intros Hs Hr (Hlen & Hsv & r & Hr1 & Hk). split_and!; [done|by eapply served_le|].
  exists r. split; [by eapply prefix_lookup_Some|done].
Qed.

Lemma trip_ok_add_date c d t : trip_ok c t -> trip_ok c (add_service_date d t).
Proof. done. Qed.

Lemma trip_ok_eq c c' t :
  stops c' = stops c -> routes c' = routes c -> trip_ok c t -> trip_ok c' t.
Proof. intros Hs Hr. apply trip_ok_mono; [rewrite Hs|rewrite Hr]; reflexivity. Qed.

Lemma Forall_trip_ok_eq c c' ts :
  stops c' = stops c -> routes c' = routes c -> Forall (trip_ok c) ts -> Forall (trip_ok c') ts.
Proof. intros Hs Hr Hall. eapply Forall_impl; [exact Hall|]. intros t. by apply trip_ok_eq. Qed.

Section WithEnv.
Context (env : Env).

(** The trip [process_trip] hands to [trip_append] is well formed. *)
Lemma packed_trip_ok sts name type agency c1 packed :
  (1 < length sts)%nat -> served (stops c1) sts ->
  pack_trip env (stops (route_append (new_trip sts name type agency) c1).2)
    (with_route_id (route_append (new_trip sts name type agency) c1).1
                   (new_trip sts name type agency)) = Ok packed ->
  trip_ok (route_append (new_trip sts name type agency) c1).2 packed.
Proof.
  intros Hlen Hsv Hp. destruct (RoutesProps.route_append_lookup (new_trip sts name type agency) c1)
    as (r & Hr & Hk).
  apply TimeNormProps.pack_trip_spec in Hp as (first & start & lst & station & _ & _ & Hall & _ & _ & Ht).
  rewrite Ht. split_and!; simpl.
  - apply Forall2_length in Hall. simpl in Hall. lia.
  - eapply served_pack; [exact Hall|]. simpl. by rewrite (proj1 (Routes.route_append_frame _ _)).
  - exists r. split; [exact Hr|exact Hk].
Qed.

Lemma process_trip_preserves_wf url c c' :
  converter_wf c -> process_trip env url c = Ok (tt, c') -> converter_wf c'.
Proof.
  intros (Hr & Hs & Hnd & Hok) H. apply process_trip_inv in H as [[_ ->]|H]; [by split_and!|].
  destruct H as (jd & name & type & agency & jstops & sts & c1 & _ & _ & _ & _ & _ & Hps & Hrest).
  destruct (process_stops_spec env _ _ _ _ _ Hps Hs (Forall_nil_2 _))
    as (Hs1 & Hle1 & Hc1 & Hsv1 & _).
  set (trip := new_trip sts name type agency) in *.
  destruct (Routes.route_append_frame trip c1) as (Hst2 & Htr2 & _ & _).
  pose proof (RoutesProps.route_append_prefix trip c1) as Hpre.
  set (c2 := (route_append trip c1).2) in *.
  assert (Hr1 : routes_wf c1) by (rewrite Hc1; exact Hr).
  assert (Hr2 : routes_wf c2) by (apply RoutesProps.route_append_preserves_wf, Hr1).
  assert (Htr1 : trips c1 = trips c) by (rewrite Hc1; reflexivity).
  assert (Hrt1 : routes c1 = routes c) by (rewrite Hc1; reflexivity).
  assert (Hok2 : Forall (trip_ok c2) (trips c2)).
  { rewrite Htr2, Htr1. eapply Forall_impl; [exact Hok|]. intros t.
    apply trip_ok_mono; [rewrite Hst2; exact Hle1|rewrite <- Hrt1; exact Hpre]. }
  destruct Hrest as [(_ & ->)|(Hlen & packed & Hp & ->)].
  - split_and!; [done|by rewrite Hst2|by rewrite Htr2, Htr1|done].
  - destruct (TripsProps.trip_append_frame packed c2) as (Hs3 & Hr3 & Ha3 & _ & _).
    split_and!.
    + destruct Hr2 as (? & ? & ?). unfold routes_wf. by rewrite Hr3, Ha3.
    + by rewrite Hs3, Hst2.
    + apply TripsProps.trip_append_NoDup. by rewrite Htr2, Htr1.
    + eapply Forall_trip_ok_eq; [exact Hs3|exact Hr3|].
      apply TripsLemmas.trip_append_Forall; [intros d x; apply trip_ok_add_date|exact Hok2|].
      eapply packed_trip_ok; [exact Hlen|exact Hsv1|exact Hp].
Qed.
End WithEnv.
End TripBuilderProps.

Module TripBuilderClaims.
Import TimeNorm Stations StationsProps Routes Trips TripBuilder TripBuilderProps.

Section WithEnv.
Context (env : Env).

(** C8: [process_trip] preserves the invariant of the converter's tables:
    every kept trip has at least two stop times, all its stations are
    registered and marked as served, its [route_id] names a route with the
    trip's name and agency, routes and agencies are without duplicates,
    stations are stored under their ids and no two trips share a key. *)
Theorem process_trip_wf url c c' :
  converter_wf c -> process_trip env url c = Ok (tt, c') -> converter_wf c'.
Proof. apply process_trip_preserves_wf. Qed.

(** C26: a journey with a single stop is discarded, but only after the code
    registered its route (and agency) and marked its station as served:
    the trip table is unchanged while the route table interns the
    journey's identity and the station will be written to stops.txt. *)
Theorem process_trip_single_stop url c c' jd js :
  stations_wf (stops c) ->
  fetch_journey env url = inr (Some jd) -> jd_stops jd = JList [js] ->
  process_trip env url c = Ok (tt, c') ->
  trips c' = trips c /\
  (exists name agency sid s,
     get_first_in_list (jd_names jd) = Ok name /\ get_first_in_list (jd_operators jd) = Ok agency /\
     map route_key (routes c') = (intern (name, agency) (map route_key (routes c))).2 /\
     py_int (js_id js) = Ok sid /\ stops c' !! sid = Some s /\ has_trip s = true).
Proof.
  intros Hwf Hf Hst H. apply process_trip_inv in H as [[Hn _]|H]; [congruence|].
  destruct H as (jd' & name & type & agency & jstops & sts & c1 & Hf' & Hn & _ & Ha & Hl & Hps & Hrest).
  rewrite Hf in Hf'. injection Hf' as <-. rewrite Hst in Hl. injection Hl as <-.
  simpl in Hps. apply bindM_inv in Hps as (acc1 & c2 & H1 & H2). simpl in H2.
  apply retM_Ok in H2 as [<- ->].
  destruct (process_stop_spec env _ _ _ _ _ H1 Hwf) as (_ & _ & Hc1 & st & Hb & -> & Hsv).
  destruct Hrest as [(_ & ->)|(Hlen & _)]; [|simpl in Hlen; lia].
  destruct (Routes.route_append_frame (new_trip ([] ++ [st]) name type agency) c2) as (Hs2 & Ht2 & _ & _).
  pose proof (Routes.route_append_keys (new_trip ([] ++ [st]) name type agency) c2) as Hk.
  destruct (route_append _ c2) as [rid c3] eqn:E. simpl in *. destruct Hk as (Hk & _ & _).
  split.
  - rewrite Ht2, Hc1. reflexivity.
  - apply Forall_cons in Hsv as [(s & Hs & Hh) _].
    exists name, agency, (st_stop_id st), s. split_and!; try done.
    + apply (f_equal snd) in Hk. simpl in Hk. rewrite Hk, Hc1. reflexivity.
    + by apply build_stoptime_id.
    + by rewrite Hs2.
Qed.

(** C27: a journey whose single stop arrives as a bare JSON object (not a
    one-element list) makes [process_trip] raise [TypeError]: the loop
    iterates over the object's keys and indexes a key string with
    ['name'].  The spec expects such a trip to be discarded silently. *)
Theorem process_trip_single_object url c jd js name type agency :
  fetch_journey env url = inr (Some jd) ->
  get_first_in_list (jd_names jd) = Ok name -> get_first_in_list (jd_types jd) = Ok type ->
  get_first_in_list (jd_operators jd) = Ok agency -> jd_stops jd = JOne js ->
  process_trip env url c = Exc TypeError.
Proof.
  intros Hf Hn Ht Ha Hs. unfold process_trip. py_simp.
  rewrite Hf; simpl. rewrite Hn; simpl. rewrite Ht; simpl. rewrite Ha; simpl. by rewrite Hs.
Qed.
End WithEnv.

Module TripBuilderWitnesses.
Import Samples.

Lemma sample_converter_wf : converter_wf sample_converter.
Proof. split_and!; [repeat constructor|apply map_Forall_empty|constructor|constructor]. Qed.

Lemma process_trip_wf_witness :
  converter_wf sample_converter /\
  exists c', process_trip sample_env "ref-ICE100" sample_converter = Ok (tt, c') /\ converter_wf c'.
Proof.
  split; [exact sample_converter_wf|]. eexists. split; [vm_compute; reflexivity|].
  apply (process_trip_wf sample_env "ref-ICE100" sample_converter); [exact sample_converter_wf|].
  vm_compute. reflexivity.
Defined.

Lemma process_trip_single_stop_witness :
  stations_wf (stops sample_converter) /\
  fetch_journey sample_env "ref-RE1" = inr (Some journey_RE1) /\ jd_stops journey_RE1 = JList [jstop_A] /\
  exists c', process_trip sample_env "ref-RE1" sample_converter = Ok (tt, c') /\
  trips c' = trips sample_converter /\
  (exists name agency sid s,
     get_first_in_list (jd_names journey_RE1) = Ok name /\
     get_first_in_list (jd_operators journey_RE1) = Ok agency /\
     map route_key (routes c') = (intern (name, agency) (map route_key (routes sample_converter))).2 /\
     py_int (js_id jstop_A) = Ok sid /\ stops c' !! sid = Some s /\ has_trip s = true).
Proof.
  split_and!; [apply map_Forall_empty|reflexivity|reflexivity|].
  eexists. split; [vm_compute; reflexivity|].
  apply (process_trip_single_stop sample_env "ref-RE1" sample_converter); try reflexivity.
  apply map_Forall_empty.
Defined.

Lemma process_trip_single_object_witness :
  fetch_journey sample_env "ref-RE2" = inr (Some journey_RE2) /\
  process_trip sample_env "ref-RE2" sample_converter = Exc TypeError.
Proof.
  split; [reflexivity|].
  apply (process_trip_single_object sample_env "ref-RE2" sample_converter journey_RE2 jstop_A
           (Some "RE 2"%string) (Some "RE"%string) (Some "DB Regio"%string)); reflexivity.
Defined.
End TripBuilderWitnesses.
End TripBuilderClaims.
