(* ===== verification/Crawl.v ===== *)
(** * Crawl Frontier Driver: [get_all_trips_for_stop], [dep_processed]
    and the loop of [main] (db_to_gtfs.py:70-124, 423-446)

    For one station, [get_all_trips_for_stop] marks it fetched and, while
    its cursor date is before the feed's end date, queries the departure
    board at the cursor, advances the cursor date by one day, then for
    every departure: moves the cursor's hour and minute (compared as
    Python 2 values: strings, or the initial integer 0) and its date
    forward, and for a departure of this very station not processed yet
    (same date, direction and name) processes its trip and records it.
    [main] registers the seed stations and crawls stations until none is
    left unfetched.  The station being crawled is read and written through
    the registry, as the code's [stop] dictionary is the registry's own
    object (which [process_trip] may mark as served).  [CrawlProps]
    proves the progress of the cursor date and termination, [CrawlInv]
    that every step of the crawl keeps the invariant of the tables, and
    [CrawlClaims] that the cursor's hour and minute, raised one by one,
    can end later than every departure that set them. *)

From stdpp Require Import base list strings gmap.
From Stdlib Require Import ZArith Lia Ascii.
From S2P Require Import Prelude Python Api Converter Samples TimeNorm Stations Routes Trips TripBuilder.

Local Open Scope py_scope.

Module Crawl.
Import Stations TripBuilder.

(** [dep_processed] (119-124): the departure was already seen with the
    same date, direction and name. *)
Definition same_departure (proced dep : Departure) : bool :=
  bool_decide (dep_date proced = dep_date dep) && bool_decide (dep_direction proced = dep_direction dep)
  && bool_decide (dep_name proced = dep_name dep).

Definition dep_processed (processed : list Departure) (dep : Departure) : bool :=
  existsb (fun proced => same_departure proced dep) processed.

(** Field updates of a station dictionary. *)
Definition set_check_h (v : pyval) (st : Station) : Station :=
  mkStation (stop_id st) (stop_name st) (stop_lat st) (stop_lon st) v (last_check_m st)
            (last_date st) (has_trip st) (trips_fetched st).
Definition set_check_m (v : pyval) (st : Station) : Station :=
  mkStation (stop_id st) (stop_name st) (stop_lat st) (stop_lon st) (last_check_h st) v
            (last_date st) (has_trip st) (trips_fetched st).
Definition set_last_date (d : Z) (st : Station) : Station :=
  mkStation (stop_id st) (stop_name st) (stop_lat st) (stop_lon st) (last_check_h st)
            (last_check_m st) d (has_trip st) (trips_fetched st).
Definition set_fetched (st : Station) : Station :=
  mkStation (stop_id st) (stop_name st) (stop_lat st) (stop_lon st) (last_check_h st)
            (last_check_m st) (last_date st) (has_trip st) true.

(** [self.stops[sid]] read, and updated in place. *)
Definition read_station (sid : Z) : M Converter Station :=
  c <- getM ;; liftR (of_option KeyError (stops c !! sid)).

Definition update_station (sid : Z) (f : Station -> Station) : M Converter unit :=
  st <- read_station sid ;;
  modifyM (fun c => set_stops (<[sid := f st]> (stops c)) c).

(** [.split(':')] of a departure time. *)
Definition time_field (dep : Departure) (i : nat) : res string :=
  py_index (py_split ":"%char (dep_time dep)) i.

(** [if v > stop[key]: stop[key] = v] for the cursor's hour, minute and
    date (98-103). *)
Definition raise_check_h (sid : Z) (v : string) : M Converter unit :=
  st <- read_station sid ;;
  if py2_gt (PStr v) (last_check_h st) then update_station sid (set_check_h (PStr v)) else retM tt.
Definition raise_check_m (sid : Z) (v : string) : M Converter unit :=
  st <- read_station sid ;;
  if py2_gt (PStr v) (last_check_m st) then update_station sid (set_check_m (PStr v)) else retM tt.
Definition raise_last_date (sid : Z) (d : Z) : M Converter unit :=
  st <- read_station sid ;;
  if Z.gtb d (last_date st) then update_station sid (set_last_date d) else retM tt.

Section WithEnv.
Context (env : Env).

Definition update_cursor (sid : Z) (dep : Departure) : M Converter unit :=
  h <- liftR (time_field dep 0) ;;
  raise_check_h sid h ;;;
  m <- liftR (time_field dep 1) ;;
  raise_check_m sid m ;;;
  d <- liftR (of_sum (dateparse env (dep_date dep))) ;;
  raise_last_date sid d.

(** One departure of the board (97-111). *)
Definition process_departure (sid : Z) (dep : Departure) : M Converter unit :=
  update_cursor sid dep ;;;
  dep_sid <- liftR (py_int (dep_stopid dep)) ;;
  st <- read_station sid ;;
  if Z.eqb dep_sid (stop_id st) then
    c <- getM ;;
    if dep_processed (processed c) dep then retM tt
    else process_trip env (dep_ref dep) ;;;
         modifyM (fun c => set_processed (processed c ++ [dep]) c)
  else retM tt.

(** The departures of a board; a single departure arrives as a bare
    object (92-94). *)
Definition board_departures (board : option (one_or_list Departure)) : list Departure :=
  match board with
  | None => []
  | Some (JOne d) => [d]
  | Some (JList l) => l
  end.

(** The request's parameters (79-82): [str(stop_id)] (the template
    [DEP_URL] writes it after ["00"]), the cursor's date and
    [str(h) + ':' + str(m)]. *)
Definition board_time (st : Station) : string :=
  pyval_str (last_check_h st) +:+ ":" +:+ pyval_str (last_check_m st).

(** One iteration of the [while] loop (78-111). *)
Definition query_once (sid : Z) : M Converter unit :=
  st <- read_station sid ;;
  data <- liftR (of_sum (fetch_departures env (py_str (stop_id st)) (last_date st)
                                          (board_time st))) ;;
  update_station sid (fun st => set_last_date (last_date st + 1) st) ;;;
  forM (board_departures data) (process_departure sid).

(** [while stop['last_date'] < self.end_date: ...] *)
Fixpoint crawl_loop (fuel : nat) (sid : Z) : MF Converter unit :=
  match fuel with
  | O => fun _ => None
  | S fuel' =>
      bindF (liftF (read_station sid)) (fun st =>
      bindF (liftF getM) (fun c =>
      if Z.ltb (last_date st) (end_date c)
      then bindF (liftF (query_once sid)) (fun _ => crawl_loop fuel' sid)
      else liftF (retM tt)))
  end.

(** [get_all_trips_for_stop(self.stops[sid])] (70-77) *)
Definition get_all_trips_for_stop (fuel : nat) (sid : Z) : MF Converter unit :=
  bindF (liftF (read_station sid)) (fun st =>
  if trips_fetched st then liftF (retM tt)
  else bindF (liftF (update_station sid set_fetched)) (fun _ => crawl_loop fuel sid)).

(** The loop of [main] (443-446); [while sid:] also stops on the id 0. *)
Fixpoint main_loop (fuel inner : nat) : MF Converter unit :=
  match fuel with
  | O => fun _ => None
  | S fuel' =>
      bindF (liftF getM) (fun c =>
      match get_unfetched_station_id c with
      | None => liftF (retM tt)
      | Some sid =>
          if Z.eqb sid 0 then liftF (retM tt)
          else bindF (get_all_trips_for_stop inner sid) (fun _ => main_loop fuel' inner)
      end)
  end.

(** The seeds of [main] (436-441): [--station-seed] split at ','. *)
Definition seed_stations (seeds : string) : M Converter unit :=
  forM (py_split ","%char seeds) (fun seed =>
    sid <- liftR (py_int seed) ;; process_station_by_id env sid).
End WithEnv.
End Crawl.

Module CrawlProps.
Import Stations StationsProps TripBuilder TripBuilderProps Crawl.

(** ** Progress of a station's cursor date

    [date_le sid c c']: the end date is kept and the station [sid], if
    registered, stays registered with a cursor date at least as late. *)
Definition date_le (sid : Z) (c c' : Converter) : Prop :=
  end_date c' = end_date c /\
  forall st, stops c !! sid = Some st ->
  exists st', stops c' !! sid = Some st' /\ (last_date st <= last_date st')%Z.

#[export] Instance date_le_preorder sid : PreOrder (date_le sid).
Proof.
  split.
  - intros c. split; [done|]. intros st Hst. exists st. split; [done|lia].
  - intros c1 c2 c3 [He1 H12] [He2 H23]. split; [congruence|]. intros st Hst.
    destruct (H12 st Hst) as (st2 & Hst2 & Hle2). destruct (H23 st2 Hst2) as (st3 & Hst3 & Hle3).
    exists st3. split; [done|lia].
Qed.

Lemma date_le_stops_le sid c c' :
  end_date c' = end_date c -> stops_le (stops c) (stops c') -> date_le sid c c'.
Proof.
  intros He Hle. split; [done|]. intros st Hst. destruct (Hle _ _ Hst) as (st' & Hst' & Hs).
  exists st'. split; [done|]. destruct Hs as (_ & _ & _ & -> & _). lia.
Qed.

Lemma read_station_Ok sid c st c' :
  read_station sid c = Ok (st, c') -> c' = c /\ stops c !! sid = Some st.
Proof.
  unfold read_station. intros H. M_inv H. by split.
Qed.

Lemma update_station_Ok sid f c c' :
  update_station sid f c = Ok (tt, c') ->
  exists st, stops c !! sid = Some st /\ c' = set_stops (<[sid := f st]> (stops c)) c.
Proof.
  unfold update_station. intros H. M_inv H. apply read_station_Ok in Hm as [-> Hs].
  apply modifyM_Ok in H. eauto.
Qed.

(** Updating the station with a function that does not move its date
    back is a [date_le] step; the other stations are untouched. *)
Lemma update_station_date_le sid f c c' :
  (forall st, (last_date st <= last_date (f st))%Z) ->
  update_station sid f c = Ok (tt, c') -> date_le sid c c'.
Proof.
  intros Hf H. apply update_station_Ok in H as (st & Hs & ->). split; [done|].
  intros st0 Hst0. rewrite Hs in Hst0. injection Hst0 as <-. exists (f st).
  simpl. rewrite lookup_insert_eq. split; [done|apply Hf].
Qed.

Lemma raise_check_h_date_le sid v c c' u : raise_check_h sid v c = Ok (u, c') -> date_le sid c c'.
Proof.
  unfold raise_check_h. intros H. M_inv H. destruct u. apply read_station_Ok in Hm as [-> _].
  destruct (py2_gt _ _); [|apply retM_Ok in H as [_ ->]; reflexivity].
  eapply update_station_date_le; [|exact H]. intros st; simpl; lia.
Qed.

Lemma raise_check_m_date_le sid v c c' u : raise_check_m sid v c = Ok (u, c') -> date_le sid c c'.
Proof.
  unfold raise_check_m. intros H. M_inv H. destruct u. apply read_station_Ok in Hm as [-> _].
  destruct (py2_gt _ _); [|apply retM_Ok in H as [_ ->]; reflexivity].
  eapply update_station_date_le; [|exact H]. intros st; simpl; lia.
Qed.

Lemma raise_last_date_date_le sid d c c' u : raise_last_date sid d c = Ok (u, c') -> date_le sid c c'.
Proof.
  unfold raise_last_date. intros H. M_inv H. destruct u. apply read_station_Ok in Hm as [-> Hs].
  destruct (Z.gtb_spec d (last_date a)) as [Hgt|Hle]; [|apply retM_Ok in H as [_ ->]; reflexivity].
  apply update_station_Ok in H as (st & Hst & ->). split; [done|].
  intros st0 Hst0. rewrite Hst in Hst0, Hs. simplify_eq.
  eexists. simpl. rewrite lookup_insert_eq. split; [reflexivity|simpl; lia].
Qed.

Section WithEnv.
Context (env : Env).

Lemma update_cursor_date_le sid dep c c' u :
  update_cursor env sid dep c = Ok (u, c') -> date_le sid c c'.
Proof.
  unfold update_cursor. intros H. M_inv H.
  etrans; [eapply raise_check_h_date_le; exact Hm|].
  etrans; [eapply raise_check_m_date_le; exact Hm0|].
  eapply raise_last_date_date_le; exact H.
Qed.

Lemma process_departure_date_le sid dep c c' u :
  process_departure env sid dep c = Ok (u, c') -> date_le sid c c'.
Proof.
  unfold process_departure. intros H. M_inv H.
  etrans; [eapply update_cursor_date_le; exact Hm|]. apply read_station_Ok in Hm0 as [-> _].
  destruct (Z.eqb _ _); [|apply retM_Ok in H as [_ ->]; reflexivity].
  M_inv H. destruct (dep_processed _ _); [apply retM_Ok in H as [_ ->]; reflexivity|].
  M_inv H. apply modifyM_Ok in H as ->. destruct a2.
  destruct (process_trip_le env _ _ _ Hm0) as (Hle & _ & He & _).
  apply date_le_stops_le; [exact He|exact Hle].
Qed.

(** One query of the departure board moves the station's cursor date at
    least one day forward, whatever the board lists. *)
Lemma query_once_progress sid c c' u st :
  query_once env sid c = Ok (u, c') -> stops c !! sid = Some st ->
  end_date c' = end_date c /\
  exists st', stops c' !! sid = Some st' /\ (last_date st + 1 <= last_date st')%Z.
Proof.
  unfold query_once. intros H Hs. M_inv H. apply read_station_Ok in Hm as [-> _]. destruct a1, u.
  apply update_station_Ok in Hm0 as (st0 & Hst0 & ->). rewrite Hs in Hst0. injection Hst0 as <-.
  pose proof (forM_rel (date_le sid) _ _ _ _ (fun x s1 s2 u => process_departure_date_le sid x s1 s2 u) H)
    as [He Hle].
  split; [done|]. destruct (Hle (set_last_date (last_date st + 1) st)) as (st' & Hst' & Hd).
  - simpl. by rewrite lookup_insert_eq.
  - exists st'. split; [done|]. simpl in Hd. lia.
Qed.

Lemma read_station_found sid c st : stops c !! sid = Some st -> read_station sid c = Ok (st, c).
Proof. intros Hs. unfold read_station. py_simp. by rewrite Hs. Qed.

Lemma crawl_loop_step f sid c st :
  stops c !! sid = Some st ->
  crawl_loop env (S f) sid c =
    if Z.ltb (last_date st) (end_date c)
    then bindF (liftF (query_once env sid)) (fun _ => crawl_loop env f sid) c
    else Some (Ok (tt, c)).
Proof.
  intros Hs. simpl. unfold bindF, liftF. rewrite (read_station_found _ _ _ Hs). simpl.
  by destruct (Z.ltb _ _).
Qed.

Lemma crawl_loop_some fuel sid c st :
  stops c !! sid = Some st -> (Z.to_nat (end_date c - last_date st) < fuel)%nat ->
  is_Some (crawl_loop env fuel sid c).
Proof.
  revert c st. induction fuel as [|f IH]; intros c st Hs Hf; [lia|].
  simpl. unfold bindF, liftF. rewrite (read_station_found _ _ _ Hs). simpl.
  destruct (Z.ltb_spec (last_date st) (end_date c)) as [Hlt|Hge]; [|by eexists].
  destruct (query_once env sid c) as [[u c']|e] eqn:Eq; [|by eexists].
  destruct (query_once_progress _ _ _ u st Eq Hs) as (He & st' & Hs' & Hd).
  apply (IH c' st' Hs'). rewrite He. lia.
Qed.
End WithEnv.

(** The cursor field after [if v > cur: cur = v]. *)
Definition py2_raise (cur : pyval) (v : string) : pyval :=
  if py2_gt (PStr v) cur then PStr v else cur.

Lemma raise_check_h_spec sid v c c' u st :
  raise_check_h sid v c = Ok (u, c') -> stops c !! sid = Some st ->
  c' = set_stops (<[sid := set_check_h (py2_raise (last_check_h st) v) st]> (stops c)) c.
Proof.
  unfold raise_check_h, py2_raise. intros H Hs. destruct u. M_inv H. apply read_station_Ok in Hm as [-> Hs'].
  rewrite Hs in Hs'. injection Hs' as <-. destruct (py2_gt _ _).
  - apply update_station_Ok in H as (st0 & Hst0 & ->). rewrite Hs in Hst0. by injection Hst0 as <-.
  - apply retM_Ok in H as [_ ->]. replace (set_check_h (last_check_h st) st) with st by (by destruct st).
    rewrite insert_id by done. by destruct c.
Qed.

Lemma raise_check_m_spec sid v c c' u st :
  raise_check_m sid v c = Ok (u, c') -> stops c !! sid = Some st ->
  c' = set_stops (<[sid := set_check_m (py2_raise (last_check_m st) v) st]> (stops c)) c.
Proof.
  unfold raise_check_m, py2_raise. intros H Hs. destruct u. M_inv H. apply read_station_Ok in Hm as [-> Hs'].
  rewrite Hs in Hs'. injection Hs' as <-. destruct (py2_gt _ _).
  - apply update_station_Ok in H as (st0 & Hst0 & ->). rewrite Hs in Hst0. by injection Hst0 as <-.
  - apply retM_Ok in H as [_ ->]. replace (set_check_m (last_check_m st) st) with st by (by destruct st).
    rewrite insert_id by done. by destruct c.
Qed.

Lemma raise_last_date_keeps_check sid d c c' u st :
  raise_last_date sid d c = Ok (u, c') -> stops c !! sid = Some st ->
  exists st', stops c' !! sid = Some st' /\ last_check_h st' = last_check_h st /\
              last_check_m st' = last_check_m st.
Proof.
  unfold raise_last_date. intros H Hs. destruct u. M_inv H. apply read_station_Ok in Hm as [-> Hs'].
  rewrite Hs in Hs'. injection Hs' as <-. destruct (Z.gtb _ _).
  - apply update_station_Ok in H as (st0 & Hst0 & ->). rewrite Hs in Hst0. injection Hst0 as <-.
    eexists. simpl. rewrite lookup_insert_eq. by split.
  - apply retM_Ok in H as [_ ->]. by exists st.
Qed.

Section WithEnv2.
Context (env : Env).

(** The cursor's hour and minute after one departure: each is raised to
    the departure's field on its own, by Python 2 comparison. *)
Lemma update_cursor_check sid dep c c' u st h m :
  update_cursor env sid dep c = Ok (u, c') -> stops c !! sid = Some st ->
  time_field dep 0 = Ok h -> time_field dep 1 = Ok m ->
  exists st', stops c' !! sid = Some st' /\
    last_check_h st' = py2_raise (last_check_h st) h /\ last_check_m st' = py2_raise (last_check_m st) m.
Proof.
  unfold update_cursor. intros H Hs Hh Hm'. M_inv H. rewrite Hh in H0. injection H0 as <-.
  rewrite Hm' in H1. injection H1 as <-.
  apply (raise_check_h_spec _ _ _ _ _ st) in Hm as ->; [|done].
  apply (raise_check_m_spec _ _ _ _ _ (set_check_h (py2_raise (last_check_h st) h) st)) in Hm0 as ->;
    [|simpl; by rewrite lookup_insert_eq].
  eapply raise_last_date_keeps_check in H as (st' & Hst' & Hh' & Hm''); [|simpl; by rewrite lookup_insert_eq].
  exists st'. by rewrite Hst', Hh', Hm''.
Qed.

Lemma update_station_frame sid f c c' u : update_station sid f c = Ok (u, c') -> c' = set_stops (stops c') c.
Proof. destruct u. intros (st & _ & ->)%update_station_Ok. by destruct c. Qed.

Lemma set_stops_twice m m' c : set_stops m (set_stops m' c) = set_stops m c.
Proof. by destruct c. Qed.

Lemma set_stops_frame_trans c1 c2 c3 :
  c2 = set_stops (stops c2) c1 -> c3 = set_stops (stops c3) c2 -> c3 = set_stops (stops c3) c1.
Proof. intros H12 H23. rewrite H23 at 1. rewrite H12 at 1. apply set_stops_twice. Qed.

Lemma read_then_frame {A} sid (k : Station -> M Converter A) c c' a :
  (forall st c1 c2 b, k st c1 = Ok (b, c2) -> c2 = set_stops (stops c2) c1) ->
  bindM (read_station sid) k c = Ok (a, c') -> c' = set_stops (stops c') c.
Proof.
  intros Hk H. apply bindM_inv in H as (st & c1 & H1 & H2). apply read_station_Ok in H1 as [-> _].
  by apply Hk in H2.
Qed.

Lemma retM_frame (c c' : Converter) u : retM tt c = Ok (u, c') -> c' = set_stops (stops c') c.
Proof. intros H. apply retM_Ok in H as [_ ->]. by destruct c. Qed.

Lemma update_cursor_frame sid dep c c' u :
  update_cursor env sid dep c = Ok (u, c') -> c' = set_stops (stops c') c.
Proof.
  unfold update_cursor. intros H. M_inv H.
  assert (Hr : forall (op : Z -> string -> M Converter unit) v c1 c2 u',
             (op = raise_check_h \/ op = raise_check_m) -> op sid v c1 = Ok (u', c2) ->
             c2 = set_stops (stops c2) c1).
  { intros op v c1 c2 u' [-> | ->]; apply read_then_frame; intros st c3 c4 b;
      (destruct (py2_gt _ _); [apply update_station_frame|apply retM_frame]). }
  eapply set_stops_frame_trans; [eapply (Hr raise_check_h); [by left|exact Hm]|].
  eapply set_stops_frame_trans; [eapply (Hr raise_check_m); [by right|exact Hm0]|].
  revert H. apply read_then_frame. intros st c3 c4 b.
  destruct (Z.gtb _ _); [apply update_station_frame|apply retM_frame].
Qed.

(** A departure already recorded (same date, direction and name) is not
    processed again: no trip, route or record is added. *)
Lemma process_departure_processed sid dep c c' u :
  dep_processed (processed c) dep = true -> process_departure env sid dep c = Ok (u, c') ->
  trips c' = trips c /\ routes c' = routes c /\ processed c' = processed c.
Proof.
  intros Hp H. unfold process_departure in H. M_inv H. apply update_cursor_frame in Hm as Hc.
  apply read_station_Ok in Hm0 as [-> _].
  assert (Hs : trips s = trips c /\ routes s = routes c /\ processed s = processed c)
    by (rewrite Hc; done).
  destruct (Z.eqb _ _); [|apply retM_Ok in H as [_ ->]; done].
  M_inv H. destruct Hs as (Ht & Hr & Hpr). rewrite Hpr, Hp in H. by apply retM_Ok in H as [_ ->].
Qed.
End WithEnv2.
End CrawlProps.

Module CrawlInv.
Import Stations StationsProps Routes Trips TripBuilder TripBuilderProps Crawl CrawlProps.

(** ** The invariant of the crawl

    The converter's tables are well formed ([converter_wf]) and no trip
    has a service id yet and the calendar is empty (both are filled by
    [generate_calendar_dates] after the crawl). *)
Definition crawl_inv (c : Converter) : Prop :=
  converter_wf c /\ Forall (fun t => service_id t = None) (trips c) /\ calendar_dates c = [].

Lemma served_insert_same m sid st st' sts :
  m !! sid = Some st -> has_trip st' = has_trip st -> served m sts -> served (<[sid := st']> m) sts.
Proof.
  intros Hs Hh Hsv. eapply Forall_impl; [exact Hsv|]. intros x (s & Hx & Ht).
  destruct (decide (st_stop_id x = sid)) as [Heq|Hne].
  - rewrite Heq in Hx |- *. rewrite lookup_insert_eq. exists st'. split; [done|]. rewrite Hh. congruence.
  - rewrite lookup_insert_ne by congruence. eauto.
Qed.

(** A change of a station that keeps its id and its [has_trip] flag (the
    cursor, [trips_fetched]) keeps the invariant. *)
Definition keeps_station (f : Station -> Station) : Prop :=
  forall st, stop_id (f st) = stop_id st /\ has_trip (f st) = has_trip st.

Lemma crawl_inv_station_update c sid st f :
  stops c !! sid = Some st -> keeps_station f ->
  crawl_inv c -> crawl_inv (set_stops (<[sid := f st]> (stops c)) c).
Proof.
  intros Hs Hf ((Hr & Hw & Hnd & Hok) & Hun & Hcal). destruct (Hf st) as [Hid Hh].
  split; [split_and!|split; [exact Hun|exact Hcal]].
  - exact Hr.
  - apply map_Forall_insert_2; [|done]. rewrite Hid. exact (Hw _ _ Hs).
  - exact Hnd.
  - simpl. eapply Forall_impl; [exact Hok|]. intros t (Hl & Hsv & Hrt).
    split_and!; [done| |done]. by eapply served_insert_same.
Qed.

Lemma update_station_inv sid f : keeps_station f -> preserves crawl_inv (update_station sid f).
Proof.
  intros Hf c u c' H. destruct u. apply update_station_Ok in H as (st & Hs & ->).
  by apply crawl_inv_station_update.
Qed.

Lemma keeps_set_check_h v : keeps_station (set_check_h v).
Proof. by intros st. Qed.
Lemma keeps_set_check_m v : keeps_station (set_check_m v).
Proof. by intros st. Qed.
Lemma keeps_set_last_date d : keeps_station (set_last_date d).
Proof. by intros st. Qed.
Lemma keeps_set_fetched : keeps_station set_fetched.
Proof. by intros st. Qed.
Lemma keeps_next_day : keeps_station (fun st => set_last_date (last_date st + 1) st).
Proof. by intros st. Qed.

Lemma read_station_inv sid : preserves crawl_inv (read_station sid).
Proof. unfold read_station. preserves_tac. Qed.

#[local] Hint Resolve update_station_inv read_station_inv keeps_set_check_h keeps_set_check_m
  keeps_set_last_date keeps_set_fetched keeps_next_day : py.

Lemma update_cursor_inv env sid dep : preserves crawl_inv (update_cursor env sid dep).
Proof. unfold update_cursor, raise_check_h, raise_check_m, raise_last_date. preserves_tac. Qed.
Lemma crawl_inv_set_processed l c : crawl_inv c -> crawl_inv (set_processed l c).
Proof. done. Qed.

Lemma crawl_inv_stops_le c m :
  stations_wf m -> stops_le (stops c) m -> crawl_inv c -> crawl_inv (set_stops m c).
Proof.
  intros Hw Hle ((Hr & _ & Hnd & Hok) & Hun & Hcal).
  split; [split_and!|split; [exact Hun|exact Hcal]]; [exact Hr|exact Hw|exact Hnd|].
  eapply Forall_impl; [exact Hok|]. intros t. apply trip_ok_mono; [exact Hle|reflexivity].
Qed.

Lemma process_trip_unassigned env url c c' :
  process_trip env url c = Ok (tt, c') -> Forall (fun t => service_id t = None) (trips c) ->
  Forall (fun t => service_id t = None) (trips c').
Proof.
  intros H Hun. apply process_trip_inv in H as [[_ ->]|H]; [done|].
  destruct H as (jd & name & type & agency & jstops & sts & c1 & _ & _ & _ & _ & _ & Hps & Hrest).
  destruct (process_stops_le env _ _ _ _ _ Hps) as (_ & Hc1).
  set (trip := new_trip sts name type agency) in *.
  destruct (Routes.route_append_frame trip c1) as (_ & Htr2 & _ & _).
  assert (Hun2 : Forall (fun t => service_id t = None) (trips (route_append trip c1).2)).
  { rewrite Htr2, Hc1. exact Hun. }
  destruct Hrest as [(_ & ->)|(_ & packed & Hp & ->)]; [exact Hun2|].
  apply TripsLemmas.trip_append_Forall; [by intros d x|exact Hun2|].
  apply TimeNormProps.pack_trip_spec in Hp as (? & ? & ? & ? & _ & _ & _ & _ & _ & Ht).
  by rewrite Ht.
Qed.

Lemma process_trip_calendar env url c c' :
  process_trip env url c = Ok (tt, c') -> calendar_dates c' = calendar_dates c.
Proof.
  intros H. apply process_trip_inv in H as [[_ ->]|H]; [done|].
  destruct H as (jd & name & type & agency & jstops & sts & c1 & _ & _ & _ & _ & _ & Hps & Hrest).
  destruct (process_stops_le env _ _ _ _ _ Hps) as (_ & Hc1).
  destruct (Routes.route_append_frame (new_trip sts name type agency) c1) as (_ & _ & _ & Hcal2).
  destruct Hrest as [(_ & ->)|(_ & packed & _ & ->)];
    [|destruct (TripsProps.trip_append_frame packed (route_append (new_trip sts name type agency) c1).2)
        as (_ & _ & _ & _ & ->)];
    rewrite Hcal2, Hc1; reflexivity.
Qed.

Lemma process_trip_crawl_inv env url : preserves crawl_inv (process_trip env url).
Proof.
  intros c u c' H (Hwf & Hun & Hcal). destruct u. split_and!.
  - by eapply process_trip_preserves_wf.
  - by eapply process_trip_unassigned.
  - by rewrite (process_trip_calendar env url c c' H).
Qed.

Lemma process_station_by_ob_crawl_inv env det : preserves crawl_inv (process_station_by_ob env det).
Proof.
  intros c u c' H Hi. destruct u. destruct det as [[so|l]|]; unfold process_station_by_ob in H.
  - fold (process_station_by_ob env (Some (JOne so))) in H.
    destruct (process_station_by_ob_le env so c c' H) as (Hc & Hle & _).
    destruct (process_station_by_ob_inv env so c c' (proj1 (proj2 (proj1 Hi))) H) as (Hw & _).
    rewrite Hc. by apply crawl_inv_stops_le.
  - discriminate.
  - by apply retM_Ok in H as [_ ->].
Qed.

#[local] Hint Resolve update_cursor_inv process_trip_crawl_inv process_station_by_ob_crawl_inv : py.
#[local] Hint Extern 1 (preserves _ (modifyM (fun c => set_processed _ c))) =>
  apply preserves_modifyM; intros ?; apply crawl_inv_set_processed : py.

Lemma process_departure_inv env sid dep : preserves crawl_inv (process_departure env sid dep).
Proof. unfold process_departure. preserves_tac. Qed.

#[local] Hint Resolve process_departure_inv : py.

Lemma query_once_inv env sid : preserves crawl_inv (query_once env sid).
Proof. unfold query_once. preserves_tac. Qed.

#[local] Hint Resolve query_once_inv : py.

Lemma crawl_loop_inv env fuel sid : preservesF crawl_inv (crawl_loop env fuel sid).
Proof. induction fuel as [|fuel IH]; simpl; preserves_tac. Qed.

#[local] Hint Resolve crawl_loop_inv : py.

Lemma get_all_trips_for_stop_inv env fuel sid : preservesF crawl_inv (get_all_trips_for_stop env fuel sid).
Proof. unfold get_all_trips_for_stop. preserves_tac. Qed.

#[local] Hint Resolve get_all_trips_for_stop_inv : py.

Lemma main_loop_inv env fuel inner : preservesF crawl_inv (main_loop env fuel inner).
Proof. induction fuel as [|fuel IH]; simpl; preserves_tac. Qed.

Lemma process_station_by_id_inv env sid : preserves crawl_inv (process_station_by_id env sid).
Proof. unfold process_station_by_id. preserves_tac. Qed.

#[local] Hint Resolve process_station_by_id_inv : py.

Lemma seed_stations_inv env seeds : preserves crawl_inv (seed_stations env seeds).
Proof. unfold seed_stations. preserves_tac. Qed.
End CrawlInv.

Module CrawlClaims.
Import Stations StationsProps TripBuilder TripBuilderProps Crawl CrawlProps CrawlInv.

Section WithEnv.
Context (env : Env).

Lemma get_all_trips_for_stop_some fuel sid c st :
  stops c !! sid = Some st -> (Z.to_nat (end_date c - last_date st) < fuel)%nat ->
  is_Some (get_all_trips_for_stop env fuel sid c).
Proof.
  intros Hs Hf. unfold get_all_trips_for_stop, bindF, liftF.
  rewrite (read_station_found _ _ _ Hs). simpl. destruct (trips_fetched st); [by eexists|].
  unfold update_station, bindM. rewrite (read_station_found _ _ _ Hs). simpl.
  apply (crawl_loop_some env fuel sid _ (set_fetched st)); simpl; [by rewrite lookup_insert_eq|done].
Qed.

(** C15: the crawl of one station terminates: with more fuel than the days
    between its cursor date and the feed's end date,
    [get_all_trips_for_stop] returns (a result or a Python exception),
    whatever the departure boards and journeys the API returns, because
    every query moves the cursor date at least one day forward. *)
Theorem get_all_trips_for_stop_terminates fuel sid c st :
  stops c !! sid = Some st -> (Z.to_nat (end_date c - last_date st) < fuel)%nat ->
  is_Some (get_all_trips_for_stop env fuel sid c).
Proof. apply get_all_trips_for_stop_some. Qed.

(** A station whose departure board is always empty. *)
Definition empty_board (sid : Z) : Prop :=
  forall date time, fetch_departures env (py_str sid) date time = inr None.

Lemma query_once_empty sid c st :
  empty_board sid -> stops c !! sid = Some st -> stop_id st = sid ->
  query_once env sid c = Ok (tt, set_stops (<[sid := set_last_date (last_date st + 1) st]> (stops c)) c).
Proof.
  intros He Hs Hid. unfold query_once, update_station, bindM, modifyM.
  rewrite (read_station_found _ _ _ Hs). simpl. rewrite Hid, He. simpl.
  rewrite (read_station_found _ _ _ Hs). reflexivity.
Qed.

Lemma crawl_loop_empty_board n sid c st :
  empty_board sid -> stops c !! sid = Some st -> stop_id st = sid ->
  Z.to_nat (end_date c - last_date st) = n ->
  crawl_loop env (S n) sid c =
    Some (Ok (tt, set_stops (<[sid := set_last_date (Z.max (last_date st) (end_date c)) st]> (stops c)) c)).
Proof.
  intros He. revert c st. induction n as [|n IH]; intros c st Hs Hid Hn.
  - rewrite (crawl_loop_step env _ _ _ _ Hs).
    destruct (Z.ltb_spec (last_date st) (end_date c)) as [Hlt|Hge]; [lia|].
    rewrite Z.max_l by lia. replace (set_last_date (last_date st) st) with st by (by destruct st).
    rewrite insert_id by done. by destruct c.
  - rewrite (crawl_loop_step env _ _ _ _ Hs).
    destruct (Z.ltb_spec (last_date st) (end_date c)) as [Hlt|Hge]; [|lia].
    unfold bindF, liftF. rewrite (query_once_empty _ _ _ He Hs Hid). cbv beta iota.
    rewrite (IH _ (set_last_date (last_date st + 1) st)); simpl; [|by rewrite lookup_insert_eq|done|lia].
    rewrite insert_insert_eq. do 3 f_equal. rewrite Z.max_r, Z.max_r by lia. done.
Qed.

(** C17: a station whose departure board is always empty is exhausted after
    exactly [end_date - last_date] queries: each one moves its cursor date
    one day forward, and the loop ends with the cursor date at the feed's
    end date (or where it was, if already past it); nothing else changes. *)
Theorem crawl_empty_board_exhausts sid c st :
  empty_board sid -> stops c !! sid = Some st -> stop_id st = sid ->
  crawl_loop env (S (Z.to_nat (end_date c - last_date st))) sid c =
    Some (Ok (tt, set_stops (<[sid := set_last_date (Z.max (last_date st) (end_date c)) st]> (stops c)) c)).
Proof. intros He Hs Hid. by apply crawl_loop_empty_board. Qed.

(** The cursor's hour and minute are raised independently: after a
    departure "h:m" the hour is the larger (by Python 2 comparison) of the
    old hour and h, and the minute the larger of the old minute and m, so
    the cursor can name a time no departure had. *)
Theorem update_cursor_fields sid dep c c' u st h m :
  update_cursor env sid dep c = Ok (u, c') -> stops c !! sid = Some st ->
  time_field dep 0 = Ok h -> time_field dep 1 = Ok m ->
  exists st', stops c' !! sid = Some st' /\
    last_check_h st' = py2_raise (last_check_h st) h /\ last_check_m st' = py2_raise (last_check_m st) m.
Proof. apply update_cursor_check. Qed.

(** Python 2 string comparison is asymmetric. *)
Lemma string_ltb_asym a b : String.ltb a b = true -> String.ltb b a = false.
Proof.
  unfold String.ltb. rewrite (String.compare_antisym b a).
  destruct (String.compare a b); simpl; congruence.
Qed.

(** C25: the cursor of a station mixes two departures of its board: when a
    station with a fresh cursor ([last_check_h] and [last_check_m] the
    integer 0) is given a departure at [h1:m1] and then one at [h2:m2]
    with [h1 < h2] and [m2 < m1] (Python 2 string order), its cursor
    becomes [h2:m1], the hour of the second and the minute of the first:
    the next request of the station asks for [h2:m1], a time later than
    both departures, so departures between [h2:m2] and [h2:m1] on the
    next queried day are never asked for. *)
Theorem update_cursor_mixes_departures sid d1 d2 c c1 c2 st h1 m1 h2 m2 :
  stops c !! sid = Some st -> last_check_h st = PInt 0 -> last_check_m st = PInt 0 ->
  time_field d1 0 = Ok h1 -> time_field d1 1 = Ok m1 ->
  time_field d2 0 = Ok h2 -> time_field d2 1 = Ok m2 ->
  String.ltb h1 h2 = true -> String.ltb m2 m1 = true ->
  update_cursor env sid d1 c = Ok (tt, c1) -> update_cursor env sid d2 c1 = Ok (tt, c2) ->
  exists st2, stops c2 !! sid = Some st2 /\ last_check_h st2 = PStr h2 /\ last_check_m st2 = PStr m1 /\
              board_time st2 = h2 +:+ ":" +:+ m1.
Proof.
  intros Hs Hh0 Hm0 Hh1 Hm1 Hh2 Hm2 Hlth Hltm H1 H2.
  destruct (update_cursor_check env sid d1 c c1 tt st h1 m1 H1 Hs Hh1 Hm1) as (st1 & Hs1 & Hh1' & Hm1').
  destruct (update_cursor_check env sid d2 c1 c2 tt st1 h2 m2 H2 Hs1 Hh2 Hm2) as (st2 & Hs2 & Hh2' & Hm2').
  rewrite Hh0 in Hh1'. rewrite Hm0 in Hm1'. rewrite Hh1' in Hh2'. rewrite Hm1' in Hm2'.
  unfold py2_raise in Hh2', Hm2'. cbn [py2_gt] in Hh2', Hm2'.
  change (py2_gt (PStr h2) (PStr h1)) with (String.ltb h1 h2) in Hh2'.
  change (py2_gt (PStr m2) (PStr m1)) with (String.ltb m1 m2) in Hm2'.
  rewrite Hlth in Hh2'. rewrite (string_ltb_asym _ _ Hltm) in Hm2'.
  exists st2. unfold board_time. rewrite Hh2', Hm2'. split_and!; done.
Qed.

(** A departure already recorded with the same date, direction and
    name is not processed again: the trips, routes and processed records
    are unchanged (only the cursor moves). *)
Theorem process_departure_skips_processed sid dep c c' u :
  dep_processed (processed c) dep = true -> process_departure env sid dep c = Ok (u, c') ->
  trips c' = trips c /\ routes c' = routes c /\ processed c' = processed c.
Proof. apply process_departure_processed. Qed.

(** C16: every query strictly advances the queried station's cursor date
    (by one day at least, even when the board lists no departure) and
    keeps the feed's end date. *)
Theorem query_once_advances_cursor sid c c' u st :
  query_once env sid c = Ok (u, c') -> stops c !! sid = Some st ->
  end_date c' = end_date c /\
  exists st', stops c' !! sid = Some st' /\ (last_date st + 1 <= last_date st')%Z.
Proof. apply query_once_progress. Qed.

(** a departure of another station only moves the cursor: the trip
    is not fetched and the trips, routes and processed departures are
    unchanged. *)
Theorem process_departure_other_station sid dep c c' u k :
  crawl_inv c -> py_int (dep_stopid dep) = Ok k -> k <> sid ->
  process_departure env sid dep c = Ok (u, c') ->
  trips c' = trips c /\ routes c' = routes c /\ processed c' = processed c.
Proof.
  intros Hi Hk Hne H. unfold process_departure in H. apply bindM_inv in H as (u1 & c1 & H1 & H).
  pose proof (update_cursor_inv env sid dep c u1 c1 H1 Hi) as Hi1.
  apply update_cursor_frame in H1 as Hc1.
  apply bindM_inv in H as (k' & c2 & H2 & H). apply liftR_Ok in H2 as [Hk' ->].
  rewrite Hk in Hk'. injection Hk' as <-.
  apply bindM_inv in H as (st & c3 & H3 & H). apply read_station_Ok in H3 as [-> Hs].
  destruct Hi1 as ((_ & Hw & _) & _). rewrite (Hw sid st Hs), (proj2 (Z.eqb_neq k sid) Hne) in H.
  apply retM_Ok in H as [_ ->]. by rewrite Hc1.
Qed.

(** C9: the crawl loop of [main] preserves the invariant of the
    converter's tables whatever the API answers: every kept trip has two
    stop times or more at registered stations marked as served and a
    route with its identity, no route, agency or trip key is listed
    twice, stations are stored under their ids, no trip has a service id
    yet and the calendar is empty. *)
Theorem main_loop_preserves_inv fuel inner c c' :
  crawl_inv c -> main_loop env fuel inner c = Some (Ok (tt, c')) -> crawl_inv c'.
Proof. intros Hi H. exact (main_loop_inv env fuel inner c tt c' H Hi). Qed.
End WithEnv.

Module CrawlWitnesses.
Import Samples.
Local Open Scope Z_scope.

(** The board of the finding: trains at 09:55 and then 10:05. *)
Definition cursor_after_0955 : Converter :=
  match update_cursor board_env 8011160 dep_0955 converter_A with Ok (_, c) => c | Exc _ => converter_A end.
Definition cursor_after_1005 : Converter :=
  match update_cursor board_env 8011160 dep_1005 cursor_after_0955 with
  | Ok (_, c) => c | Exc _ => converter_A end.

Lemma update_cursor_mixes_departures_witness :
  exists st2, stops cursor_after_1005 !! 8011160 = Some st2 /\ board_time st2 = "10:55"%string.
Proof.
  destruct (update_cursor_mixes_departures board_env 8011160 dep_0955 dep_1005 converter_A
              cursor_after_0955 cursor_after_1005 station_A_fresh "09" "55" "10" "05")
    as (st2 & Hs & _ & _ & Hb); try (vm_compute; reflexivity).
  exists st2. split; [exact Hs|exact Hb].
Defined.

Lemma get_all_trips_for_stop_terminates_witness :
  stops converter_A !! 8011160 = Some station_A_fresh /\
  (Z.to_nat (end_date converter_A - last_date station_A_fresh) < 4)%nat /\
  is_Some (get_all_trips_for_stop sample_env 4 8011160 converter_A).
Proof.
  assert (H1 : stops converter_A !! 8011160 = Some station_A_fresh) by reflexivity.
  assert (H2 : (Z.to_nat (end_date converter_A - last_date station_A_fresh) < 4)%nat)
    by (vm_compute; lia).
  split_and!; [exact H1|exact H2|]. exact (get_all_trips_for_stop_terminates sample_env 4 _ _ _ H1 H2).
Defined.

Definition station_B_fresh : Station :=
  mkStation 8000261 "M&#252;nchen Hbf" (so_lat station_B) (so_lon station_B) (PInt 0) (PInt 0)
            day_2016_01_01 false false.
Definition converter_B : Converter := set_stops {[ 8000261 := station_B_fresh ]} sample_converter.

Lemma crawl_empty_board_exhausts_witness :
  empty_board sample_env 8000261 /\ stops converter_B !! 8000261 = Some station_B_fresh /\
  stop_id station_B_fresh = 8000261 /\
  crawl_loop sample_env (S (Z.to_nat (end_date converter_B - last_date station_B_fresh))) 8000261 converter_B =
    Some (Ok (tt, set_stops (<[8000261 := set_last_date (Z.max (last_date station_B_fresh)
                                                               (end_date converter_B)) station_B_fresh]>
                               (stops converter_B)) converter_B)).
Proof.
  assert (H1 : empty_board sample_env 8000261) by (intros date time; reflexivity).
  assert (H2 : stops converter_B !! 8000261 = Some station_B_fresh) by reflexivity.
  assert (H3 : stop_id station_B_fresh = 8000261) by reflexivity.
  split_and!; [exact H1|exact H2|exact H3|]. exact (crawl_empty_board_exhausts sample_env _ _ _ H1 H2 H3).
Defined.

Lemma update_cursor_fields_witness :
  exists c', update_cursor sample_env 8011160 dep_0955 converter_A = Ok (tt, c') /\
  exists st', stops c' !! 8011160 = Some st' /\
    last_check_h st' = py2_raise (last_check_h station_A_fresh) "09" /\
    last_check_m st' = py2_raise (last_check_m station_A_fresh) "55".
Proof.
  eexists. split; [vm_compute; reflexivity|].
  apply (update_cursor_fields sample_env 8011160 dep_0955 converter_A _ tt); reflexivity.
Defined.

Definition converter_A_done : Converter := set_processed [dep_ICE100] converter_A.

Lemma process_departure_skips_processed_witness :
  dep_processed (processed converter_A_done) dep_ICE100 = true /\
  exists c', process_departure sample_env 8011160 dep_ICE100 converter_A_done = Ok (tt, c') /\
  trips c' = trips converter_A_done /\ routes c' = routes converter_A_done /\
  processed c' = processed converter_A_done.
Proof.
  split; [reflexivity|]. eexists. split; [vm_compute; reflexivity|].
  apply (process_departure_skips_processed sample_env 8011160 dep_ICE100 converter_A_done _ tt);
    [reflexivity|vm_compute; reflexivity].
Defined.

Lemma converter_A_inv : crawl_inv converter_A.
Proof.
  unfold crawl_inv, converter_wf, Routes.routes_wf. simpl.
  split_and!; try constructor. by apply map_Forall_singleton.
Qed.

Lemma main_loop_preserves_inv_witness :
  crawl_inv converter_A /\
  exists c', main_loop sample_env 3 5 converter_A = Some (Ok (tt, c')) /\ crawl_inv c'.
Proof.
  split; [exact converter_A_inv|]. eexists. split; [vm_compute; reflexivity|].
  apply (main_loop_preserves_inv sample_env 3 5 converter_A); [exact converter_A_inv|].
  vm_compute. reflexivity.
Defined.
Lemma query_once_advances_cursor_witness :
  exists c', query_once sample_env 8011160 converter_A = Ok (tt, c') /\
  stops converter_A !! 8011160 = Some station_A_fresh /\
  end_date c' = end_date converter_A /\
  exists st', stops c' !! 8011160 = Some st' /\ (last_date station_A_fresh + 1 <= last_date st')%Z.
Proof.
  eexists. split; [vm_compute; reflexivity|].
  assert (Hs : stops converter_A !! 8011160 = Some station_A_fresh) by reflexivity.
  split; [exact Hs|].
  eapply (query_once_advances_cursor sample_env 8011160 converter_A _ tt); [vm_compute; reflexivity|exact Hs].
Defined.

Lemma process_departure_other_station_witness :
  crawl_inv converter_A /\ py_int (dep_stopid dep_0955) = Ok 8000261 /\ 8000261 <> 8011160 /\
  exists c', process_departure board_env 8011160 dep_0955 converter_A = Ok (tt, c') /\
  trips c' = trips converter_A /\ routes c' = routes converter_A /\ processed c' = processed converter_A.
Proof.
  assert (Hk : py_int (dep_stopid dep_0955) = Ok 8000261) by reflexivity.
  assert (Hne : 8000261 <> 8011160) by lia.
  split_and!; [exact converter_A_inv|exact Hk|exact Hne|].
  eexists. split; [vm_compute; reflexivity|].
  eapply (process_departure_other_station board_env 8011160 dep_0955 converter_A _ tt 8000261
            converter_A_inv Hk Hne). vm_compute. reflexivity.
Defined.
End CrawlWitnesses.
End CrawlClaims.
