(* ===== verification/Http.v ===== *)
(** * The HTTP and JSON layer (db_to_gtfs.py:33-34, 78-95, 261-266)

    What the converter does between a request and the records it reads:
    it builds the request URL from a [string.Template] ([DEP_URL],
    [STATION_URL]), lets [urllib2.urlopen] and [json.load] turn the
    answer into a JSON value, and takes that value apart with Python's
    [in], [d[k]], [d.get(k, default)] and [type(x) is dict].  This file
    models the JSON values ([json]), those Python operations on them,
    [string.Template.substitute], the two URLs, the board handling of
    [get_all_trips_for_stop] (89-95) and [get_station_detail] (261-266),
    and proves that the board handling implements the board capability
    of [Env] the crawl is modelled with.  [urlopen] followed by
    [json.load] ([fetch_json], 126-133) is network I/O and is not
    modelled: the crawl reads its answers through [Env]. *)

From stdpp Require Import base list strings.
From Stdlib Require Import ZArith Ascii Lia.
From S2P Require Import Prelude Python Api Converter Samples Crawl.

Local Open Scope py_scope.
Local Open Scope string_scope.

Module Http.
Local Set Warnings "-register-all".

(** ** JSON values as [json.load] returns them

    Objects keep their members in the order of the text; numbers are
    integers (the API sends every field the converter reads as a
    string). *)
Inductive json :=
  | JNull
  | JBool (b : bool)
  | JNum (z : Z)
  | JStr (s : string)
  | JArr (l : list json)
  | JObj (kvs : list (string * json)).

(** [dict(pairs)]: a key given twice keeps its last value, as
    [json.load] builds its dictionaries. *)
Fixpoint obj_lookup (k : string) (kvs : list (string * json)) : option json :=
  match kvs with
  | [] => None
  | (k', v) :: kvs' =>
      match obj_lookup k kvs' with
      | Some w => Some w
      | None => if String.eqb k k' then Some v else None
      end
  end.

(** [type(x) is dict] *)
Definition is_dict (j : json) : bool := match j with JObj _ => true | _ => false end.

(** [sub in s] for strings: [sub] occurs in [s]. *)
Definition str_contains (sub s : string) : bool := bool_decide (is_Some (String.index 0 sub s)).

(** [key in x] for a string [key]: a key of a dict, an element of a list,
    a substring of a string; numbers, booleans and [None] are not
    iterable ([TypeError]). *)
Definition py_in (key : string) (x : json) : res bool :=
  match x with
  | JObj kvs => Ok (bool_decide (is_Some (obj_lookup key kvs)))
  | JArr l => Ok (existsb (fun y => match y with JStr s => String.eqb s key | _ => false end) l)
  | JStr s => Ok (str_contains key s)
  | _ => Exc TypeError
  end.

(** [x[key]] for a string [key]: [KeyError] for a missing key of a dict,
    [TypeError] for anything that is not a dict. *)
Definition py_getitem (x : json) (key : string) : res json :=
  match x with
  | JObj kvs => of_option KeyError (obj_lookup key kvs)
  | _ => Exc TypeError
  end.

(** [x.get(key, default)]: only dicts have [get] ([AttributeError]). *)
Definition py_get (x : json) (key : string) (dflt : json) : res json :=
  match x with
  | JObj kvs => Ok (default dflt (obj_lookup key kvs))
  | _ => Exc AttributeError
  end.

(** ** [string.Template(t).substitute(mapping)]

    Python 2's [Template] scans [t] left to right for [$$] (a literal
    [$]), [$name] (the longest identifier [[_a-z][_a-z0-9]*], letters of
    either case) and [${name}]; a placeholder is replaced by [str] of its
    value, [KeyError] when the mapping lacks it, and a [$] followed by
    anything else raises [ValueError].  Substituted values are not
    scanned again.  The scanner is a state machine over the characters
    of [t]. *)
Definition is_letter (c : ascii) : bool :=
  let n := nat_of_ascii c in ((65 <=? n) && (n <=? 90) || (97 <=? n) && (n <=? 122))%nat.
Definition is_digit (c : ascii) : bool :=
  let n := nat_of_ascii c in ((48 <=? n) && (n <=? 57))%nat.
Definition is_id_start (c : ascii) : bool := is_letter c || Ascii.eqb c "_".
Definition is_id_char (c : ascii) : bool := is_id_start c || is_digit c.

(** [[_a-z][_a-z0-9]*] *)
Definition is_identifier (s : string) : bool :=
  match s with
  | EmptyString => false
  | String c s' => is_id_start c && forallb is_id_char (String.list_ascii_of_string s')
  end.

(** The mapping: a dict literal with distinct string keys. *)
Definition mapping := list (string * string).

Fixpoint map_find (m : mapping) (k : string) : option string :=
  match m with
  | [] => None
  | (k', v) :: m' => if String.eqb k' k then Some v else map_find m' k
  end.

Definition map_lookup (m : mapping) (k : string) : res string := of_option KeyError (map_find m k).

Inductive tstate :=
  | TText               (* copying text *)
  | TDollar             (* just read [$] *)
  | TName (acc : string)  (* inside [$name] *)
  | TBrace (acc : string). (* inside [${name] *)

Fixpoint tsub (m : mapping) (st : tstate) (s : string) : res string :=
  match s, st with
  | EmptyString, TText => Ok ""
  | EmptyString, TName acc => map_lookup m acc
  | EmptyString, _ => Exc ValueError
  | String c s', TText =>
      if Ascii.eqb c "$" then tsub m TDollar s'
      else let? r := tsub m TText s' in Ok (String c r)
  | String c s', TDollar =>
      if Ascii.eqb c "$" then let? r := tsub m TText s' in Ok (String "$" r)
      else if Ascii.eqb c "{" then tsub m (TBrace "") s'
      else if is_id_start c then tsub m (TName (String c "")) s'
      else Exc ValueError
  | String c s', TName acc =>
      if is_id_char c then tsub m (TName (acc +:+ String c "")) s'
      else let? v := map_lookup m acc in
           if Ascii.eqb c "$" then let? r := tsub m TDollar s' in Ok (v +:+ r)
           else let? r := tsub m TText s' in Ok (v +:+ String c r)
  | String c s', TBrace acc =>
      if Ascii.eqb c "}" then
        if is_identifier acc then
          let? v := map_lookup m acc in let? r := tsub m TText s' in Ok (v +:+ r)
        else Exc ValueError
      else if is_id_char c then tsub m (TBrace (acc +:+ String c "")) s'
      else Exc ValueError
  end.

Definition template_substitute (t : string) (m : mapping) : res string := tsub m TText t.

(** ** The two request URLs (33-34, 78-82, 263) *)
Definition DEP_URL : string :=
  "http://open-api.bahn.de/bin/rest.exe/departureBoard?authKey=<insert api key here>&lang=de&id=00$id&date=$date&time=$time&format=json".
Definition STATION_URL : string :=
  "http://open-api.bahn.de/bin/rest.exe/location.name?authKey=<insert api key here>&lang=de&input=$search&format=json".

(** [string.Template(DEP_URL).substitute({'id': stop['stop_id'],
    'date': ..., 'time': ...})]: the values are passed as the [str] the
    template takes of them. *)
Definition dep_request_url (id date time : string) : res string :=
  template_substitute DEP_URL [("id", id); ("date", date); ("time", time)].

(** [string.Template(STATION_URL).substitute({'search': stat_id})] *)
Definition station_request_url (stat_id : string) : res string :=
  template_substitute STATION_URL [("search", stat_id)].

(** The request of one iteration of the crawl (78-82): the station's id,
    its cursor date as [strftime('%Y-%m-%d')] and its cursor time. *)
Definition crawl_request_url (strftime_dash : Z -> string) (st : Station) : res string :=
  dep_request_url (py_str (stop_id st)) (strftime_dash (last_date st)) (Crawl.board_time st).

(** ** The departures of a board (89-95)

    [if 'DepartureBoard' in data and 'Departure' in data['DepartureBoard']:]
    a dict is wrapped in a list (the converter's fix of the API's
    XML-to-JSON quirk), then [for dep in ...] iterates over it: the
    elements of a list, the characters of a string; a number, a boolean
    or [None] is not iterable. *)
Definition board_entries (data : json) : res (list json) :=
  let? has_board := py_in "DepartureBoard" data in
  if has_board then
    let? board := py_getitem data "DepartureBoard" in
    let? has_deps := py_in "Departure" board in
    if has_deps then
      let? deps := py_getitem board "Departure" in
      match deps with
      | JObj _ => Ok [deps]
      | JArr l => Ok l
      | JStr s => Ok (map (fun c => JStr (String c EmptyString)) (String.list_ascii_of_string s))
      | _ => Exc TypeError
      end
    else Ok []
  else Ok [].

(** What the board capability of [Env] promises for an answer: [None]
    without a [DepartureBoard] dict holding a [Departure] key, one object,
    or a list of objects. *)
Definition board_shape (data : json) : option (option (one_or_list json)) :=
  match data with
  | JObj kvs =>
      match obj_lookup "DepartureBoard" kvs with
      | None => Some None
      | Some (JObj b) =>
          match obj_lookup "Departure" b with
          | None => Some None
          | Some (JObj o) => Some (Some (JOne (JObj o)))
          | Some (JArr l) => Some (Some (JList l))
          | Some _ => None
          end
      | Some _ => None
      end
  | _ => None
  end.

(** ** [get_station_detail] (261-266)

    [data.get('LocationList', {}).get('StopLocation')]: [None] ([JNull])
    when a key is missing; [get] on anything but a dict raises
    [AttributeError]. *)
Definition get_station_detail (data : json) : res json :=
  let? loc := py_get data "LocationList" (JObj []) in
  py_get loc "StopLocation" JNull.

(** ** How the server reads a request URL

    The query is what follows the first [?]; it is split at every [&]
    into parameters [key=value], the key ending at the first [=]. *)
Fixpoint split_first (sep : ascii) (s : string) : option (string * string) :=
  match s with
  | EmptyString => None
  | String c s' =>
      if Ascii.eqb c sep then Some (EmptyString, s')
      else (fun '(a, b) => (String c a, b)) <$> split_first sep s'
  end.

Definition query_params (url : string) : list (string * string) :=
  match split_first "?" url with
  | None => []
  | Some (_, q) => map (fun p => default (p, EmptyString) (split_first "=" p)) (py_split "&" q)
  end.

(** [one_or_list] with its objects decoded. *)
Definition ool_map {A B} (f : A -> B) (o : one_or_list A) : one_or_list B :=
  match o with JOne a => JOne (f a) | JList l => JList (map f l) end.

Definition url_param (k : string) (url : string) : option string :=
  snd <$> List.find (fun kv => String.eqb kv.1 k) (query_params url).

End Http.

Module HttpProps.
Import Http.

(** ** The request URLs *)

(** The substitution never fails: [DEP_URL] with its three values in
    place. *)
Lemma dep_request_url_eq id date time :
  dep_request_url id date time =
    Ok ("http://open-api.bahn.de/bin/rest.exe/departureBoard" +:+ String "?"
        ("authKey=<insert api key here>" +:+ String "&" ("lang=de" +:+ String "&"
        (("id" +:+ String "=" ("00" +:+ id)) +:+ String "&" (("date" +:+ String "=" date) +:+ String "&"
        (("time" +:+ String "=" time) +:+ String "&" "format=json")))))).
Proof. reflexivity. Qed.

Lemma split_first_app sep a b :
  no_char sep a = true -> split_first sep (a +:+ String sep b) = Some (a, b).
Proof.
  induction a as [|c a IH]; simpl; intros H.
  - by rewrite Ascii.eqb_refl.
  - apply andb_true_iff in H as [Hc Ha]. apply negb_true_iff in Hc. rewrite Hc, IH by done.
    reflexivity.
Qed.

Lemma split_first_none sep a : no_char sep a = true -> split_first sep a = None.
Proof.
  induction a as [|c a IH]; simpl; intros H; [done|].
  apply andb_true_iff in H as [Hc Ha]. apply negb_true_iff in Hc. by rewrite Hc, IH.
Qed.

(** The parameter [key=value] of a key without [=]. *)
Lemma split_first_param k v :
  no_char "=" k = true -> split_first "=" (k +:+ String "=" v) = Some (k, v).
Proof. apply split_first_app. Qed.

Lemma dep_request_url_params id date time url :
  no_char "&" id = true -> no_char "&" date = true -> no_char "&" time = true ->
  dep_request_url id date time = Ok url ->
  query_params url =
    [("authKey", "<insert api key here>"); ("lang", "de"); ("id", "00" +:+ id);
     ("date", date); ("time", time); ("format", "json")].
Proof.
  intros Hi Hd Ht Hu. rewrite dep_request_url_eq in Hu. injection Hu as <-. unfold query_params.
  rewrite (split_first_app "?" "http://open-api.bahn.de/bin/rest.exe/departureBoard") by reflexivity.
  rewrite !py_split_cons, py_split_no_sep by
    (try reflexivity; rewrite ?no_char_app; simpl; rewrite ?no_char_app, ?Hi, ?Hd, ?Ht; reflexivity).
  cbn [map]. rewrite !split_first_param by reflexivity.
  reflexivity.
Qed.

Lemma crawl_request_url_eq strftime_dash st :
  crawl_request_url strftime_dash st =
    dep_request_url (py_str (stop_id st)) (strftime_dash (last_date st)) (Crawl.board_time st).
Proof. reflexivity. Qed.

Lemma url_param_dep id date time url :
  no_char "&" id = true -> no_char "&" date = true -> no_char "&" time = true ->
  dep_request_url id date time = Ok url ->
  url_param "id" url = Some ("00" +:+ id) /\ url_param "date" url = Some date /\
  url_param "time" url = Some time.
Proof.
  intros Hi Hd Ht Hu. unfold url_param. rewrite (dep_request_url_params id date time url Hi Hd Ht Hu).
  split_and!; reflexivity.
Qed.

(** ** The board *)

Lemma py_in_exc k x e : py_in k x = Exc e -> e = TypeError.
Proof. destruct x; simpl; congruence. Qed.

(** A subscript guarded by [k in x] raises at most [TypeError]. *)
Lemma py_getitem_guarded k x e : py_in k x = Ok true -> py_getitem x k = Exc e -> e = TypeError.
Proof.
  destruct x as [| | | | |kvs]; simpl; try congruence.
  intros Hin. injection Hin as Hin. apply bool_decide_eq_true in Hin as [v Hv].
  by rewrite Hv.
Qed.

Lemma board_entries_dict kvs board deps :
  obj_lookup "DepartureBoard" kvs = Some (JObj board) ->
  obj_lookup "Departure" board = Some deps ->
  board_entries (JObj kvs) =
    match deps with
    | JObj _ => Ok [deps]
    | JArr l => Ok l
    | JStr s => Ok (map (fun c => JStr (String c EmptyString)) (String.list_ascii_of_string s))
    | _ => Exc TypeError
    end.
Proof.
  intros Hb Hd. unfold board_entries. cbn [py_in py_getitem bindR]. rewrite Hb.
  rewrite bool_decide_eq_true_2 by eauto. cbn [py_in py_getitem bindR of_option]. rewrite Hd.
  rewrite bool_decide_eq_true_2 by eauto. reflexivity.
Qed.

Lemma board_entries_no_board kvs :
  obj_lookup "DepartureBoard" kvs = None -> board_entries (JObj kvs) = Ok [].
Proof.
  intros Hb. unfold board_entries. cbn [py_in bindR].
  rewrite bool_decide_eq_false_2; [reflexivity|]. rewrite Hb. by intros [].
Qed.

Lemma board_entries_no_departures kvs board :
  obj_lookup "DepartureBoard" kvs = Some (JObj board) -> obj_lookup "Departure" board = None ->
  board_entries (JObj kvs) = Ok [].
Proof.
  intros Hb Hd. unfold board_entries. cbn [py_in py_getitem bindR]. rewrite Hb.
  rewrite bool_decide_eq_true_2 by eauto. cbn [py_in py_getitem bindR of_option].
  rewrite bool_decide_eq_false_2; [reflexivity|]. rewrite Hd. by intros [].
Qed.

(** C18: the board handling of [get_all_trips_for_stop] (89-95) implements
    the board capability the crawl is modelled with: for an answer of the
    documented shape (no board or no departures, one departure object, or
    a list of them) the departures the [for] loop visits, decoded by any
    decoder, are exactly [Crawl.board_departures] of the decoded shape, in
    order; the one-object case is the in-place wrap of 91-93. *)
Theorem board_entries_refines (decode : json -> Departure) data shape :
  board_shape data = Some shape ->
  exists l, board_entries data = Ok l /\
            map decode l = Crawl.board_departures (ool_map decode <$> shape).
Proof.
  destruct data as [| | | | |kvs]; simpl; try discriminate.
  destruct (obj_lookup "DepartureBoard" kvs) as [[| | | | |board]|] eqn:Hb; try discriminate.
  - destruct (obj_lookup "Departure" board) as [[| | | |l|o]|] eqn:Hd; intros H; simplify_eq.
    + rewrite (board_entries_dict _ _ _ Hb Hd). by eexists.
    + rewrite (board_entries_dict _ _ _ Hb Hd). by eexists.
    + rewrite (board_entries_no_departures _ _ Hb Hd). by eexists.
  - intros H. simplify_eq. rewrite (board_entries_no_board _ Hb). by eexists.
Qed.

(** C20: the key tests guard the subscripts of the board handling (89-95):
    it never raises [KeyError]; the only exception it raises is
    [TypeError], for an answer whose board or departures are neither
    dicts, lists nor strings, or a string or list that merely contains
    the key. *)
Theorem board_entries_only_type_error data e : board_entries data = Exc e -> e = TypeError.
Proof.
  unfold board_entries.
  destruct (py_in "DepartureBoard" data) as [[]|e1] eqn:H1; simpl; [|congruence|].
  2: { intros [= <-]. exact (py_in_exc _ _ _ H1). }
  destruct (py_getitem data "DepartureBoard") as [board|e2] eqn:H2; simpl.
  2: { intros [= <-]. exact (py_getitem_guarded _ _ _ H1 H2). }
  destruct (py_in "Departure" board) as [[]|e3] eqn:H3; simpl; [|congruence|].
  2: { intros [= <-]. exact (py_in_exc _ _ _ H3). }
  destruct (py_getitem board "Departure") as [deps|e4] eqn:H4; simpl.
  - destruct deps; congruence.
  - intros [= <-]. exact (py_getitem_guarded _ _ _ H3 H4).
Qed.

(** C19: every request of the crawl names its station and cursor: the
    substitution into [DEP_URL] never fails, and for a station whose
    [stop_id] is not negative a server reading the query of the URL gets
    back [id] = '00' + str(stop_id), whose [int] is
    the station's id, the cursor date and the cursor time, as long as the
    date and time contain no '&'. *)
Theorem crawl_request_url_roundtrip strftime_dash st :
  (0 <= stop_id st)%Z -> no_char "&" (strftime_dash (last_date st)) = true ->
  no_char "&" (Crawl.board_time st) = true ->
  exists url, crawl_request_url strftime_dash st = Ok url /\
    (exists idp, url_param "id" url = Some idp /\ py_int idp = Ok (stop_id st)) /\
    url_param "date" url = Some (strftime_dash (last_date st)) /\
    url_param "time" url = Some (Crawl.board_time st).
Proof.
  intros Hz Hd Ht. rewrite crawl_request_url_eq.
  eexists. split; [apply dep_request_url_eq|].
  destruct (url_param_dep _ _ _ _ (py_str_no_amp (stop_id st)) Hd Ht (dep_request_url_eq _ _ _))
    as (Hi & -> & ->).
  split_and!; [|reflexivity..]. eexists. split; [exact Hi|]. by apply py_int_zero_padded.
Qed.
End HttpProps.

Module HttpWitnesses.
Import Http HttpProps Samples.

Lemma crawl_request_url_roundtrip_witness :
  exists url, crawl_request_url iso_strftime_dash station_A_fresh = Ok url /\
    (exists idp, url_param "id" url = Some idp /\ py_int idp = Ok 8011160%Z).
Proof.
  destruct (crawl_request_url_roundtrip iso_strftime_dash station_A_fresh)
    as (url & Hu & Hi & _); [vm_compute; congruence|reflexivity|reflexivity|].
  exists url. split; [exact Hu|exact Hi].
Defined.

(** A board whose single departure arrives as a bare object. *)
Definition dep_json : json :=
  JObj [("time", JStr "10:00"); ("date", JStr "2016-01-01"); ("stopid", JStr "008011160")].
Definition board_one : json :=
  JObj [("DepartureBoard", JObj [("Departure", dep_json)])].

Lemma board_entries_refines_witness :
  board_shape board_one = Some (Some (JOne dep_json)) /\
  exists l, board_entries board_one = Ok l /\
    map (fun _ => dep_ICE100) l = Crawl.board_departures (Some (JOne dep_ICE100)).
Proof.
  split; [reflexivity|].
  exact (board_entries_refines (fun _ => dep_ICE100) board_one _ eq_refl).
Defined.

(** An answer that is a string mentioning the key. *)
Lemma board_entries_only_type_error_witness :
  board_entries (JStr "no DepartureBoard today") = Exc TypeError /\ TypeError = TypeError.
Proof.
  split; [reflexivity|].
  exact (board_entries_only_type_error (JStr "no DepartureBoard today") TypeError eq_refl).
Defined.
End HttpWitnesses.
