(* ===== verification/CrawlTermination.v ===== *)
(** * Termination of the crawl loop of [main] (db_to_gtfs.py:443-446)

    [while sid: get_all_trips_for_stop(...); sid = get_unfetched_station_id()]
    ends although every crawled journey may register new stations: a
    crawl marks its station fetched and nothing marks a station unfetched
    again, so if every station id the API can mention lies in a finite
    set [U], the number of fetched ids of [U] grows at every iteration.
    An unfetched station was never queried, so its cursor date is still
    the feed's start date and its own crawl needs at most
    [end_date - start_date] queries.  The file proves these invariants
    ([term_inv]) for every step of the crawl and derives that [main_loop]
    returns with fuel above [size U]. *)

From stdpp Require Import base list strings gmap.
From Stdlib Require Import ZArith Lia.
From S2P Require Import Prelude Python Api Converter Samples TimeNorm Stations Routes Trips TripBuilder Crawl.

Local Open Scope py_scope.

Module CrawlTermination.
Import Stations StationsProps Routes Trips TripBuilder TripBuilderProps Crawl CrawlProps CrawlInv.

(** [self.stops[k]['trips_fetched']], [False] for an unknown id. *)
Definition fetched (c : Converter) (k : Z) : bool :=
  match stops c !! k with Some st => trips_fetched st | None => false end.

Definition fetched_in (U : gset Z) (c : Converter) : gset Z := filter (fun k => fetched c k = true) U.

(** A station not fetched yet still has its initial cursor date. *)
Definition fresh_cursors (c : Converter) : Prop :=
  map_Forall (fun _ st => trips_fetched st = false -> last_date st = start_date c) (stops c).

(** [term_inv U c0 c]: the registered ids lie in [U], cursors of
    unfetched stations are fresh, and from [c0] to [c] the feed's dates
    are kept and no fetched station became unfetched. *)
Definition term_inv (U : gset Z) (c0 c : Converter) : Prop :=
  dom (stops c) ⊆ U /\ fresh_cursors c /\ start_date c = start_date c0 /\ end_date c = end_date c0 /\
  (forall k, fetched c0 k = true -> fetched c k = true).

(** The stops of a journey detail, as [process_trip] would iterate them. *)
Definition journey_stops (jd : JourneyDetail) : list JStop :=
  match jd_stops jd with JList l => l | JOne js => [js] end.

(** Every stop of every journey the API returns has its id in [U]. *)
Definition journeys_in (U : gset Z) (env : Env) : Prop :=
  forall url jd js k, fetch_journey env url = inr (Some jd) -> js ∈ journey_stops jd ->
  py_int (js_id js) = Ok k -> k ∈ U.

(** Every station the station search returns has its id in [U]. *)
Definition stations_in (U : gset Z) (env : Env) : Prop :=
  forall search so k, fetch_station env search = inr (Some (JOne so)) -> py_int (so_id so) = Ok k -> k ∈ U.

Lemma term_inv_refl U c : dom (stops c) ⊆ U -> fresh_cursors c -> term_inv U c c.
Proof. intros Hd Hf. by split_and!. Qed.

Lemma term_inv_trans U c0 c1 c2 : term_inv U c0 c1 -> term_inv U c1 c2 -> term_inv U c0 c2.
Proof.
  intros (_ & _ & Hs1 & He1 & Hm1) (Hd & Hf & Hs2 & He2 & Hm2).
  split_and!; [done|done|congruence|congruence|auto].
Qed.

Lemma term_inv_same_stops U c0 c c' :
  stops c' = stops c -> start_date c' = start_date c -> end_date c' = end_date c ->
  term_inv U c0 c -> term_inv U c0 c'.
Proof.
  intros Hs Hst He (Hd & Hf & Hs0 & He0 & Hm). unfold term_inv, fresh_cursors, fetched in *.
  rewrite Hs, Hst, He. split_and!; auto.
Qed.

(** A registered station replaced by a fetched one. *)
Lemma term_inv_set_station U c0 c sid st st' :
  stops c !! sid = Some st -> trips_fetched st' = true ->
  term_inv U c0 c -> term_inv U c0 (set_stops (<[sid := st']> (stops c)) c).
Proof.
  intros Hs Hf (Hd & Hfr & Hs0 & He0 & Hm). split_and!; simpl; try done.
  - rewrite dom_insert_L. apply elem_of_dom_2 in Hs. set_solver.
  - apply map_Forall_insert_2; [intros H; congruence|exact Hfr].
  - intros k Hk. unfold fetched; simpl. destruct (decide (k = sid)) as [->|Hne].
    + by rewrite lookup_insert_eq.
    + rewrite lookup_insert_ne by done. exact (Hm k Hk).
Qed.

(** A new station of [U] with a fresh cursor. *)
Lemma term_inv_insert_fresh U c0 c k st :
  stops c !! k = None -> k ∈ U -> (trips_fetched st = false -> last_date st = start_date c) ->
  term_inv U c0 c -> term_inv U c0 (set_stops (<[k := st]> (stops c)) c).
Proof.
  intros Hn Hk Hst (Hd & Hfr & Hs0 & He0 & Hm). split_and!; simpl; try done.
  - rewrite dom_insert_L. set_solver.
  - by apply map_Forall_insert_2.
  - intros k' Hk'. unfold fetched; simpl. destruct (decide (k' = k)) as [->|Hne].
    + specialize (Hm k Hk'). unfold fetched in Hm. by rewrite Hn in Hm.
    + rewrite lookup_insert_ne by done. exact (Hm k' Hk').
Qed.

(** Stations changed as [stops_le] allows, no new id. *)
Lemma term_inv_stops_le U c0 c m :
  stops_le (stops c) m -> dom m ⊆ dom (stops c) -> term_inv U c0 c -> term_inv U c0 (set_stops m c).
Proof.
  intros Hle Hdm (Hd & Hfr & Hs0 & He0 & Hm). split_and!; simpl; try done.
  - set_solver.
  - intros k st' Hk' Hf'. simpl in Hk'.
    assert (Hin : k ∈ dom (stops c)) by (apply Hdm; by eapply elem_of_dom_2).
    apply elem_of_dom in Hin as [st Hst].
    destruct (Hle k st Hst) as (s' & Hs' & (_ & _ & _ & Hld & Htf & _)).
    rewrite Hk' in Hs'. injection Hs' as <-. rewrite Hld. apply (Hfr k st Hst). congruence.
  - intros k Hk. specialize (Hm k Hk). unfold fetched in *. simpl.
    destruct (stops c !! k) as [st|] eqn:E; [|discriminate].
    destruct (Hle k st E) as (s' & -> & (_ & _ & _ & _ & Htf & _)). congruence.
Qed.
(** ** Every step of a crawl keeps [term_inv] *)
Section Steps.
Context (env : Env) (U : gset Z) (Henv : journeys_in U env).

Lemma set_has_trip_term c0 sid : preserves (term_inv U c0) (set_has_trip sid).
Proof.
  intros c u c' H Hi. destruct u. unfold set_has_trip in H. py_simp.
  destruct (stops c !! sid) as [st|] eqn:E; [|discriminate]. injection H as <-.
  apply term_inv_stops_le; [by apply stops_le_has_trip| |exact Hi].
  rewrite dom_insert_L. apply elem_of_dom_2 in E. set_solver.
Qed.

Lemma process_station_by_ob_term c0 so :
  (forall k, py_int (so_id so) = Ok k -> k ∈ U) ->
  preserves (term_inv U c0) (process_station_by_ob env (Some (JOne so))).
Proof.
  intros Hk c u c' H Hi. destruct u. rewrite process_station_by_ob_one in H.
  destruct (py_int (so_id so)) as [k|] eqn:Ek; [|discriminate].
  destruct (stops c !! k) eqn:E; injection H as <-; [exact Hi|].
  apply term_inv_insert_fresh; [done|by apply Hk|by intros|exact Hi].
Qed.

Lemma read_station_term c0 sid : preserves (term_inv U c0) (read_station sid).
Proof. unfold read_station. preserves_tac. Qed.

#[local] Hint Resolve set_has_trip_term read_station_term : py.

Lemma process_stop_term c0 acc js :
  (forall k, py_int (js_id js) = Ok k -> k ∈ U) -> preserves (term_inv U c0) (process_stop env acc js).
Proof.
  intros Hk. unfold process_stop. apply preserves_bindM; [by apply process_station_by_ob_term|].
  intros _. preserves_tac.
Qed.

Lemma process_stops_term c0 l acc :
  Forall (fun js => forall k, py_int (js_id js) = Ok k -> k ∈ U) l ->
  preserves (term_inv U c0) (process_stops env acc l).
Proof.
  intros Hl. revert acc. induction Hl as [|js l Hjs _ IH]; intros acc; simpl; [apply preserves_retM|].
  apply preserves_bindM; [by apply process_stop_term|intros acc'; apply IH].
Qed.

Lemma process_trip_term c0 url : preserves (term_inv U c0) (process_trip env url).
Proof.
  intros c u c' H Hi. destruct u. destruct (process_trip_le env url c c' H) as (_ & Hst & He & _).
  apply process_trip_inv in H as [[_ ->]|H]; [exact Hi|].
  destruct H as (jd & name & type & agency & jstops & sts & c1 & Hf & _ & _ & _ & Hl & Hps & Hrest).
  assert (Hi1 : term_inv U c0 c1).
  { eapply process_stops_term; [|exact Hps|exact Hi].
    apply Forall_forall. intros js Hjs k Hk. eapply Henv; [exact Hf| |exact Hk].
    unfold journey_stops. destruct (jd_stops jd); simpl in Hl; [discriminate|].
    injection Hl as ->. exact Hjs. }
  destruct (process_stops_le env _ _ _ _ _ Hps) as (_ & Hc1).
  destruct (Routes.route_append_frame (new_trip sts name type agency) c1) as (Hs2 & _ & _ & _).
  apply (term_inv_same_stops U c0 c1); [|rewrite Hst, Hc1; reflexivity|rewrite He, Hc1; reflexivity|exact Hi1].
  destruct Hrest as [(_ & ->)|(_ & packed & _ & ->)]; [exact Hs2|].
  rewrite (proj1 (TripsProps.trip_append_frame _ _)). exact Hs2.
Qed.

#[local] Hint Resolve process_trip_term : py.

(** The seeds of [main]. *)
Lemma process_station_by_id_term c0 sid :
  stations_in U env -> preserves (term_inv U c0) (process_station_by_id env sid).
Proof.
  intros Hst c u c' H Hi. unfold process_station_by_id in H. py_simp.
  destruct (stops c !! sid); [by simplify_eq|].
  destruct (fetch_station env (py_str sid)) as [e|[[so|l]|]] eqn:Ef; simpl in H; try discriminate.
  - eapply process_station_by_ob_term; [|exact H|exact Hi]. intros k Hk. by eapply Hst.
  - unfold process_station_by_ob in H. by apply retM_Ok in H as [_ ->].
Qed.

#[local] Hint Resolve process_station_by_id_term : py.

Lemma seed_stations_term c0 seeds :
  stations_in U env -> preserves (term_inv U c0) (seed_stations env seeds).
Proof. intros Hst. unfold seed_stations. preserves_tac. Qed.

(** The crawl of station [sid], once it is marked fetched. *)
Section Station.
Context (c0 : Converter) (sid : Z) (Hc0 : fetched c0 sid = true).

Lemma term_inv_sid c : term_inv U c0 c -> exists st, stops c !! sid = Some st /\ trips_fetched st = true.
Proof.
  intros (_ & _ & _ & _ & Hm). specialize (Hm sid Hc0). unfold fetched in Hm.
  destruct (stops c !! sid); [eauto|discriminate].
Qed.

Lemma update_station_term f :
  (forall st, trips_fetched (f st) = trips_fetched st) -> preserves (term_inv U c0) (update_station sid f).
Proof.
  intros Hf c u c' H Hi. destruct u. apply update_station_Ok in H as (st & Hs & ->).
  destruct (term_inv_sid c Hi) as (st1 & Hs1 & Hf1). rewrite Hs in Hs1. injection Hs1 as <-.
  eapply term_inv_set_station; [exact Hs|by rewrite Hf|exact Hi].
Qed.

#[local] Hint Resolve update_station_term : py.
#[local] Hint Extern 1 (forall st, trips_fetched _ = trips_fetched st) => (intros; reflexivity) : py.
#[local] Hint Extern 1 (preserves _ (modifyM (fun c => set_processed _ c))) =>
  (apply preserves_modifyM; intros ?; apply (term_inv_same_stops U c0); reflexivity || assumption) : py.

Lemma update_cursor_term dep : preserves (term_inv U c0) (update_cursor env sid dep).
Proof. unfold update_cursor, raise_check_h, raise_check_m, raise_last_date. preserves_tac. Qed.

#[local] Hint Resolve update_cursor_term : py.

Lemma process_departure_term dep : preserves (term_inv U c0) (process_departure env sid dep).
Proof. unfold process_departure. preserves_tac. Qed.

#[local] Hint Resolve process_departure_term : py.

Lemma query_once_term : preserves (term_inv U c0) (query_once env sid).
Proof. unfold query_once. preserves_tac. Qed.

#[local] Hint Resolve query_once_term : py.

Lemma crawl_loop_term fuel : preservesF (term_inv U c0) (crawl_loop env fuel sid).
Proof. induction fuel as [|fuel IH]; simpl; preserves_tac. Qed.
End Station.
End Steps.
(** ** The loop of [main] ends *)
Section Loop.
Context (env : Env) (U : gset Z) (Henv : journeys_in U env).

Lemma get_all_trips_for_stop_term fuel sid c c' :
  dom (stops c) ⊆ U -> fresh_cursors c ->
  get_all_trips_for_stop env fuel sid c = Some (Ok (tt, c')) ->
  term_inv U c c' /\ fetched c' sid = true.
Proof.
  intros Hd Hf H. unfold get_all_trips_for_stop in H.
  apply bindF_inv in H as (st & c1 & H1 & H). injection H1 as H1.
  apply read_station_Ok in H1 as [-> Hs]. destruct (trips_fetched st) eqn:Ef.
  - injection H as <-. split; [by apply term_inv_refl|]. unfold fetched. by rewrite Hs.
  - apply bindF_inv in H as ([] & c2 & H2 & H). injection H2 as H2.
    apply update_station_Ok in H2 as (st2 & Hs2 & ->). rewrite Hs in Hs2. injection Hs2 as <-.
    assert (Hi2 : term_inv U c (set_stops (<[sid := set_fetched st]> (stops c)) c))
      by (eapply term_inv_set_station; [exact Hs|done|by apply term_inv_refl]).
    assert (Hf2 : fetched (set_stops (<[sid := set_fetched st]> (stops c)) c) sid = true)
      by (unfold fetched; simpl; by rewrite lookup_insert_eq).
    pose proof (crawl_loop_term env U Henv _ sid Hf2 fuel _ tt c' H
                  (term_inv_refl U _ (proj1 Hi2) (proj1 (proj2 Hi2)))) as Hi3.
    split; [by eapply term_inv_trans|]. apply (proj2 (proj2 (proj2 (proj2 Hi3)))), Hf2.
Qed.

Lemma fetched_in_size c : (size (fetched_in U c) <= size U)%nat.
Proof. apply subseteq_size. intros k. unfold fetched_in. rewrite elem_of_filter. tauto. Qed.

(** A crawl of an unfetched station of [U] fetches one more id of [U]. *)
Lemma fetched_in_grows c c' sid st :
  dom (stops c) ⊆ U -> stops c !! sid = Some st -> trips_fetched st = false ->
  (forall k, fetched c k = true -> fetched c' k = true) -> fetched c' sid = true ->
  (size (fetched_in U c) < size (fetched_in U c'))%nat.
Proof.
  intros Hd Hs Hnf Hm Hfs. apply subset_size. split.
  - intros k. unfold fetched_in. rewrite !elem_of_filter. intros [Hk HkU]. auto.
  - intros Hsub. assert (Hsid : sid ∈ fetched_in U c).
    { apply Hsub. apply elem_of_filter. split; [exact Hfs|]. apply Hd. by eapply elem_of_dom_2. }
    apply elem_of_filter in Hsid as [Hk _]. unfold fetched in Hk. rewrite Hs in Hk. congruence.
Qed.

Lemma main_loop_step fuel inner c :
  main_loop env (S fuel) inner c =
    match get_unfetched_station_id c with
    | None => Some (Ok (tt, c))
    | Some sid =>
        if Z.eqb sid 0 then Some (Ok (tt, c))
        else bindF (get_all_trips_for_stop env inner sid) (fun _ => main_loop env fuel inner) c
    end.
Proof.
  cbn -[get_unfetched_station_id get_all_trips_for_stop].
  destruct (get_unfetched_station_id c) as [sid|]; [destruct (Z.eqb sid 0)|]; reflexivity.
Qed.

Lemma main_loop_some fuel inner c :
  crawl_inv c -> dom (stops c) ⊆ U -> fresh_cursors c ->
  (size U - size (fetched_in U c) < fuel)%nat -> (Z.to_nat (end_date c - start_date c) < inner)%nat ->
  is_Some (main_loop env fuel inner c).
Proof.
  revert c. induction fuel as [|fuel IH]; intros c Hi Hd Hf Hfuel Hin; [lia|].
  rewrite main_loop_step.
  pose proof (get_unfetched_station_id_spec c (proj1 (proj2 (proj1 Hi)))) as Hsp.
  destruct (get_unfetched_station_id c) as [sid|]; [|by eexists].
  destruct Hsp as (st & Hs & Hnf). destruct (Z.eqb sid 0); [by eexists|].
  destruct (CrawlClaims.get_all_trips_for_stop_some env inner sid c st Hs) as [r Hr].
  { rewrite (Hf sid st Hs Hnf). exact Hin. }
  unfold bindF. rewrite Hr. destruct r as [[[] c']|e]; [|by eexists].
  destruct (get_all_trips_for_stop_term inner sid c c' Hd Hf Hr) as [(Hd' & Hf' & Hst' & He' & Hm) Hfs].
  pose proof (fetched_in_grows c c' sid st Hd Hs Hnf Hm Hfs). pose proof (fetched_in_size c').
  apply IH; [exact (get_all_trips_for_stop_inv env inner sid c tt c' Hr Hi)|exact Hd'|exact Hf'|lia|].
  rewrite Hst', He'. exact Hin.
Qed.
End Loop.

(** C10: the crawl loop of [main] terminates: if every station id the API
    can mention lies in a finite set [U] and the registry only holds ids
    of [U], a loop with more fuel than [size U] stations, each crawled
    with more fuel than the days of the feed's window, returns (a result
    or a Python exception) whatever the departure boards are. *)
Theorem main_loop_terminates env U fuel inner c :
  journeys_in U env -> crawl_inv c -> dom (stops c) ⊆ U -> fresh_cursors c ->
  (size U < fuel)%nat -> (Z.to_nat (end_date c - start_date c) < inner)%nat ->
  is_Some (main_loop env fuel inner c).
Proof. intros Henv Hi Hd Hf Hfuel Hin. apply (main_loop_some env U Henv); [done..|lia|done]. Qed.
End CrawlTermination.

Module CrawlTerminationWitnesses.
Import Crawl CrawlInv CrawlTermination Samples CrawlClaims.CrawlWitnesses.
Local Open Scope Z_scope.

(** The stations of the sample API. *)
Definition sample_universe : gset Z := {[8011160; 8000261]}.

Lemma sample_journeys_in : journeys_in sample_universe sample_env.
Proof.
  intros url jd js k Hf Hjs Hk. simpl in Hf.
  repeat case_bool_decide; simplify_eq; unfold journey_stops in Hjs; simpl in Hjs;
    repeat (apply elem_of_cons in Hjs as [->|Hjs]; [vm_compute in Hk; injection Hk as <-; set_solver|]);
    by apply elem_of_nil in Hjs.
Qed.

Lemma main_loop_terminates_witness :
  journeys_in sample_universe sample_env /\ crawl_inv converter_A /\
  dom (stops converter_A) ⊆ sample_universe /\ fresh_cursors converter_A /\
  (size sample_universe < 3)%nat /\
  (Z.to_nat (end_date converter_A - start_date converter_A) < 5)%nat /\
  is_Some (main_loop sample_env 3 5 converter_A).
Proof.
  assert (H3 : dom (stops converter_A) ⊆ sample_universe) by decide_by_eval.
  assert (H4 : fresh_cursors converter_A) by (apply map_Forall_singleton; reflexivity).
  assert (H5 : (size sample_universe < 3)%nat) by (vm_compute; lia).
  assert (H6 : (Z.to_nat (end_date converter_A - start_date converter_A) < 5)%nat) by (vm_compute; lia).
  split_and!; [exact sample_journeys_in|exact converter_A_inv|exact H3|exact H4|exact H5|exact H6|].
  exact (main_loop_terminates sample_env sample_universe 3 5 converter_A sample_journeys_in
           converter_A_inv H3 H4 H5 H6).
Defined.
End CrawlTerminationWitnesses.
