(* ===== verification/CrawlSemantics.v ===== *)
(** * The crawl loops as big-step relations

    The two [while] loops of the crawl (db_to_gtfs.py:78 and 444) are
    run in [Crawl] by fuel-bounded functions.  This file gives them a
    relational semantics in the style of a big-step semantics of [while]:
    [crawl_exec] for the loop of one station, [station_exec] for
    [get_all_trips_for_stop], [main_exec] for the loop of [main]; a
    derivation is a finite run of the loop.  The fuel-bounded functions
    are sound and complete for these relations.  By rule induction: a run
    of [main]'s loop keeps every registered station and ends with every
    registered station crawled, unless it stopped at an unfetched station
    of id 0. *)

From stdpp Require Import base list strings gmap.
From Stdlib Require Import ZArith Lia.
From S2P Require Import Prelude Python Api Converter Samples TimeNorm Stations Routes Trips TripBuilder Crawl CrawlTermination.

Local Open Scope py_scope.

Module CrawlSemantics.
Import Stations StationsProps TripBuilder TripBuilderProps Crawl CrawlProps CrawlInv CrawlTermination.

Section WithEnv.
Context (env : Env).

(** [while stop['last_date'] < self.end_date: ...] for the station [sid]
    (the station is read through [self.stops], a missing one raises). *)
Inductive crawl_exec (sid : Z) : Converter -> res (unit * Converter) -> Prop :=
  | crawl_missing c :
      stops c !! sid = None -> crawl_exec sid c (Exc KeyError)
  | crawl_done c st :
      stops c !! sid = Some st -> (end_date c <= last_date st)%Z -> crawl_exec sid c (Ok (tt, c))
  | crawl_raise c st e :
      stops c !! sid = Some st -> (last_date st < end_date c)%Z ->
      query_once env sid c = Exc e -> crawl_exec sid c (Exc e)
  | crawl_step c st c1 r :
      stops c !! sid = Some st -> (last_date st < end_date c)%Z ->
      query_once env sid c = Ok (tt, c1) -> crawl_exec sid c1 r -> crawl_exec sid c r.

(** [get_all_trips_for_stop(self.stops[sid])] (70-77). *)
Inductive station_exec (sid : Z) : Converter -> res (unit * Converter) -> Prop :=
  | station_missing c :
      stops c !! sid = None -> station_exec sid c (Exc KeyError)
  | station_fetched c st :
      stops c !! sid = Some st -> trips_fetched st = true -> station_exec sid c (Ok (tt, c))
  | station_crawl c st r :
      stops c !! sid = Some st -> trips_fetched st = false ->
      crawl_exec sid (set_stops (<[sid := set_fetched st]> (stops c)) c) r -> station_exec sid c r.

(** [while sid: ...] of [main] (443-446). *)
Inductive main_exec : Converter -> res (unit * Converter) -> Prop :=
  | main_done c :
      get_unfetched_station_id c = None -> main_exec c (Ok (tt, c))
  | main_zero c :
      get_unfetched_station_id c = Some 0%Z -> main_exec c (Ok (tt, c))
  | main_raise c sid e :
      get_unfetched_station_id c = Some sid -> sid <> 0%Z ->
      station_exec sid c (Exc e) -> main_exec c (Exc e)
  | main_step c sid c1 r :
      get_unfetched_station_id c = Some sid -> sid <> 0%Z ->
      station_exec sid c (Ok (tt, c1)) -> main_exec c1 r -> main_exec c r.

(** ** One unfolding of each loop *)
Lemma read_station_missing sid c : stops c !! sid = None -> read_station sid c = Exc KeyError.
Proof. intros Hs. unfold read_station. py_simp. by rewrite Hs. Qed.

Lemma crawl_loop_unfold f sid c :
  crawl_loop env (S f) sid c =
    match stops c !! sid with
    | None => Some (Exc KeyError)
    | Some st =>
        if Z.ltb (last_date st) (end_date c)
        then bindF (liftF (query_once env sid)) (fun _ => crawl_loop env f sid) c
        else Some (Ok (tt, c))
    end.
Proof.
  destruct (stops c !! sid) as [st|] eqn:Hs; [by apply crawl_loop_step|].
  simpl. unfold bindF, liftF. by rewrite (read_station_missing _ _ Hs).
Qed.

Lemma get_all_trips_for_stop_unfold fuel sid c :
  get_all_trips_for_stop env fuel sid c =
    match stops c !! sid with
    | None => Some (Exc KeyError)
    | Some st =>
        if trips_fetched st then Some (Ok (tt, c))
        else crawl_loop env fuel sid (set_stops (<[sid := set_fetched st]> (stops c)) c)
    end.
Proof.
  unfold get_all_trips_for_stop, bindF, liftF.
  destruct (stops c !! sid) as [st|] eqn:Hs; [|by rewrite (read_station_missing _ _ Hs)].
  rewrite (read_station_found _ _ _ Hs). simpl. destruct (trips_fetched st); [done|].
  unfold update_station, bindM. rewrite (read_station_found _ _ _ Hs). done.
Qed.

(** ** Soundness and completeness of the fuel-bounded loops *)
Lemma crawl_loop_sound fuel sid c r : crawl_loop env fuel sid c = Some r -> crawl_exec sid c r.
Proof.
  revert c. induction fuel as [|f IH]; intros c H; [discriminate|].
  rewrite crawl_loop_unfold in H. destruct (stops c !! sid) as [st|] eqn:Hs.
  2:{ injection H as <-. by apply crawl_missing. }
  destruct (Z.ltb_spec (last_date st) (end_date c)) as [Hlt|Hge].
  - unfold bindF, liftF in H. destruct (query_once env sid c) as [[[] c1]|e] eqn:Eq.
    + eapply crawl_step; eauto.
    + injection H as <-. eapply crawl_raise; eauto.
  - injection H as <-. eapply crawl_done; eauto.
Qed.

Lemma crawl_loop_complete sid c r :
  crawl_exec sid c r -> exists n, forall fuel, (n < fuel)%nat -> crawl_loop env fuel sid c = Some r.
Proof.
  induction 1 as [c Hs|c st Hs Hge|c st e Hs Hlt Eq|c st c1 r Hs Hlt Eq _ [n IH]].
  - exists 0%nat. intros [|f] Hf; [lia|]. by rewrite crawl_loop_unfold, Hs.
  - exists 0%nat. intros [|f] Hf; [lia|]. rewrite crawl_loop_unfold, Hs.
    by destruct (Z.ltb_spec (last_date st) (end_date c)); [lia|].
  - exists 0%nat. intros [|f] Hf; [lia|]. rewrite crawl_loop_unfold, Hs.
    destruct (Z.ltb_spec (last_date st) (end_date c)); [|lia]. unfold bindF, liftF. by rewrite Eq.
  - exists (S n). intros [|f] Hf; [lia|]. rewrite crawl_loop_unfold, Hs.
    destruct (Z.ltb_spec (last_date st) (end_date c)); [|lia]. unfold bindF, liftF. rewrite Eq.
    apply IH. lia.
Qed.

Lemma get_all_trips_for_stop_sound fuel sid c r :
  get_all_trips_for_stop env fuel sid c = Some r -> station_exec sid c r.
Proof.
  rewrite get_all_trips_for_stop_unfold. destruct (stops c !! sid) as [st|] eqn:Hs.
  - destruct (trips_fetched st) eqn:Hf; intros H.
    + injection H as <-. by eapply station_fetched.
    + eapply station_crawl; [exact Hs|exact Hf|]. by eapply crawl_loop_sound.
  - intros H. injection H as <-. by apply station_missing.
Qed.

Lemma get_all_trips_for_stop_complete sid c r :
  station_exec sid c r ->
  exists n, forall fuel, (n < fuel)%nat -> get_all_trips_for_stop env fuel sid c = Some r.
Proof.
  intros [c' Hs|c' st Hs Hf|c' st r' Hs Hf Hc].
  - exists 0%nat. intros fuel _. by rewrite get_all_trips_for_stop_unfold, Hs.
  - exists 0%nat. intros fuel _. by rewrite get_all_trips_for_stop_unfold, Hs, Hf.
  - destruct (crawl_loop_complete _ _ _ Hc) as [n Hn]. exists n. intros fuel Hfuel.
    rewrite get_all_trips_for_stop_unfold, Hs, Hf. by apply Hn.
Qed.

Lemma main_loop_sound fuel inner c r : main_loop env fuel inner c = Some r -> main_exec c r.
Proof.
  revert c. induction fuel as [|f IH]; intros c H; [discriminate|].
  rewrite main_loop_step in H. destruct (get_unfetched_station_id c) as [sid|] eqn:Hu.
  2:{ injection H as <-. by apply main_done. }
  destruct (Z.eqb_spec sid 0) as [->|Hne].
  { injection H as <-. by apply main_zero. }
  unfold bindF in H. destruct (get_all_trips_for_stop env inner sid c) as [[[[] c1]|e]|] eqn:Eg;
    [|injection H as <-|discriminate]; apply get_all_trips_for_stop_sound in Eg.
  - eapply main_step; eauto.
  - eapply main_raise; eauto.
Qed.

Lemma main_loop_complete c r :
  main_exec c r ->
  exists n, forall fuel inner, (n < fuel)%nat -> (n < inner)%nat -> main_loop env fuel inner c = Some r.
Proof.
  induction 1 as [c Hu|c Hu|c sid e Hu Hne Hs|c sid c1 r Hu Hne Hs _ [n IH]].
  - exists 0%nat. intros [|f] inner Hf _; [lia|]. by rewrite main_loop_step, Hu.
  - exists 0%nat. intros [|f] inner Hf _; [lia|]. by rewrite main_loop_step, Hu.
  - destruct (get_all_trips_for_stop_complete _ _ _ Hs) as [m Hm]. exists m.
    intros [|f] inner Hf Hi; [lia|]. rewrite main_loop_step, Hu.
    destruct (Z.eqb_spec sid 0); [done|]. unfold bindF. by rewrite Hm.
  - destruct (get_all_trips_for_stop_complete _ _ _ Hs) as [m Hm]. exists (S (Nat.max m n)).
    intros [|f] inner Hf Hi; [lia|]. rewrite main_loop_step, Hu.
    destruct (Z.eqb_spec sid 0); [done|]. unfold bindF. rewrite Hm by lia. apply IH; lia.
Qed.

(** ** Registered stations stay registered *)
Definition has_key (k : Z) (c : Converter) : Prop := is_Some (stops c !! k).

Lemma update_station_keys k sid f : preserves (has_key k) (update_station sid f).
Proof.
  intros c [] c' H Hk. apply update_station_Ok in H as (st & _ & ->). unfold has_key; simpl.
  destruct (decide (k = sid)) as [->|Hne]; [rewrite lookup_insert_eq; by eexists|].
  by rewrite lookup_insert_ne.
Qed.

Lemma process_trip_keys k url : preserves (has_key k) (process_trip env url).
Proof.
  intros c [] c' H [st Hk]. destruct (process_trip_le env url c c' H) as (Hle & _).
  destruct (Hle k st Hk) as (st' & Hk' & _). by exists st'.
Qed.

Lemma read_station_keys k sid : preserves (has_key k) (read_station sid).
Proof. unfold read_station. preserves_tac. Qed.

#[local] Hint Resolve update_station_keys process_trip_keys read_station_keys : py.
#[local] Hint Extern 1 (preserves _ (modifyM (fun c => set_processed _ c))) =>
  (apply preserves_modifyM; intros ? ?; assumption) : py.

Lemma query_once_keys k sid : preserves (has_key k) (query_once env sid).
Proof.
  unfold query_once, process_departure, update_cursor, raise_check_h, raise_check_m, raise_last_date.
  preserves_tac.
Qed.

Lemma crawl_exec_keys sid c r :
  crawl_exec sid c r -> forall c' k, r = Ok (tt, c') -> has_key k c -> has_key k c'.
Proof.
  induction 1 as [| | |c st c1 r Hs Hlt Eq _ IH]; intros c' k Hr Hk; try discriminate.
  - by injection Hr as <-.
  - eapply IH; [exact Hr|]. eapply query_once_keys; [exact Eq|exact Hk].
Qed.

Lemma station_exec_keys sid c c' k : station_exec sid c (Ok (tt, c')) -> has_key k c -> has_key k c'.
Proof.
  inversion 1 as [|c0 st Hs Hf|c0 st r Hs Hf Hc]; subst; intros Hk; [done|].
  eapply crawl_exec_keys; [exact Hc|reflexivity|]. unfold has_key; simpl.
  destruct (decide (k = sid)) as [->|Hne]; [rewrite lookup_insert_eq; by eexists|].
  by rewrite lookup_insert_ne.
Qed.

Lemma main_exec_end c r :
  main_exec c r -> forall c', r = Ok (tt, c') ->
  (forall k, has_key k c -> has_key k c') /\
  (get_unfetched_station_id c' = None \/ get_unfetched_station_id c' = Some 0%Z).
Proof.
  induction 1 as [c Hu|c Hu| |c sid c1 r Hu Hne Hs _ IH]; intros c' Hr; try discriminate.
  - injection Hr as <-. split; [done|by left].
  - injection Hr as <-. split; [done|by right].
  - destruct (IH c' Hr) as [Hk Hend]. split; [|exact Hend].
    intros k Hk0. apply Hk. by eapply station_exec_keys.
Qed.

End WithEnv.
End CrawlSemantics.

Module CrawlSemanticsClaims.
Import Stations StationsProps Crawl CrawlInv CrawlTermination CrawlSemantics.

Lemma main_exec_inv env c c' : crawl_inv c -> main_exec env c (Ok (tt, c')) -> crawl_inv c'.
Proof.
  intros Hi H. destruct (main_loop_complete env _ _ H) as [n Hn].
  exact (main_loop_inv env (S n) (S n) c tt c' (Hn (S n) (S n) ltac:(lia) ltac:(lia)) Hi).
Qed.

(** C3: every station is eventually crawled: when the loop of [main] ends
    normally, every station registered before is still registered, and
    every registered station has its trips fetched, unless the loop
    stopped at an unfetched station whose id is 0 ([while sid:]). *)
Theorem main_exec_crawls_every_station env c c' :
  crawl_inv c -> main_exec env c (Ok (tt, c')) ->
  (forall k, is_Some (stops c !! k) -> is_Some (stops c' !! k)) /\
  (map_Forall (fun _ st => trips_fetched st = true) (stops c') \/
   exists st, stops c' !! 0%Z = Some st /\ trips_fetched st = false).
Proof.
  intros Hi H. destruct (main_exec_end env c _ H c' eq_refl) as [Hk Hend]. split; [exact Hk|].
  pose proof (get_unfetched_station_id_spec c' (proj1 (proj2 (proj1 (main_exec_inv env c c' Hi H))))) as Hs.
  destruct Hend as [Hu|Hu]; rewrite Hu in Hs; [by left|by right].
Qed.

Module CrawlSemanticsWitnesses.
Import Samples CrawlClaims.CrawlWitnesses.
Local Open Scope Z_scope.

(** The state the sample crawl ends in. *)
Definition crawled_A : Converter :=
  match main_loop sample_env 3 5 converter_A with Some (Ok (_, c)) => c | _ => converter_A end.

Lemma main_exec_crawls_every_station_witness :
  crawl_inv converter_A /\ main_exec sample_env converter_A (Ok (tt, crawled_A)) /\
  map_Forall (fun _ st => trips_fetched st = true) (stops crawled_A).
Proof.
  assert (H : main_exec sample_env converter_A (Ok (tt, crawled_A))).
  { apply (main_loop_sound sample_env 3 5). vm_compute. reflexivity. }
  split_and!; [exact converter_A_inv|exact H|].
  destruct (main_exec_crawls_every_station sample_env converter_A crawled_A converter_A_inv H)
    as [_ [Hall|Hz]]; [exact Hall|].
  exfalso. destruct Hz as (st & Hst & _). vm_compute in Hst. discriminate.
Defined.

End CrawlSemanticsWitnesses.
End CrawlSemanticsClaims.
