(* ===== verification/Calendar.v ===== *)
(** * Calendar Minimizer: [generate_calendar_dates] (db_to_gtfs.py:283-293)

    After the crawl, every trip gets a [service_id]: the index of the
    first entry of [self.calendar_dates] equal (as a set) to the trip's
    [service_dates], or a new entry appended for it.  The section proves
    that the loop refines [intern_all], sequential interning of the trips'
    date sets, and derives from it the guarantees of the calendar: every
    trip names an entry holding exactly its days, no set is listed twice,
    and every entry is the set of some trip. *)

From stdpp Require Import base list strings gmap.
From Stdlib Require Import ZArith Lia.
From S2P Require Import Prelude Converter Samples.

Module Calendar.

(** [trip['service_id'] = sid] *)
Definition with_service_id (sid : nat) (t : Trip) : Trip :=
  mkTrip (stoptimes t) (trip_name t) (trip_type t) (agency_id t) (route_id t) (headsign t)
         (service_date t) (service_dates t) (Some sid).

(** The inner [for sid, cdate in enumerate(...)] with its [break]. *)
Definition find_service (cal : list (gset Z)) (t : Trip) : option nat :=
  scan_index (fun cdate => bool_decide (cdate = service_dates t)) cal.

(** One iteration of the outer loop (285-293): the match, then
    [if 'service_id' not in trip: append]. *)
Definition assign_service (cal : list (gset Z)) (t : Trip) : Trip * list (gset Z) :=
  let t1 := match find_service cal t with
            | Some sid => with_service_id sid t
            | None => t
            end in
  match service_id t1 with
  | Some _ => (t1, cal)
  | None =>
      let cal' := cal ++ [service_dates t1] in
      (with_service_id (length cal' - 1) t1, cal')
  end.

Fixpoint assign_services (cal : list (gset Z)) (ts : list Trip) : list Trip * list (gset Z) :=
  match ts with
  | [] => ([], cal)
  | t :: ts' =>
      let '(t', cal1) := assign_service cal t in
      let '(ts'', cal2) := assign_services cal1 ts' in
      (t' :: ts'', cal2)
  end.

Definition generate_calendar_dates (c : Converter) : Converter :=
  let '(ts, cal) := assign_services (calendar_dates c) (trips c) in
  set_calendar cal (set_trips ts c).

(** The abstract specification: the keys interned one after another. *)
Section InternAll.
Context {K : Type} `{EqDecision K}.

Fixpoint intern_all (ks : list K) (l : list K) : list nat * list K :=
  match ks with
  | [] => ([], l)
  | k :: ks' =>
      let '(i, l1) := intern k l in
      let '(ids, l2) := intern_all ks' l1 in
      (i :: ids, l2)
  end.
End InternAll.

(** A trip whose service id is not assigned yet. *)
Definition unassigned (t : Trip) : Prop := service_id t = None.

End Calendar.

Module CalendarProps.
Import Calendar.

(** ** Sequential interning *)
Section InternAll.
Context {K : Type} `{EqDecision K}.

Lemma intern_elem (k x : K) l : x ∈ (intern k l).2 <-> x ∈ l \/ x = k.
Proof.
  rewrite intern_snd. case_bool_decide as Hk.
  - split; [by left|]. intros [?| ->]; done.
  - rewrite elem_of_app, list_elem_of_singleton. done.
Qed.

Lemma intern_all_cons (k : K) ks l :
  intern_all (k :: ks) l =
    ((intern k l).1 :: (intern_all ks (intern k l).2).1, (intern_all ks (intern k l).2).2).
Proof. simpl. destruct (intern k l), (intern_all ks _). done. Qed.

Lemma intern_all_length (ks l : list K) : length (intern_all ks l).1 = length ks.
Proof.
  revert l. induction ks as [|k ks IH]; intros l; [done|].
  rewrite intern_all_cons. simpl. by rewrite IH.
Qed.

Lemma intern_all_prefix (ks l : list K) : l `prefix_of` (intern_all ks l).2.
Proof.
  revert l. induction ks as [|k ks IH]; intros l; [done|].
  rewrite intern_all_cons. simpl. etrans; [apply intern_prefix|apply IH].
Qed.

Lemma intern_all_NoDup (ks l : list K) : NoDup l -> NoDup (intern_all ks l).2.
Proof.
  revert l. induction ks as [|k ks IH]; intros l Hl; [done|].
  rewrite intern_all_cons. simpl. by apply IH, intern_NoDup.
Qed.

Lemma intern_all_elem (ks l : list K) x : x ∈ (intern_all ks l).2 <-> x ∈ l \/ x ∈ ks.
Proof.
  revert l. induction ks as [|k ks IH]; intros l.
  - simpl. split; [by left|]. intros [?|Hx]; [done|inversion Hx].
  - rewrite intern_all_cons. simpl. rewrite IH, intern_elem, elem_of_cons. tauto.
Qed.

(** The [i]-th key gets an index that names it in the final table. *)
Lemma intern_all_lookup (ks l : list K) i k :
  ks !! i = Some k ->
  exists j, (intern_all ks l).1 !! i = Some j /\ (intern_all ks l).2 !! j = Some k.
Proof.
  revert l i. induction ks as [|k' ks IH]; intros l i Hi; [done|].
  rewrite intern_all_cons. destruct i as [|i]; simpl in *.
  - injection Hi as ->. eexists. split; [done|].
    eapply prefix_lookup_Some; [apply intern_lookup|apply intern_all_prefix].
  - by apply IH.
Qed.
End InternAll.

#[export] Hint Resolve intern_all_NoDup intern_all_prefix : py.

(** ** The calendar loop refines [intern_all] *)
Lemma assign_service_intern cal t :
  unassigned t ->
  assign_service cal t =
    (with_service_id (intern (service_dates t) cal).1 t, (intern (service_dates t) cal).2).
Proof.
  intros Ht. unfold assign_service, find_service, intern.
  destruct (scan_index _ cal); simpl; [done|]. rewrite Ht, length_app. simpl.
  do 2 f_equal. lia.
Qed.

Lemma assign_services_intern cal ts :
  Forall unassigned ts ->
  assign_services cal ts =
    (zip_with with_service_id (intern_all (map service_dates ts) cal).1 ts,
     (intern_all (map service_dates ts) cal).2).
Proof.
  revert cal. induction ts as [|t ts IH]; intros cal Hts; [done|].
  apply Forall_cons in Hts as [Ht Hts]. cbn [assign_services map].
  rewrite assign_service_intern by done. rewrite intern_all_cons, IH by done. simpl.
  by destruct (intern_all _ _).
Qed.

Lemma generate_calendar_dates_eq c :
  Forall unassigned (trips c) ->
  generate_calendar_dates c =
    set_calendar (intern_all (map service_dates (trips c)) (calendar_dates c)).2
      (set_trips (zip_with with_service_id (intern_all (map service_dates (trips c)) (calendar_dates c)).1
                           (trips c)) c).
Proof. intros H. unfold generate_calendar_dates. by rewrite assign_services_intern. Qed.

(** C12: [generate_calendar_dates] refines sequential interning: on trips
    with no service id yet, the calendar becomes the trips' date sets
    interned one after another into the old calendar, and each trip gets
    the index interning returned for it, the trips keeping their order and
    all other fields. *)
Theorem generate_calendar_dates_refines c :
  Forall unassigned (trips c) ->
  generate_calendar_dates c =
    set_calendar (intern_all (map service_dates (trips c)) (calendar_dates c)).2
      (set_trips (zip_with with_service_id (intern_all (map service_dates (trips c)) (calendar_dates c)).1
                           (trips c)) c).
Proof. apply generate_calendar_dates_eq. Qed.

Lemma generate_calendar_dates_props c :
  NoDup (calendar_dates c) -> Forall unassigned (trips c) ->
  length (trips (generate_calendar_dates c)) = length (trips c) /\
  (forall i t, trips c !! i = Some t -> exists j,
      trips (generate_calendar_dates c) !! i = Some (with_service_id j t) /\
      calendar_dates (generate_calendar_dates c) !! j = Some (service_dates t)) /\
  NoDup (calendar_dates (generate_calendar_dates c)) /\
  (forall s, s ∈ calendar_dates (generate_calendar_dates c) <->
             s ∈ calendar_dates c \/ exists t, t ∈ trips c /\ service_dates t = s).
Proof.
  intros Hnd Hun. rewrite generate_calendar_dates_eq by done. simpl. split_and!.
  - rewrite length_zip_with, intern_all_length, length_map. lia.
  - intros i t Hi.
    destruct (intern_all_lookup (map service_dates (trips c)) (calendar_dates c) i (service_dates t))
      as (j & Hj & Hl); [by rewrite list_lookup_fmap, Hi|].
    exists j. by rewrite lookup_zip_with, Hj, Hi.
  - by apply intern_all_NoDup.
  - intros s. rewrite intern_all_elem.
    change (map service_dates (trips c)) with (service_dates <$> trips c).
    rewrite list_elem_of_fmap. naive_solver.
Qed.

(** C11: the calendar is correct and minimal: every trip is assigned an
    entry holding exactly its operating days, no day set is listed twice,
    and the entries are the old ones and the trips' day sets, nothing
    else (so, from an empty calendar, there are exactly as many services
    as distinct day sets). *)
Theorem generate_calendar_dates_correct c :
  NoDup (calendar_dates c) -> Forall unassigned (trips c) ->
  length (trips (generate_calendar_dates c)) = length (trips c) /\
  (forall i t, trips c !! i = Some t -> exists j,
      trips (generate_calendar_dates c) !! i = Some (with_service_id j t) /\
      calendar_dates (generate_calendar_dates c) !! j = Some (service_dates t)) /\
  NoDup (calendar_dates (generate_calendar_dates c)) /\
  (forall s, s ∈ calendar_dates (generate_calendar_dates c) <->
             s ∈ calendar_dates c \/ exists t, t ∈ trips c /\ service_dates t = s).
Proof. apply generate_calendar_dates_props. Qed.
End CalendarProps.

Module CalendarWitnesses.
Import Calendar CalendarProps Samples.
Local Open Scope Z_scope.

Definition dated_trip (name : string) (ds : gset Z) : Trip :=
  mkTrip [st_A; st_B] (Some name) (Some "ICE"%string) (Some "DB Fernverkehr"%string) 0 ""
         day_2016_01_01 ds None.

(** Three trips running on 2016-01-01, 2016-01-01 and 2016-01-02. *)
Definition calendar_converter : Converter :=
  set_trips [dated_trip "ICE 100" {[day_2016_01_01]}; dated_trip "ICE 102" {[day_2016_01_01]};
             dated_trip "ICE 104" {[day_2016_01_01 + 1]}] sample_converter.

Lemma generate_calendar_dates_refines_witness :
  Forall unassigned (trips calendar_converter) /\
  generate_calendar_dates calendar_converter =
    set_calendar (intern_all (map service_dates (trips calendar_converter)) (calendar_dates calendar_converter)).2
      (set_trips (zip_with with_service_id
                   (intern_all (map service_dates (trips calendar_converter)) (calendar_dates calendar_converter)).1
                   (trips calendar_converter)) calendar_converter).
Proof.
  assert (H : Forall unassigned (trips calendar_converter)) by repeat constructor.
  split; [exact H|]. exact (generate_calendar_dates_refines calendar_converter H).
Defined.

Lemma generate_calendar_dates_correct_witness :
  NoDup (calendar_dates calendar_converter) /\ Forall unassigned (trips calendar_converter) /\
  NoDup (calendar_dates (generate_calendar_dates calendar_converter)).
Proof.
  assert (H1 : NoDup (calendar_dates calendar_converter)) by constructor.
  assert (H2 : Forall unassigned (trips calendar_converter)) by repeat constructor.
  split_and!; [exact H1|exact H2|].
  exact (proj1 (proj2 (proj2 (generate_calendar_dates_correct calendar_converter H1 H2)))).
Defined.

End CalendarWitnesses.
