(* ===== verification/Output.v ===== *)
(** * GTFS output: the rows of the [write_*] methods (db_to_gtfs.py:295-413)

    Each writer turns a table of the converter into CSV rows through a
    [csv.DictWriter]: a header row with the field names, then one row per
    record, the cells in the order of the field names.  The rows are
    modelled as lists of cells, each cell the text the writer emits: [str]
    of an integer, the string itself, and the empty cell for [None].  The
    CSV text the writer makes of the rows (quoting, line ends) and the
    files are not modelled.  Dates are written with [strftime('%Y%m%d')],
    a Section variable. *)

From stdpp Require Import base list strings gmap.
From Stdlib Require Import ZArith Lia.
From S2P Require Import Prelude Python Api Converter.

Local Open Scope py_scope.

Module Output.

Definition row := list string.

(** The cell of an optional text: [None] is written as an empty cell. *)
Definition opt_cell (o : option string) : string :=
  match o with Some s => s | None => "" end.

Definition nat_cell (n : nat) : string := py_str (Z.of_nat n).

(** [write_trips] (295-325): the trip row and its stop-time rows.  Note
    that the [route_id] cell is the trip's own index [tid]. *)
Definition trip_fieldnames : row := ["route_id"; "service_id"; "trip_id"; "trip_headsign"].
Definition stoptimes_fieldnames : row :=
  ["trip_id"; "arrival_time"; "departure_time"; "stop_id"; "stop_sequence"].

Definition trip_row (tid : nat) (t : Trip) : res row :=
  let? sid := of_option KeyError (service_id t) in
  Ok [nat_cell tid; nat_cell sid; nat_cell tid; headsign t].

Definition stoptime_row (tid : nat) (st : StopTime) : row :=
  [nat_cell tid; st_arrival_time st +:+ ":00"; st_departure_time st +:+ ":00";
   py_str (st_stop_id st); py_str (st_stop_sequence st)].

Fixpoint trips_rows (tid : nat) (ts : list Trip) : res (list row * list row) :=
  match ts with
  | [] => Ok ([], [])
  | t :: ts' =>
      let? r := trip_row tid t in
      let? rest := trips_rows (S tid) ts' in
      Ok (r :: rest.1, map (stoptime_row tid) (stoptimes t) ++ rest.2)
  end.

Definition write_trips (c : Converter) : res (list row * list row) :=
  let? rows := trips_rows 0 (trips c) in
  Ok (trip_fieldnames :: rows.1, stoptimes_fieldnames :: rows.2).

(** [write_routes] (327-343) *)
Definition route_fieldnames : row :=
  ["route_id"; "route_short_name"; "route_long_name"; "route_type"; "agency_id"].

Definition route_row (rid : nat) (r : Route) : row :=
  [nat_cell rid; opt_cell (route_short_name r); opt_cell (route_long_name r);
   py_str (route_type r); opt_cell (route_agency_id r)].

Definition write_routes (c : Converter) : list row :=
  route_fieldnames :: imap route_row (routes c).

(** [write_stops] (345-362): the stations with [has_trip], in the
    dictionary's iteration order. *)
Definition stop_fieldnames : row := ["stop_id"; "stop_name"; "stop_lat"; "stop_lon"].

Definition stop_row (st : Station) : row :=
  [py_str (stop_id st); stop_name st; stop_lat st; stop_lon st].

Fixpoint stops_rows (l : list Station) : list row :=
  match l with
  | [] => []
  | st :: l' => if has_trip st then stop_row st :: stops_rows l' else stops_rows l'
  end.

Definition write_stops (c : Converter) : list row :=
  stop_fieldnames :: stops_rows (map snd (map_to_list (stops c))).

Section Dates.
Context (strftime_ymd : Z -> string).

(** [write_calendar_dates] (364-378): one row per day of every service,
    the days of a set in its iteration order. *)
Definition calendar_fieldnames : row := ["service_id"; "date"; "exception_type"].

Definition calendar_rows (sid : nat) (cdate : gset Z) : list row :=
  map (fun d => [nat_cell sid; strftime_ymd d; "1"]) (elements cdate).

Definition write_calendar_dates (c : Converter) : list row :=
  calendar_fieldnames :: concat (imap calendar_rows (calendar_dates c)).

(** [write_feed_info] (398-413) *)
Definition feed_info_fieldnames : row :=
  ["feed_publisher_name"; "feed_publisher_url"; "feed_lang"; "feed_start_date"; "feed_end_date"].

Definition write_feed_info (c : Converter) : list row :=
  [feed_info_fieldnames;
   ["DB-to-GTFS converter, based on DB-API data"; "http://www.patrickbrosi.de/de/dbgtfs"; "de";
    strftime_ymd (start_date c); strftime_ymd (end_date c)]].
End Dates.

(** [write_agencies] (380-396): the agency's key is also its name. *)
Definition agency_fieldnames : row :=
  ["agency_id"; "agency_name"; "agency_url"; "agency_timezone"; "agency_lang"].

Definition agency_row (a : option string) : row :=
  [opt_cell a; opt_cell a; "http://www.bahn.de"; "Europe/Berlin"; "de"].

Definition write_agencies (c : Converter) : list row :=
  agency_fieldnames :: map agency_row (agencies c).

(** The files written by [main] (450-455), in its order. *)
Record Feed := mkFeed {
  trips_txt : list row;
  stop_times_txt : list row;
  stops_txt : list row;
  calendar_dates_txt : list row;
  routes_txt : list row;
  agency_txt : list row;
  feed_info_txt : list row
}.

Definition write_feed (strftime_ymd : Z -> string) (c : Converter) : res Feed :=
  let? tables := write_trips c in
  Ok (mkFeed tables.1 tables.2 (write_stops c) (write_calendar_dates strftime_ymd c) (write_routes c)
             (write_agencies c) (write_feed_info strftime_ymd c)).

End Output.

Module OutputProps.
Import Output.

Definition assigned (t : Trip) : Prop := service_id t <> None.

Lemma trips_rows_Ok tid ts :
  Forall assigned ts ->
  exists rs srs, trips_rows tid ts = Ok (rs, srs) /\ length rs = length ts /\
    length srs = sum_list (map (fun t => length (stoptimes t)) ts) /\
    forall i t, ts !! i = Some t -> exists sid, service_id t = Some sid /\
      rs !! i = Some [nat_cell (tid + i); nat_cell sid; nat_cell (tid + i); headsign t].
Proof.
  revert tid. induction ts as [|t ts IH]; intros tid Hts.
  - exists [], []. split_and!; [done..|]. intros i t Hi. by rewrite lookup_nil in Hi.
  - apply Forall_cons in Hts as [Ht Hts]. destruct (service_id t) as [sid|] eqn:Hs; [|done].
    destruct (IH (S tid) Hts) as (rs & srs & Hr & Hl & Hsl & Hi).
    simpl. unfold trip_row. rewrite Hs, Hr. simpl. eexists _, _. split; [reflexivity|].
    split_and!; simpl; [lia|rewrite length_app, length_map; lia|].
    intros [|i] t' Hl'; simpl in Hl'.
    + injection Hl' as <-. exists sid. by rewrite Nat.add_0_r.
    + destruct (Hi i t' Hl') as (s' & Hs' & Hr'). exists s'. split; [done|].
      by replace (tid + S i)%nat with (S tid + i)%nat by lia.
Qed.

Lemma trips_rows_KeyError tid ts :
  Exists (fun t => service_id t = None) ts -> trips_rows tid ts = Exc KeyError.
Proof.
  revert tid. induction ts as [|t ts IH]; intros tid Hts; [by apply Exists_nil in Hts|].
  simpl. unfold trip_row. destruct (service_id t) as [sid|] eqn:Hs; simpl; [|done].
  apply Exists_cons in Hts as [Ht|Hts]; [congruence|]. by rewrite IH.
Qed.

Lemma stops_rows_elem l r :
  r ∈ stops_rows l <-> exists st, st ∈ l /\ has_trip st = true /\ r = stop_row st.
Proof.
  induction l as [|st l IH]; simpl.
  - split; [intros Hr; inversion Hr|]. intros (st & Hst & _). inversion Hst.
  - setoid_rewrite elem_of_cons. destruct (has_trip st) eqn:Hh; [rewrite elem_of_cons|]; rewrite IH.
    + split; [intros [->|(st' & ? & ? & ->)]; eauto|].
      intros (st' & [->|?] & ? & ->); eauto.
    + split; [intros (st' & ? & ? & ->); eauto|].
      intros (st' & [->|?] & ? & ->); [congruence|eauto].
Qed.

Lemma station_values_elem (m : gmap Z Station) st :
  st ∈ map snd (map_to_list m) <-> exists sid, m !! sid = Some st.
Proof.
  change (map snd (map_to_list m)) with (snd <$> map_to_list m).
  rewrite list_elem_of_fmap. split.
  - intros ([sid st'] & -> & Hin). exists sid. by apply elem_of_map_to_list.
  - intros [sid Hs]. exists (sid, st). split; [done|]. by apply elem_of_map_to_list.
Qed.

Lemma map_elem {A B} (f : A -> B) (l : list A) y : y ∈ map f l <-> exists x, y = f x /\ x ∈ l.
Proof. exact (list_elem_of_fmap f l y). Qed.

Lemma concat_elem {A} (x : A) (L : list (list A)) : x ∈ concat L <-> exists l, x ∈ l /\ l ∈ L.
Proof.
  induction L as [|l L IH]; simpl.
  - split; [intros Hx; inversion Hx|]. intros (l & _ & Hl). inversion Hl.
  - rewrite elem_of_app, IH. setoid_rewrite elem_of_cons. naive_solver.
Qed.

Lemma imap_elem {A B} (f : nat -> A -> B) (l : list A) y :
  y ∈ imap f l <-> exists i x, l !! i = Some x /\ y = f i x.
Proof.
  rewrite list_elem_of_lookup. split.
  - intros [i Hi]. apply list_lookup_imap_Some in Hi as (x & Hx & ->). eauto.
  - intros (i & x & Hx & ->). exists i. apply list_lookup_imap_Some. eauto.
Qed.

Lemma write_trips_props c :
  (Exists (fun t => service_id t = None) (trips c) -> write_trips c = Exc KeyError) /\
  (Forall assigned (trips c) ->
   exists rs srs, write_trips c = Ok (trip_fieldnames :: rs, stoptimes_fieldnames :: srs) /\
     length rs = length (trips c) /\
     length srs = sum_list (map (fun t => length (stoptimes t)) (trips c)) /\
     forall i t, trips c !! i = Some t -> exists sid, service_id t = Some sid /\
       rs !! i = Some [nat_cell i; nat_cell sid; nat_cell i; headsign t]).
Proof.
  unfold write_trips. split.
  - intros H. by rewrite trips_rows_KeyError.
  - intros H. destruct (trips_rows_Ok 0 (trips c) H) as (rs & srs & -> & Hl & Hs & Hi).
    exists rs, srs. split_and!; [done..|]. exact Hi.
Qed.


(** C30: [write_trips] raises [KeyError] when some trip has no service id;
    when every trip has one it writes the header and one row per trip,
    the [i]-th row being [i, service_id, i, headsign], and one stop-time
    row per stop time. *)
Theorem write_trips_spec c :
  (Exists (fun t => service_id t = None) (trips c) -> write_trips c = Exc KeyError) /\
  (Forall assigned (trips c) ->
   exists rs srs, write_trips c = Ok (trip_fieldnames :: rs, stoptimes_fieldnames :: srs) /\
     length rs = length (trips c) /\
     length srs = sum_list (map (fun t => length (stoptimes t)) (trips c)) /\
     forall i t, trips c !! i = Some t -> exists sid, service_id t = Some sid /\
       rs !! i = Some [nat_cell i; nat_cell sid; nat_cell i; headsign t]).
Proof. apply write_trips_props. Qed.

(** C31: [stops.txt] lists, after its header, exactly the registered
    stations marked as served by some trip. *)
Theorem write_stops_spec c r :
  r ∈ tail (write_stops c) <->
  exists sid st, stops c !! sid = Some st /\ has_trip st = true /\ r = stop_row st.
Proof.
  simpl. rewrite stops_rows_elem. setoid_rewrite station_values_elem. naive_solver.
Qed.

(** [calendar_dates.txt] has, after its header, exactly one row
    [sid, date, 1] for every day of every service [sid]. *)
Theorem write_calendar_dates_spec (strftime_ymd : Z -> string) c r :
  r ∈ tail (write_calendar_dates strftime_ymd c) <->
  exists sid cdate d, calendar_dates c !! sid = Some cdate /\ d ∈ cdate /\
    r = [nat_cell sid; strftime_ymd d; "1"].
Proof.
  simpl. rewrite concat_elem. setoid_rewrite imap_elem. split.
  - intros (l & Hr & sid & cdate & Hc & ->). unfold calendar_rows in Hr.
    apply map_elem in Hr as (d & -> & Hd). apply elem_of_elements in Hd. eauto 6.
  - intros (sid & cdate & d & Hc & Hd & ->). exists (calendar_rows strftime_ymd sid cdate).
    split; [|eauto]. apply map_elem. exists d. split; [done|]. by apply elem_of_elements.
Qed.
End OutputProps.

Module OutputWitnesses.
Import Output OutputProps.

Definition served_trip (rid sid : nat) : Trip :=
  mkTrip [] (Some "ICE 100") (Some "ICE") (Some "DB Fernverkehr") rid "M&#252;nchen Hbf" 16801 {[16801%Z]}
         (Some sid).

Lemma write_trips_spec_witness :
  Forall assigned (trips (set_trips [served_trip 1 0] (init_converter 16801 16804))) /\
  exists rs srs, write_trips (set_trips [served_trip 1 0] (init_converter 16801 16804)) =
                   Ok (trip_fieldnames :: rs, stoptimes_fieldnames :: srs) /\
    length rs = 1%nat.
Proof.
  assert (H : Forall assigned (trips (set_trips [served_trip 1 0] (init_converter 16801 16804))))
    by (repeat constructor; discriminate).
  split; [exact H|].
  destruct (proj2 (write_trips_spec (set_trips [served_trip 1 0] (init_converter 16801 16804))) H)
    as (rs & srs & Hw & Hl & _ & _).
  exists rs, srs. split; [exact Hw|exact Hl].
Defined.
End OutputWitnesses.

