(* ===== verification/Main.v ===== *)
(** * The run of [main] (db_to_gtfs.py:423-458)

    [main] builds the converter for the date window, registers the seed
    stations, crawls until no station is left unfetched, assigns the
    service ids and writes the feed.  [MainEmptyWindow] shows what a
    window with no day does.  The command line and its default dates are
    in [Cli]; the final message is output only. *)

From stdpp Require Import base list strings gmap.
From Stdlib Require Import ZArith Lia.
From S2P Require Import Prelude Python Api Converter Samples Stations Routes TripBuilder Crawl CrawlTermination Calendar Output.

Local Open Scope py_scope.

Module Main.
Import Crawl Calendar Output.

Section WithEnv.
Context (env : Env) (strftime_ymd : Z -> string).

(** The crawl: the seeds of 436-441, then the loop of 443-446.  [fuel]
    bounds the stations crawled by the loop, [inner] the queries of one
    station. *)
Definition crawl (fuel inner : nat) (seeds : string) : MF Converter unit :=
  bindF (liftF (seed_stations env seeds)) (fun _ => main_loop env fuel inner).

(** After the crawl (448-455): the calendar, then the files. *)
Definition finish : M Converter Feed :=
  modifyM generate_calendar_dates ;;;
  c <- getM ;;
  feed <- liftR (write_feed strftime_ymd c) ;;
  retM feed.

Definition main (fuel inner : nat) (seeds : string) (start end_ : Z) : option (res (Feed * Converter)) :=
  bindF (crawl fuel inner seeds) (fun _ => liftF finish) (init_converter start end_).
End WithEnv.
End Main.

Module MainProps.
Import TripBuilder Crawl CrawlInv CrawlTermination Calendar CalendarProps Output OutputProps Main.

Lemma init_crawl_inv start end_ : crawl_inv (init_converter start end_).
Proof.
  unfold crawl_inv, converter_wf, Routes.routes_wf. simpl.
  split_and!; try constructor. apply map_Forall_empty.
Qed.

Lemma crawl_crawl_inv env fuel inner seeds : preservesF crawl_inv (crawl env fuel inner seeds).
Proof.
  unfold crawl. apply preservesF_bindF; [apply preservesF_liftF, seed_stations_inv|].
  intros _. apply main_loop_inv.
Qed.

(** After [generate_calendar_dates] every trip has a service id. *)
Lemma assigned_after_calendar c :
  NoDup (calendar_dates c) -> Forall unassigned (trips c) ->
  Forall assigned (trips (generate_calendar_dates c)).
Proof.
  intros Hnd Hun. destruct (generate_calendar_dates_props c Hnd Hun) as (Hlen & Hi & _ & _).
  apply Forall_lookup_2. intros i t' Ht'.
  destruct (lookup_lt_is_Some_2 (trips c) i) as [t Ht].
  { rewrite <- Hlen. by eapply lookup_lt_Some. }
  destruct (Hi i t Ht) as (j & Hj & _). rewrite Ht' in Hj. injection Hj as ->. discriminate.
Qed.

Lemma main_crawl env strftime_ymd fuel inner seeds start end_ c1 :
  crawl env fuel inner seeds (init_converter start end_) = Some (Ok (tt, c1)) ->
  main env strftime_ymd fuel inner seeds start end_ =
    Some (bindR (write_feed strftime_ymd (generate_calendar_dates c1))
                (fun feed => Ok (feed, generate_calendar_dates c1))).
Proof.
  intros Hc. unfold main, bindF. rewrite Hc. unfold liftF, finish. py_simp.
  by destruct (write_feed _ _).
Qed.

Lemma main_feed_props env strftime_ymd fuel inner seeds start end_ c1 :
  crawl env fuel inner seeds (init_converter start end_) = Some (Ok (tt, c1)) ->
  converter_wf c1 /\
  exists feed, main env strftime_ymd fuel inner seeds start end_ = Some (Ok (feed, generate_calendar_dates c1)) /\
    NoDup (calendar_dates (generate_calendar_dates c1)) /\
    forall i t, trips c1 !! i = Some t -> exists j,
      trips_txt feed !! S i = Some [nat_cell i; nat_cell j; nat_cell i; headsign t] /\
      calendar_dates (generate_calendar_dates c1) !! j = Some (service_dates t).
Proof.
  intros Hc. destruct (crawl_crawl_inv env fuel inner seeds _ _ _ Hc (init_crawl_inv start end_))
    as (Hwf & Hun & Hcal).
  assert (Hnd : NoDup (calendar_dates c1)) by (rewrite Hcal; constructor).
  destruct (generate_calendar_dates_props c1 Hnd Hun) as (_ & Hi & Hnd' & _).
  destruct (proj2 (write_trips_props (generate_calendar_dates c1)) (assigned_after_calendar c1 Hnd Hun))
    as (rs & srs & Hw & _ & _ & Hrows).
  split; [exact Hwf|]. rewrite (main_crawl env strftime_ymd fuel inner seeds start end_ c1 Hc).
  unfold write_feed. rewrite Hw. simpl. eexists. split; [reflexivity|]. split; [exact Hnd'|].
  intros i t Ht. destruct (Hi i t Ht) as (j & Htj & Hj). exists j. split; [|exact Hj].
  destruct (Hrows i _ Htj) as (sid & Hsid & Hr). simpl in Hsid. injection Hsid as <-. exact Hr.
Qed.

(** C1: whatever the API answers, a crawl that completes leaves the
    converter's tables well formed, and [main] then writes the feed
    without error: the calendar lists no day set twice and the [i]-th row
    of trips.txt names a service whose calendar entry is exactly the
    operating days of the [i]-th trip. *)
Theorem main_writes_consistent_feed env strftime_ymd fuel inner seeds start end_ c1 :
  crawl env fuel inner seeds (init_converter start end_) = Some (Ok (tt, c1)) ->
  converter_wf c1 /\
  exists feed, main env strftime_ymd fuel inner seeds start end_ = Some (Ok (feed, generate_calendar_dates c1)) /\
    NoDup (calendar_dates (generate_calendar_dates c1)) /\
    forall i t, trips c1 !! i = Some t -> exists j,
      trips_txt feed !! S i = Some [nat_cell i; nat_cell j; nat_cell i; headsign t] /\
      calendar_dates (generate_calendar_dates c1) !! j = Some (service_dates t).
Proof. apply main_feed_props. Qed.
(** ** [main] terminates *)
Lemma crawl_some env U fuel inner seeds start end_ :
  journeys_in U env -> stations_in U env -> (size U < fuel)%nat ->
  (Z.to_nat (end_ - start) < inner)%nat ->
  is_Some (crawl env fuel inner seeds (init_converter start end_)).
Proof.
  intros Hj Hs Hfuel Hin. unfold crawl, bindF at 1, liftF at 1. cbv beta.
  destruct (seed_stations env seeds (init_converter start end_)) as [[[] c1]|e] eqn:Es; [|by eexists].
  pose proof (seed_stations_inv env seeds _ tt c1 Es (init_crawl_inv start end_)) as Hi.
  assert (H0 : term_inv U (init_converter start end_) (init_converter start end_)).
  { apply term_inv_refl; [simpl; rewrite dom_empty_L; set_solver|apply map_Forall_empty]. }
  destruct (seed_stations_term env U _ seeds Hs _ tt c1 Es H0) as (Hd & Hf & Hst & He & _).
  apply (main_loop_some env U Hj); [exact Hi|exact Hd|exact Hf|lia|].
  rewrite Hst, He. exact Hin.
Qed.

Lemma main_some env strftime_ymd U fuel inner seeds start end_ :
  journeys_in U env -> stations_in U env -> (size U < fuel)%nat ->
  (Z.to_nat (end_ - start) < inner)%nat ->
  is_Some (main env strftime_ymd fuel inner seeds start end_).
Proof.
  intros Hj Hs Hfuel Hin. destruct (crawl_some env U fuel inner seeds start end_ Hj Hs Hfuel Hin) as [r Hr].
  unfold main, bindF. rewrite Hr. destruct r as [[u c1]|e]; by eexists.
Qed.

(** C2: [main] terminates: if every station id the two APIs can mention
    lies in a finite set [U], a run with more fuel than [size U] stations
    and more than the days of the window per station returns (the feed,
    or the Python exception that ends the run) whatever the departure
    boards say. *)
Theorem main_terminates env strftime_ymd U fuel inner seeds start end_ :
  journeys_in U env -> stations_in U env -> (size U < fuel)%nat ->
  (Z.to_nat (end_ - start) < inner)%nat ->
  is_Some (main env strftime_ymd fuel inner seeds start end_).
Proof. apply main_some. Qed.
End MainProps.

(** ** An empty date window

    With [--end-date] not after [--start-date], every station the seeds
    register starts with its cursor at the end date: the crawl marks each
    one fetched without a single departure-board query, and the feed
    holds the headers only (and the feed info with the two dates). *)
Module MainEmptyWindow.
Import Stations StationsProps Crawl CrawlProps CrawlInv CrawlTermination Calendar Output OutputProps
       Main MainProps.

(** No trip, route or agency, every station's cursor at or after the end
    [e] of the window [s, e] (with [e <= s]) and no station marked
    served. *)
Definition window_closed (s e : Z) (c : Converter) : Prop :=
  start_date c = s /\ end_date c = e /\ (e <= s)%Z /\ trips c = [] /\ routes c = [] /\ agencies c = [] /\
  map_Forall (fun _ st => (e <= last_date st)%Z /\ has_trip st = false) (stops c).

Lemma window_closed_insert s e c k st :
  window_closed s e c -> (e <= last_date st)%Z -> has_trip st = false ->
  window_closed s e (set_stops (<[k := st]> (stops c)) c).
Proof.
  intros (H1 & H2 & H3 & H4 & H5 & H6 & H7) Hl Hh. split_and!; try assumption.
  by apply map_Forall_insert_2.
Qed.

Section WithEnv.
Context (env : Env) (s e : Z).

Lemma process_station_by_id_closed sid : preserves (window_closed s e) (process_station_by_id env sid).
Proof.
  intros c u c' H Hw. unfold process_station_by_id in H. py_simp.
  destruct (stops c !! sid); [by simplify_eq|].
  destruct (fetch_station env (py_str sid)) as [ex|[[so|l]|]]; simpl in H; try discriminate.
  - change (process_station_by_ob env (Some (JOne so)) c = Ok (u, c')) in H.
    rewrite process_station_by_ob_one in H. destruct (py_int (so_id so)) as [k|]; [|discriminate].
    destruct (stops c !! k); simplify_eq; [exact Hw|].
    pose proof Hw as (Hs & He & Hle & _). apply window_closed_insert; simpl; [exact Hw|lia|done].
  - unfold process_station_by_ob in H. by apply retM_Ok in H as [_ ->].
Qed.

#[local] Hint Resolve process_station_by_id_closed : py.

Lemma seed_stations_closed seeds : preserves (window_closed s e) (seed_stations env seeds).
Proof. unfold seed_stations. preserves_tac. Qed.

(** The crawl of a station whose cursor is already at the end date:
    [trips_fetched] is set and the [while] loop does not run. *)
Lemma get_all_trips_for_stop_closed inner sid c st :
  (0 < inner)%nat -> window_closed s e c -> stops c !! sid = Some st -> trips_fetched st = false ->
  get_all_trips_for_stop env inner sid c = Some (Ok (tt, set_stops (<[sid := set_fetched st]> (stops c)) c)).
Proof.
  intros Hin Hw Hs Hf. destruct inner as [|f]; [lia|].
  unfold get_all_trips_for_stop, bindF, liftF. rewrite (read_station_found _ _ _ Hs), Hf.
  unfold update_station, bindM, modifyM. rewrite (read_station_found _ _ _ Hs).
  rewrite (crawl_loop_step env f sid _ (set_fetched st)) by (simpl; apply lookup_insert_eq).
  destruct Hw as (_ & He & _ & _ & _ & _ & Hst). destruct (Hst sid st Hs) as [Hl _].
  simpl. rewrite He. by replace (Z.ltb (last_date st) e) with false by (symmetry; apply Z.ltb_ge; lia).
Qed.

Lemma fetched_insert_fetched c sid st k :
  fetched (set_stops (<[sid := set_fetched st]> (stops c)) c) k =
    if decide (k = sid) then true else fetched c k.
Proof.
  unfold fetched. simpl. case_decide as Hk.
  - subst. by rewrite lookup_insert_eq.
  - by rewrite lookup_insert_ne by congruence.
Qed.

(** The loop of [main] marks the stations fetched one by one, within
    [size U] iterations for a registry whose ids lie in [U]. *)
Lemma main_loop_closed (U : gset Z) fuel inner c :
  (0 < inner)%nat -> crawl_inv c -> window_closed s e c -> dom (stops c) ⊆ U ->
  (size U - size (fetched_in U c) < fuel)%nat ->
  exists c', main_loop env fuel inner c = Some (Ok (tt, c')) /\ window_closed s e c' /\
             dom (stops c') = dom (stops c) /\
             (map_Forall (fun _ st => trips_fetched st = true) (stops c') \/
              exists st, stops c' !! 0%Z = Some st /\ trips_fetched st = false).
Proof.
  revert c. induction fuel as [|fuel IH]; intros c Hin Hi Hw Hd Hfuel; [lia|].
  rewrite main_loop_step.
  pose proof (get_unfetched_station_id_spec c (proj1 (proj2 (proj1 Hi)))) as Hsp.
  destruct (get_unfetched_station_id c) as [sid|]; [|exists c; by split_and!; [..|left]].
  destruct Hsp as (st & Hs & Hnf). destruct (Z.eqb sid 0) eqn:Hz.
  { apply Z.eqb_eq in Hz as ->. exists c. split_and!; [done..|right; by exists st]. }
  unfold bindF. rewrite (get_all_trips_for_stop_closed inner sid c st Hin Hw Hs Hnf).
  set (c1 := set_stops (<[sid := set_fetched st]> (stops c)) c).
  assert (Hdom : dom (stops c1) = dom (stops c)).
  { simpl. rewrite dom_insert_L. apply elem_of_dom_2 in Hs. set_solver. }
  assert (Hgrow : (size (fetched_in U c) < size (fetched_in U c1))%nat).
  { apply (fetched_in_grows U c c1 sid st Hd Hs Hnf).
    - intros k Hk. unfold c1. rewrite fetched_insert_fetched. by case_decide.
    - unfold c1. rewrite fetched_insert_fetched. by case_decide. }
  pose proof (fetched_in_size U c1).
  destruct (IH c1) as (c' & Hm & Hw' & Hd' & Hend); try assumption.
  - exact (get_all_trips_for_stop_inv env inner sid c tt c1
             (get_all_trips_for_stop_closed inner sid c st Hin Hw Hs Hnf) Hi).
  - pose proof Hw as (_ & _ & _ & _ & _ & _ & Hst). destruct (Hst sid st Hs) as [Hl Hh].
    by apply window_closed_insert.
  - by rewrite Hdom.
  - lia.
  - exists c'. split_and!; [exact Hm|exact Hw'|by rewrite Hd'|exact Hend].
Qed.
End WithEnv.

Lemma stops_rows_unserved l : Forall (fun st => has_trip st = false) l -> stops_rows l = [].
Proof.
  intros Hl. destruct (stops_rows l) as [|r rs] eqn:E; [done|].
  assert (Hr : r ∈ stops_rows l) by (rewrite E; left).
  apply stops_rows_elem in Hr as (st & Hst & Hh & _).
  rewrite Forall_forall in Hl. rewrite (Hl st Hst) in Hh. discriminate.
Qed.

(** The feed of an empty window: every table is its header alone, and
    the feed info names the window. *)
Definition headers_only_feed (strftime_ymd : Z -> string) (s e : Z) : Feed :=
  mkFeed [trip_fieldnames] [stoptimes_fieldnames] [stop_fieldnames] [calendar_fieldnames]
         [route_fieldnames] [agency_fieldnames] (write_feed_info strftime_ymd (init_converter s e)).

Lemma finish_closed strftime_ymd s e c :
  window_closed s e c -> calendar_dates c = [] ->
  finish strftime_ymd c = Ok (headers_only_feed strftime_ymd s e, set_calendar [] (set_trips [] c)).
Proof.
  intros (Hs & He & _ & Ht & Hr & Ha & Hst) Hcal. unfold finish, generate_calendar_dates. py_simp.
  rewrite Ht, Hcal. simpl. unfold write_feed, write_trips. simpl.
  unfold write_stops. simpl. rewrite stops_rows_unserved.
  - unfold headers_only_feed, write_routes, write_agencies, write_calendar_dates, write_feed_info.
    simpl. rewrite Hr, Ha, Hs, He. reflexivity.
  - apply Forall_forall. intros st Hx. apply list_elem_of_fmap in Hx as ([k st'] & -> & Hx).
    apply elem_of_map_to_list in Hx. exact (proj2 (Hst k st' Hx)).
Qed.

Lemma init_window_closed start end_ :
  (end_ <= start)%Z -> window_closed start end_ (init_converter start end_).
Proof. intros H. split_and!; try reflexivity; [exact H|apply map_Forall_empty]. Qed.

(** C13: an empty date window ([--end-date] not after [--start-date])
    yields a feed of headers only, whatever the API answers: the seeds are
    registered, the loop of [main] marks each of them fetched without a
    departure-board query (within one iteration per station), and every
    table is its header, the feed info naming the window. The stations
    registered are exactly the seeds registered, and each of them ends
    fetched, unless the loop stopped at an unfetched station of id 0
    ([while sid:]). *)
Theorem main_empty_window env strftime_ymd fuel inner seeds start end_ c1 :
  (end_ <= start)%Z -> (0 < inner)%nat ->
  seed_stations env seeds (init_converter start end_) = Ok (tt, c1) ->
  (size (dom (stops c1)) < fuel)%nat ->
  exists c', main env strftime_ymd fuel inner seeds start end_ =
               Some (Ok (headers_only_feed strftime_ymd start end_, c')) /\
             dom (stops c') = dom (stops c1) /\
             (map_Forall (fun _ st => trips_fetched st = true) (stops c') \/
              exists st, stops c' !! 0%Z = Some st /\ trips_fetched st = false).
Proof.
  intros Hle Hin Hseed Hfuel. unfold main, crawl, bindF, liftF. rewrite Hseed.
  pose proof (seed_stations_inv env seeds _ _ _ Hseed (init_crawl_inv start end_)) as Hi.
  pose proof (seed_stations_closed env start end_ seeds _ _ _ Hseed (init_window_closed start end_ Hle)) as Hw.
  destruct (main_loop_closed env start end_ (dom (stops c1)) fuel inner c1 Hin Hi Hw ltac:(done) ltac:(lia))
    as (c' & Hm & Hw' & Hd & Hend).
  rewrite Hm. pose proof (main_loop_inv env fuel inner c1 tt c' Hm Hi) as (_ & _ & Hcal).
  rewrite (finish_closed strftime_ymd start end_ c' Hw' Hcal).
  eexists. split_and!; [reflexivity|exact Hd|exact Hend].
Qed.
End MainEmptyWindow.

Module MainScenario.
Import Samples Main Output.

Lemma main_writes_consistent_feed_witness :
  exists c1, crawl sample_env 3 5 "8011160" (init_converter day_2016_01_01 (day_2016_01_01 + 3)%Z) =
             Some (Ok (tt, c1)) /\ TripBuilder.converter_wf c1.
Proof.
  eexists. split; [vm_compute; reflexivity|].
  refine (proj1 (MainProps.main_writes_consistent_feed sample_env iso_strftime_ymd 3 5 "8011160"
                   day_2016_01_01 (day_2016_01_01 + 3)%Z _ _)).
  vm_compute. reflexivity.
Defined.

Lemma sample_stations_in : CrawlTermination.stations_in CrawlTerminationWitnesses.sample_universe sample_env.
Proof.
  intros search so k Hf Hk. simpl in Hf.
  repeat case_bool_decide; simplify_eq. vm_compute in Hk. injection Hk as <-. set_solver.
Qed.

Lemma main_terminates_witness :
  CrawlTermination.journeys_in CrawlTerminationWitnesses.sample_universe sample_env /\
  CrawlTermination.stations_in CrawlTerminationWitnesses.sample_universe sample_env /\
  (size CrawlTerminationWitnesses.sample_universe < 3)%nat /\
  (Z.to_nat (day_2016_01_01 + 3 - day_2016_01_01) < 5)%nat /\
  is_Some (main sample_env iso_strftime_ymd 3 5 "8011160" day_2016_01_01 (day_2016_01_01 + 3)%Z).
Proof.
  assert (H3 : (size CrawlTerminationWitnesses.sample_universe < 3)%nat) by (vm_compute; lia).
  assert (H4 : (Z.to_nat (day_2016_01_01 + 3 - day_2016_01_01) < 5)%nat) by (vm_compute; lia).
  split_and!; [exact CrawlTerminationWitnesses.sample_journeys_in|exact sample_stations_in|exact H3|exact H4|].
  exact (MainProps.main_terminates sample_env iso_strftime_ymd CrawlTerminationWitnesses.sample_universe
           3 5 "8011160" day_2016_01_01 (day_2016_01_01 + 3)%Z
           CrawlTerminationWitnesses.sample_journeys_in sample_stations_in H3 H4).
Defined.
End MainScenario.

Module MainEmptyWindowWitnesses.
Import Samples Crawl Main MainEmptyWindow.

(** The registry after the seed 8011160 in the window [2016-01-01, 2016-01-01]. *)
Definition seeded_A : Converter :=
  match seed_stations sample_env "8011160" (init_converter day_2016_01_01 day_2016_01_01) with
  | Ok (_, c) => c
  | Exc _ => sample_converter
  end.

Lemma main_empty_window_witness :
  exists c', main sample_env iso_strftime_ymd 2 1 "8011160" day_2016_01_01 day_2016_01_01 =
               Some (Ok (headers_only_feed iso_strftime_ymd day_2016_01_01 day_2016_01_01, c')).
Proof.
  destruct (main_empty_window sample_env iso_strftime_ymd 2 1 "8011160" day_2016_01_01 day_2016_01_01
              seeded_A) as (c' & H & _).
  - lia.
  - lia.
  - vm_compute. reflexivity.
  - apply Nat.ltb_lt. vm_compute. reflexivity.
  - exists c'. exact H.
Defined.
End MainEmptyWindowWitnesses.
