(* ===== verification/Cli.v ===== *)
(** * The command line of [main] (db_to_gtfs.py:1-20, 423-441)

    docopt parses the usage text of the module's docstring into the
    options of [main]: the two dates ([None] when absent), the seed
    stations (default "8011160") and the output directory (default ".").
    [main] replaces an absent or empty start date by today's date and an
    absent or empty end date by the start date plus three days, written
    back as text, then parses both dates for the converter.  Today's date
    ([time.strftime]) and [strftime('%Y-%m-%d')] are Section variables;
    the docopt parser itself is a library and is not modelled. *)

From stdpp Require Import base list strings gmap.
From Stdlib Require Import ZArith Lia.
From S2P Require Import Prelude Python Api Converter Samples Crawl Output Main.

Local Open Scope py_scope.

Module Cli.
Import Main Output.

(** The options [docopt] returns for the usage text (8-19). *)
Record Options := mkOptions {
  opt_start_date : option string;
  opt_end_date : option string;
  opt_station_seed : string;
  opt_output_dir : string
}.

(** The defaults the usage text declares for the options not given. *)
Definition docopt_options (start end_ seed out : option string) : Options :=
  mkOptions start end_ (default "8011160" seed) (default "." out).

(** [not options[key]]: [None] and the empty string are false. *)
Definition py_not (o : option string) : bool :=
  match o with None => true | Some s => bool_decide (s = "") end.

Section WithEnv.
Context (env : Env) (strftime_iso strftime_ymd : Z -> string) (today : string).

(** 424-425 *)
Definition start_date_string (o : Options) : string :=
  if py_not (opt_start_date o) then today else default "" (opt_start_date o).

(** 426-428 *)
Definition end_date_string (o : Options) : res string :=
  if py_not (opt_end_date o) then
    let? d := of_sum (dateparse env (start_date_string o)) in Ok (strftime_iso (d + 3))
  else Ok (default "" (opt_end_date o)).

(** [main(options)] from the options (423-441), then the run of [Main]. *)
Definition main_cli (fuel inner : nat) (o : Options) : option (res (Feed * Converter)) :=
  match (let? e := end_date_string o in
         let? s := of_sum (dateparse env (start_date_string o)) in
         let? e' := of_sum (dateparse env e) in Ok (s, e')) with
  | Exc e => Some (Exc e)
  | Ok (start, end_) => main env strftime_ymd fuel inner (opt_station_seed o) start end_
  end.
End WithEnv.
End Cli.

Module CliProps.
Import Main Output Cli.

(** C4: the default feed window: with no (or an empty) start and end date
    on the command line, [main] crawls from today's date to three days
    later, provided [strftime] and [dateparse] agree on that date. *)
Theorem main_cli_defaults env strftime_iso strftime_ymd today fuel inner o d :
  py_not (opt_start_date o) = true -> py_not (opt_end_date o) = true ->
  dateparse env today = inr d -> dateparse env (strftime_iso (d + 3)%Z) = inr (d + 3)%Z ->
  main_cli env strftime_iso strftime_ymd today fuel inner o =
    main env strftime_ymd fuel inner (opt_station_seed o) d (d + 3)%Z.
Proof.
  intros Hs He Ht Hr. unfold main_cli, end_date_string, start_date_string.
  rewrite Hs, He, Ht. simpl. by rewrite Hr.
Qed.

(** C14: a start date [dateparse] rejects ends the run with its exception
    before anything is crawled or written. *)
Theorem main_cli_bad_start env strftime_iso strftime_ymd today fuel inner o s e :
  opt_start_date o = Some s -> s <> ""%string -> dateparse env s = inl e ->
  main_cli env strftime_iso strftime_ymd today fuel inner o = Some (Exc e).
Proof.
  intros Hs Hne He. unfold main_cli, end_date_string, start_date_string, py_not. rewrite Hs.
  rewrite bool_decide_eq_false_2 by done. simpl. rewrite He. simpl.
  by destruct (opt_end_date o) as [x|]; [destruct (bool_decide _)|].
Qed.

Module CliWitnesses.
Import Samples.

Definition default_options : Options := docopt_options None None None None.

Lemma main_cli_defaults_witness :
  py_not (opt_start_date default_options) = true /\ py_not (opt_end_date default_options) = true /\
  dateparse sample_env "2016-01-01" = inr day_2016_01_01 /\
  dateparse sample_env (iso_strftime_dash (day_2016_01_01 + 3)) = inr (day_2016_01_01 + 3)%Z /\
  main_cli sample_env iso_strftime_dash iso_strftime_ymd "2016-01-01" 3 5 default_options =
    main sample_env iso_strftime_ymd 3 5 "8011160" day_2016_01_01 (day_2016_01_01 + 3)%Z.
Proof.
  assert (H1 : py_not (opt_start_date default_options) = true) by reflexivity.
  assert (H2 : py_not (opt_end_date default_options) = true) by reflexivity.
  assert (H3 : dateparse sample_env "2016-01-01" = inr day_2016_01_01) by reflexivity.
  assert (H4 : dateparse sample_env (iso_strftime_dash (day_2016_01_01 + 3)) = inr (day_2016_01_01 + 3)%Z)
    by reflexivity.
  split_and!; [exact H1|exact H2|exact H3|exact H4|].
  exact (main_cli_defaults sample_env iso_strftime_dash iso_strftime_ymd "2016-01-01" 3 5
           default_options day_2016_01_01 H1 H2 H3 H4).
Defined.

Lemma main_cli_bad_start_witness :
  opt_start_date (docopt_options (Some "2016-13") None None None) = Some "2016-13"%string /\
  "2016-13"%string <> ""%string /\ dateparse sample_env "2016-13" = inl ValueError /\
  main_cli sample_env iso_strftime_dash iso_strftime_ymd "2016-01-01" 3 5
    (docopt_options (Some "2016-13") None None None) = Some (Exc ValueError).
Proof.
  assert (H1 : opt_start_date (docopt_options (Some "2016-13") None None None) = Some "2016-13"%string)
    by reflexivity.
  assert (H2 : "2016-13"%string <> ""%string) by discriminate.
  assert (H3 : dateparse sample_env "2016-13" = inl ValueError) by reflexivity.
  split_and!; [exact H1|exact H2|exact H3|].
  exact (main_cli_bad_start sample_env iso_strftime_dash iso_strftime_ymd "2016-01-01" 3 5 _ _ _ H1 H2 H3).
Defined.
End CliWitnesses.
End CliProps.
